(** * Iris (Integrated Runtime Intelligence Service): resilient multi-provider router

    A shallow embedding of the routing core of the repository

    - [gemini_integration.py]: [CircuitBreaker], [ResponseCache], the
      rate limiter [_check_rate_limit] and the request path
      [consult_gemini]; the statistics of the models
      ([_update_model_stats], [_get_best_available_model]), the retry
      loop [_make_gemini_request] and [_call_gemini_cli_with_model];
    - [src/optimized-ai-system.py]: [AdvancedCache], the cache key
      [_generate_hash], [_get_adaptive_provider],
      [_calculate_adaptive_timeout] and
      [_update_provider_stats_optimized]; [QueryPatternAnalyzer],
      [PerformanceMonitor], [_adaptive_provider_selection], the
      sequential consultations and the analytics.

    Conventions of the embedding.

    - Python [int] is [Z]; Python [float] (clock readings of [time.time()],
      latencies, scores, timeouts) is an exact rational [Q], so the
      theorems speak about the arithmetic the code writes down, not about
      IEEE rounding.
    - [datetime] and [timedelta] values are integers of microseconds, which
      is what Python stores.
    - Python dictionaries whose iteration order is irrelevant are [gmap]s;
      [access_times], whose order decides ties of the LRU sort, is an
      insertion-ordered association list.
    - Stateful methods take the object and return the updated object;
      the outside world (the clock, the provider processes) is a value
      threaded through every call that can observe or change it. *)

From Stdlib Require Import ZArith QArith Qminmax Lqa Lia List Bool Ascii String.
From Stdlib Require Import Sorted Permutation DecimalString.
From stdpp Require Import gmap strings.
Import ListNotations.

#[local] Open Scope Z_scope.

(** * Part I: the model *)

(** ** Python numerics *)

Module PyNum.

(** [a < b] on floats, as a boolean. *)
Definition Qlt_bool (a b : Q) : bool := negb (Qle_bool b a).

(** Python's [max(a, b)] and [min(a, b)] on two arguments: the first
    argument is kept unless the second is strictly better. *)
Definition py_max (a b : Q) : Q := if Qlt_bool a b then b else a.

Definition py_min (a b : Q) : Q := if Qlt_bool b a then b else a.

(** The spec's [clamp(x, lo, hi)]: [x] brought into [[lo, hi]]. *)
Definition clamp (x lo hi : Q) : Q := Qmax lo (Qmin x hi).

(** [sum(xs)] on floats. *)
Definition py_sum (xs : list Q) : Q := fold_left Qplus xs 0%Q.

End PyNum.

(** ** Python strings

    A [str] is a sequence of code points; the model covers the code
    points below 256, one [ascii] each.  On that range [str.isspace],
    [str.lower] and the UTF-8 [str.encode] are as below. *)

Module PyStr.

Definition code (c : ascii) : N := N_of_ascii c.

(** [c.isspace()]: TAB..CR, FS..US and space, NEL, NBSP. *)
Definition is_space (c : ascii) : bool :=
  let n := code c in
  (((9 <=? n) && (n <=? 13)) || ((28 <=? n) && (n <=? 32)) || (n =? 133) || (n =? 160))%N.

(** [c.lower()]: A-Z and the Latin-1 capitals (without the
    multiplication sign) move 32 code points up. *)
Definition lower_char (c : ascii) : ascii :=
  let n := code c in
  if (((65 <=? n) && (n <=? 90)) || ((192 <=? n) && (n <=? 214)) || ((216 <=? n) && (n <=? 222)))%N
  then ascii_of_N (n + 32) else c.

(** [s.lower()]. *)
Fixpoint lower (s : string) : string :=
  match s with
  | EmptyString => EmptyString
  | String c s' => String (lower_char c) (lower s')
  end.

(** [s.lstrip()]. *)
Fixpoint lstrip (s : string) : string :=
  match s with
  | EmptyString => EmptyString
  | String c s' => if is_space c then lstrip s' else s
  end.

(** [s.rstrip()]. *)
Fixpoint rstrip (s : string) : string :=
  match s with
  | EmptyString => EmptyString
  | String c s' =>
      match rstrip s' with
      | EmptyString => if is_space c then EmptyString else String c EmptyString
      | r => String c r
      end
  end.

(** [s.strip()]. *)
Definition strip (s : string) : string := lstrip (rstrip s).

(** [s.split()]: the maximal runs of non-whitespace.  [cur] is the word
    being read, if one has begun. *)
Fixpoint split_from (cur : option string) (s : string) : list string :=
  match s with
  | EmptyString => match cur with Some w => [w] | None => [] end
  | String c s' =>
      if is_space c
      then match cur with
           | Some w => w :: split_from None s'
           | None => split_from None s'
           end
      else split_from (Some (match cur with Some w => w | None => EmptyString end
                             ++ String c EmptyString)%string) s'
  end.

Definition split (s : string) : list string := split_from None s.

(** [len(xs)] as a Python [int]. *)
Definition len {A : Type} (xs : list A) : Z := Z.of_nat (List.length xs).

(** [s.encode()]: UTF-8, one byte below 128 and two bytes from there. *)
Fixpoint encode (s : string) : list Z :=
  match s with
  | EmptyString => []
  | String c s' =>
      let n := Z.of_N (code c) in
      if n <? 128 then n :: encode s'
      else Z.lor 192 (Z.shiftr n 6) :: Z.lor 128 (Z.land n 63) :: encode s'
  end.

(** [s[:n]]. *)
Fixpoint prefix (n : nat) (s : string) : string :=
  match n, s with
  | S n', String c s' => String c (prefix n' s')
  | _, _ => EmptyString
  end.

End PyStr.

(** ** hashlib.sha256

    SHA-256 (FIPS 180-4) on a list of bytes, with 32-bit words as [Z] and
    the wrap-around written out. *)

Module Sha256.

Definition mask32 : Z := 4294967295.

Definition add32 (a b : Z) : Z := Z.land (a + b) mask32.

Definition rotr (n x : Z) : Z :=
  Z.land (Z.lor (Z.shiftr x n) (Z.shiftl x (32 - n))) mask32.

Definition shr (n x : Z) : Z := Z.shiftr x n.

Definition Ch (x y z : Z) : Z :=
  Z.lxor (Z.land x y) (Z.land (Z.lxor x mask32) z).

Definition Maj (x y z : Z) : Z :=
  Z.lxor (Z.lxor (Z.land x y) (Z.land x z)) (Z.land y z).

Definition Sigma0 (x : Z) : Z := Z.lxor (Z.lxor (rotr 2 x) (rotr 13 x)) (rotr 22 x).

Definition Sigma1 (x : Z) : Z := Z.lxor (Z.lxor (rotr 6 x) (rotr 11 x)) (rotr 25 x).

Definition sigma0 (x : Z) : Z := Z.lxor (Z.lxor (rotr 7 x) (rotr 18 x)) (shr 3 x).

Definition sigma1 (x : Z) : Z := Z.lxor (Z.lxor (rotr 17 x) (rotr 19 x)) (shr 10 x).

Definition K : list Z :=
  [1116352408; 1899447441; 3049323471; 3921009573; 961987163; 1508970993;
   2453635748; 2870763221; 3624381080; 310598401; 607225278; 1426881987;
   1925078388; 2162078206; 2614888103; 3248222580; 3835390401; 4022224774;
   264347078; 604807628; 770255983; 1249150122; 1555081692; 1996064986;
   2554220882; 2821834349; 2952996808; 3210313671; 3336571891; 3584528711;
   113926993; 338241895; 666307205; 773529912; 1294757372; 1396182291;
   1695183700; 1986661051; 2177026350; 2456956037; 2730485921; 2820302411;
   3259730800; 3345764771; 3516065817; 3600352804; 4094571909; 275423344;
   430227734; 506948616; 659060556; 883997877; 958139571; 1322822218;
   1537002063; 1747873779; 1955562222; 2024104815; 2227730452; 2361852424;
   2428436474; 2756734187; 3204031479; 3329325298].

Definition H0 : list Z :=
  [1779033703; 3144134277; 1013904242; 2773480762;
   1359893119; 2600822924; 528734635; 1541459225].

(** The message followed by the byte 128, zero bytes up to 56 modulo 64,
    and the length in bits as eight big-endian bytes. *)
Definition be_bytes (n : nat) (x : Z) : list Z :=
  map (fun i => Z.land (Z.shiftr x (8 * Z.of_nat i)) 255) (rev (seq 0 n)).

Definition pad (msg : list Z) : list Z :=
  let l := Z.of_nat (List.length msg) in
  let zeros := Z.to_nat ((55 - l) mod 64) in
  msg ++ [128] ++ repeat 0 zeros ++ be_bytes 8 (8 * l).

(** Big-endian 32-bit words of a byte list (a multiple of four long). *)
Fixpoint words (bs : list Z) : list Z :=
  match bs with
  | a :: b :: c :: d :: rest =>
      (Z.shiftl a 24 + Z.shiftl b 16 + Z.shiftl c 8 + d) :: words rest
  | _ => []
  end.

(** Blocks of sixteen words. *)
Fixpoint blocks (fuel : nat) (ws : list Z) : list (list Z) :=
  match fuel, ws with
  | S fuel', _ :: _ => firstn 16 ws :: blocks fuel' (skipn 16 ws)
  | _, _ => []
  end.

(** The message schedule, most recent word first: [recent] holds
    [W(t-1), W(t-2), ...]. *)
Fixpoint schedule (n : nat) (recent : list Z) : list Z :=
  match n with
  | O => recent
  | S n' =>
      let w := add32 (add32 (sigma1 (nth 1 recent 0)) (nth 6 recent 0))
                     (add32 (sigma0 (nth 14 recent 0)) (nth 15 recent 0)) in
      schedule n' (w :: recent)
  end.

Definition round (st : list Z) (kw : Z * Z) : list Z :=
  match st with
  | [a; b; c; d; e; f; g; h] =>
      let t1 := add32 (add32 (add32 h (Sigma1 e)) (add32 (Ch e f g) (fst kw))) (snd kw) in
      let t2 := add32 (Sigma0 a) (Maj a b c) in
      [add32 t1 t2; a; b; c; add32 d t1; e; f; g]
  | _ => st
  end.

Definition compress (hs : list Z) (block : list Z) : list Z :=
  let w := rev (schedule 48 (rev block)) in
  let st := fold_left round (combine K w) hs in
  map (fun p => add32 (fst p) (snd p)) (combine hs st).

Definition digest_words (msg : list Z) : list Z :=
  let ws := words (pad msg) in
  fold_left compress (blocks (List.length ws) ws) H0.

Definition hex_digit (n : Z) : ascii :=
  if n <? 10 then ascii_of_N (Z.to_N (48 + n)) else ascii_of_N (Z.to_N (87 + n)).

Definition hex_word (x : Z) : string :=
  string_of_list_ascii
    (map (fun i => hex_digit (Z.land (Z.shiftr x (4 * Z.of_nat i)) 15)) (rev (seq 0 8))).

(** [hashlib.sha256(msg).hexdigest()]. *)
Definition hexdigest (msg : list Z) : string :=
  fold_right (fun w s => (hex_word w ++ s)%string) EmptyString (digest_words msg).

End Sha256.


(** ** gemini_integration.py *)

Module Gemini.

(** The exception classes that the modelled code raises or tells apart;
    any other subclass of [Exception] is [OtherException]. *)
Inductive Exn : Type :=
| GeminiAPIError (msg : string)
| RateLimitError (msg : string)
| AuthenticationError (msg : string)
| CircuitBreakerOpenError (msg : string)
| TypeError (msg : string)
| OtherException (msg : string).

(** [str(e)]. *)
Definition str_exn (e : Exn) : string :=
  match e with
  | GeminiAPIError m | RateLimitError m | AuthenticationError m
  | CircuitBreakerOpenError m | TypeError m | OtherException m => m
  end.

Record ConsultationRequest : Type := mkConsultationRequest {
  query : string;
  context : string;
  uncertainty_detected : bool;
  confidence_score : Q
}.

(** *** class CircuitBreaker *)

(** [self.state] holds one of three string constants. *)
Inductive State : Type := CLOSED | OPEN | HALF_OPEN.

Record CircuitBreaker : Type := mkCircuitBreaker {
  failure_threshold : Z;
  recovery_timeout : Q;
  failure_count : Z;
  last_failure_time : option Q;   (* [None] until the first failure *)
  state : State
}.

(** [CircuitBreaker.__init__]. *)
Definition new_breaker (threshold : Z) (timeout : Q) : CircuitBreaker :=
  mkCircuitBreaker threshold timeout 0 None CLOSED.

(** [CircuitBreaker.reset]. *)
Definition reset (self : CircuitBreaker) : CircuitBreaker :=
  mkCircuitBreaker (failure_threshold self) (recovery_timeout self) 0 None CLOSED.

Definition set_state (s : State) (self : CircuitBreaker) : CircuitBreaker :=
  mkCircuitBreaker (failure_threshold self) (recovery_timeout self)
    (failure_count self) (last_failure_time self) s.

Definition set_failure_count (n : Z) (self : CircuitBreaker) : CircuitBreaker :=
  mkCircuitBreaker (failure_threshold self) (recovery_timeout self)
    n (last_failure_time self) (state self).

Definition set_last_failure_time (t : Q) (self : CircuitBreaker) : CircuitBreaker :=
  mkCircuitBreaker (failure_threshold self) (recovery_timeout self)
    (failure_count self) (Some t) (state self).

Definition open_msg : string := "Circuit breaker is OPEN - too many recent failures".

Definition none_msg : string := "unsupported operand type(s) for -: 'float' and 'NoneType'".

(** *** class ResponseCache *)

Record ResponseCache : Type := mkResponseCache {
  cache : gmap string (string * Q);   (* key -> (response, timestamp) *)
  ttl : Q
}.

(** *** class GeminiIntegration: the fields the request path reads and writes.

    [requests_per_minute] is [config["rate_limiting"]["requests_per_minute"]]
    and [caching_enabled] is [config.get("caching", {}).get("enabled", True)]. *)
Record GeminiIntegration : Type := mkGeminiIntegration {
  requests_per_minute : Z;
  caching_enabled : bool;
  last_request_time : Q;
  request_count : Z;
  circuit_breaker : CircuitBreaker;
  response_cache : ResponseCache
}.

Definition set_rate (last : Q) (count : Z) (self : GeminiIntegration) : GeminiIntegration :=
  mkGeminiIntegration (requests_per_minute self) (caching_enabled self)
    last count (circuit_breaker self) (response_cache self).

Definition set_circuit_breaker (cb : CircuitBreaker) (self : GeminiIntegration)
  : GeminiIntegration :=
  mkGeminiIntegration (requests_per_minute self) (caching_enabled self)
    (last_request_time self) (request_count self) cb (response_cache self).

Definition set_response_cache (rc : ResponseCache) (self : GeminiIntegration)
  : GeminiIntegration :=
  mkGeminiIntegration (requests_per_minute self) (caching_enabled self)
    (last_request_time self) (request_count self) (circuit_breaker self) rc.

(** Python truthiness of an [Optional[str]]: [None] and the empty string
    are false. *)
Definition truthy (r : option string) : option string :=
  match r with
  | Some EmptyString | None => None
  | Some s => Some s
  end.

(** The [except] clauses of [consult_gemini]: three classes are raised
    again as they are, everything else is wrapped. *)
Definition handle (e : Exn) : Exn :=
  match e with
  | CircuitBreakerOpenError _ | RateLimitError _ | AuthenticationError _ => e
  | _ => GeminiAPIError ("Failed to consult Gemini: " ++ str_exn e)
  end.

Section World.

(** The world outside the object: whatever the clock, the protected
    function and the provider process depend on.  [time_time] is
    [time.time()]: it reads the clock and leaves a world in which the
    clock has been read. *)
Context {W : Type}.
Variable time_time : W -> Q * W.

(** A callable: run in a world, it returns a value or raises, and leaves a
    new world behind. *)
Definition Callable (A : Type) : Type := W -> (A + Exn) * W.

(** The first block of [CircuitBreaker.call]: what an OPEN breaker does
    before anything is attempted.  [inl] is the breaker with which the
    attempt goes on, [inr] the exception raised instead of an attempt. *)
Definition gate (self : CircuitBreaker) (w : W) : (CircuitBreaker + Exn) * W :=
  match state self with
  | OPEN =>
      let (now, w1) := time_time w in
      match last_failure_time self with
      | None => (inr (TypeError none_msg), w1)   (* [time.time() - None] *)
      | Some last =>
          if PyNum.Qlt_bool (recovery_timeout self) (now - last)
          then (inl (set_failure_count 0 (set_state HALF_OPEN self)), w1)
          else (inr (CircuitBreakerOpenError open_msg), w1)
      end
  | _ => (inl self, w)
  end.

(** The [try] block of [CircuitBreaker.call], entered with the breaker
    [self]. *)
Definition attempt {A : Type} (self : CircuitBreaker) (func : Callable A) (w : W)
  : (A + Exn) * CircuitBreaker * W :=
  match func w with
  | (inl result, w1) =>
      let self1 :=
        match state self with
        | HALF_OPEN => set_failure_count 0 (set_state CLOSED self)
        | _ => self
        end in
      (inl result, self1, w1)
  | (inr e, w1) =>
      let self1 := set_failure_count (failure_count self + 1) self in
      let (now, w2) := time_time w1 in
      let self2 := set_last_failure_time now self1 in
      let self3 :=
        if failure_threshold self2 <=? failure_count self2
        then set_state OPEN self2 else self2 in
      (inr e, self3, w2)
  end.

(** [CircuitBreaker.call]. *)
Definition call {A : Type} (self : CircuitBreaker) (func : Callable A) (w : W)
  : (A + Exn) * CircuitBreaker * W :=
  match gate self w with
  | (inr e, w1) => (inr e, self, w1)
  | (inl self1, w1) => attempt self1 func w1
  end.

(** A run of calls.  Between two calls the world moves on by itself (time
    passes, other code runs), so every call comes with the world it is
    made in. *)
Fixpoint run_calls {A : Type} (self : CircuitBreaker)
  (calls : list (Callable A * W)) : list ((A + Exn) * W) * CircuitBreaker :=
  match calls with
  | [] => ([], self)
  | (func, w) :: rest =>
      let '(r, self1, w1) := call self func w in
      let (rs, self2) := run_calls self1 rest in
      ((r, w1) :: rs, self2)
  end.

(** The clock reading that code run in world [w] sees first. *)
Definition reading (w : W) : Q := fst (time_time w).


(** [GeminiIntegration._check_rate_limit]. *)
Definition _check_rate_limit (self : GeminiIntegration) (w : W)
  : bool * GeminiIntegration * W :=
  let (current_time, w1) := time_time w in
  (* Initialize if first request *)
  let self1 :=
    if Qeq_bool (last_request_time self) 0
    then set_rate current_time 0 self else self in
  (* Reset counter if more than a minute has passed *)
  let self2 :=
    if PyNum.Qlt_bool 60 (current_time - last_request_time self1)
    then set_rate current_time 0 self1 else self1 in
  let max_requests := requests_per_minute self2 in
  if max_requests <=? request_count self2
  then (false, self2, w1)
  else (true, set_rate (last_request_time self2) (request_count self2 + 1) self2, w1).

(** A run of rate-limit checks, each made in its own world. *)
Fixpoint run_checks (self : GeminiIntegration) (ws : list W)
  : list bool * GeminiIntegration :=
  match ws with
  | [] => ([], self)
  | w :: rest =>
      let '(ok, self1, _) := _check_rate_limit self w in
      let (oks, self2) := run_checks self1 rest in
      (ok :: oks, self2)
  end.

(** [hashlib.md5(text.encode()).hexdigest()] and [_format_response] only
    produce strings; the request path does not depend on how. *)
Variable md5_hexdigest : string -> string.
Variable _format_response : string -> ConsultationRequest -> string.

(** [ResponseCache._hash_request]. *)
Definition _hash_request (request : ConsultationRequest) : string :=
  md5_hexdigest (query request ++ ":" ++ context request).

(** [ResponseCache.get]. *)
Definition cache_get (self : ResponseCache) (request : ConsultationRequest) (w : W)
  : option string * ResponseCache * W :=
  let key := _hash_request request in
  match cache self !! key with
  | Some (response, timestamp) =>
      let (now, w1) := time_time w in
      if PyNum.Qlt_bool (now - timestamp) (ttl self)
      then (Some response, self, w1)
      else (None, mkResponseCache (delete key (cache self)) (ttl self), w1)
  | None => (None, self, w)
  end.

(** [ResponseCache.set]. *)
Definition cache_set (self : ResponseCache) (request : ConsultationRequest)
  (response : string) (w : W) : ResponseCache * W :=
  let key := _hash_request request in
  let (now, w1) := time_time w in
  (mkResponseCache (<[key := (response, now)]> (cache self)) (ttl self), w1).

(** [_make_gemini_request], the coroutine that talks to the provider (model
    selection, retries, the subprocess).  It touches neither the breaker,
    nor the rate counters, nor the response cache; what it does is part of
    the world. *)
Variable _make_gemini_request : ConsultationRequest -> Callable (option string).

(** An [asyncio.Task]: the coroutine it wraps, run when the task is
    awaited. *)
Definition Task (A : Type) : Type := Callable A.

(** [asyncio.create_task(coro)] inside a running loop: the task is
    scheduled and handed back; nothing of the coroutine has run. *)
Definition create_task {A : Type} (coro : Callable A) : Callable (Task A) :=
  fun w => (inl coro, w).

(** The inner function [_make_request] of [consult_gemini]. *)
Definition _make_request (request : ConsultationRequest) : Callable (Task (option string)) :=
  create_task (_make_gemini_request request).

(** [await task]. *)
Definition await {A : Type} (task : Task A) : Callable A := task.

(** [GeminiIntegration.consult_gemini]. *)
Definition consult_gemini (self : GeminiIntegration) (request : ConsultationRequest) (w : W)
  : (string + Exn) * GeminiIntegration * W :=
  (* Check cache first if enabled *)
  let '(cached_response, self1, w1) :=
    if caching_enabled self
    then let '(r, rc, w') := cache_get (response_cache self) request w in
         (r, set_response_cache rc self, w')
    else (None, self, w) in
  match truthy cached_response with
  | Some cached => (inl cached, self1, w1)
  | None =>
      (* Check rate limits *)
      let '(ok, self2, w2) := _check_rate_limit self1 w1 in
      if negb ok
      then (inr (RateLimitError "Rate limit exceeded. Please wait before making another request."),
            self2, w2)
      else
        (* Use circuit breaker pattern *)
        let '(r, cb, w3) := call (circuit_breaker self2) (_make_request request) w2 in
        let self3 := set_circuit_breaker cb self2 in
        match r with
        | inr e => (inr (handle e), self3, w3)
        | inl task =>
            match await task w3 with
            | (inr e, w4) => (inr (handle e), self3, w4)
            | (inl result, w4) =>
                match truthy result with
                | Some text =>
                    let formatted_response := _format_response text request in
                    if caching_enabled self3
                    then let (rc, w5) := cache_set (response_cache self3) request
                                           formatted_response w4 in
                         (inl formatted_response, set_response_cache rc self3, w5)
                    else (inl formatted_response, self3, w4)
                | None =>
                    (inr (handle (GeminiAPIError "Empty response from Gemini API")), self3, w4)
                end
            end
        end
  end.

End World.

(** *** Predicates of the statements *)

(** The window start is zero only while nothing has been counted. *)
Definition fresh_or_started (self : GeminiIntegration) : Prop :=
  (last_request_time self == 0)%Q -> request_count self = 0.

(** What [consult_gemini] can do to a breaker: nothing, or close it with
    the counter at zero. *)
Definition untouched_or_closed (before after : CircuitBreaker) : Prop :=
  after = before
  \/ after = mkCircuitBreaker (failure_threshold before) (recovery_timeout before) 0
               (last_failure_time before) CLOSED.

End Gemini.

(** ** src/optimized-ai-system.py *)

Module Optimized.

Inductive QueryPattern : Type := FAQ | TECHNICAL | CREATIVE | ANALYSIS | DEBUG | GENERAL.

Definition pattern_eqb (a b : QueryPattern) : bool :=
  match a, b with
  | FAQ, FAQ | TECHNICAL, TECHNICAL | CREATIVE, CREATIVE
  | ANALYSIS, ANALYSIS | DEBUG, DEBUG | GENERAL, GENERAL => true
  | _, _ => false
  end.

(** *** class AdvancedCache *)

(** [timestamp] is a [datetime], in microseconds. *)
Record CachedResponse : Type := mkCachedResponse {
  response : string;
  provider : string;
  model_used : string;
  timestamp : Z;
  hit_count : Z;
  query_hash : string;
  confidence : Q
}.

Definition set_hit_count (n : Z) (e : CachedResponse) : CachedResponse :=
  mkCachedResponse (response e) (provider e) (model_used e) (timestamp e)
    n (query_hash e) (confidence e).

Definition set_query_hash (h : string) (e : CachedResponse) : CachedResponse :=
  mkCachedResponse (response e) (provider e) (model_used e) (timestamp e)
    (hit_count e) h (confidence e).

(** A row of the table [cache_entries], without its key.  [response_data]
    is the pickled entry, [row_timestamp] the timestamp column (the
    ISO text of a [datetime], kept as the [datetime] it denotes). *)
Record Row : Type := mkRow {
  response_data : CachedResponse;
  row_timestamp : Z;
  row_hit_count : Z;
  row_provider : string;
  row_model_used : string
}.

(** [access_times] is a dictionary whose order of insertion decides ties
    when it is sorted; [db] is the table [cache_entries] by primary key.
    [ttl] is a [timedelta], in microseconds. *)
Record AdvancedCache : Type := mkAdvancedCache {
  max_size : Z;
  ttl : Z;
  cache : gmap string CachedResponse;
  access_times : list (string * Q);
  db : gmap string Row
}.

Definition hour : Z := 3600 * 1000000.

(** [AdvancedCache.__init__] on a database file without rows. *)
Definition new_cache (max_size ttl_hours : Z) : AdvancedCache :=
  mkAdvancedCache max_size (ttl_hours * hour) ∅ [] ∅.

(** What one method call reads from outside: [datetime.now()] at the check
    of the memory entry and at the check of the database row (the second
    is read later), [time.time()] for the access time, and whether the
    database block runs through ([false]: it raises, which the method
    logs and swallows). *)
Record Env : Type := mkEnv {
  now_memory : Z;
  now_db : Z;
  time_time : Q;
  db_ok : bool
}.

(** [d[k] = v] on an insertion-ordered dictionary. *)
Fixpoint od_set (k : string) (v : Q) (d : list (string * Q)) : list (string * Q) :=
  match d with
  | [] => [(k, v)]
  | (k', v') :: d' => if String.eqb k k' then (k, v) :: d' else (k', v') :: od_set k v d'
  end.

(** [if k in d: del d[k]]. *)
Definition od_del (k : string) (d : list (string * Q)) : list (string * Q) :=
  List.filter (fun p => negb (String.eqb k (fst p))) d.

(** [sorted(d.items(), key=lambda x: x[1])]: stable, by ascending value. *)
Fixpoint insert_sorted (x : string * Q) (l : list (string * Q)) : list (string * Q) :=
  match l with
  | [] => [x]
  | y :: l' => if Qle_bool (snd x) (snd y) then x :: y :: l' else y :: insert_sorted x l'
  end.

Definition sorted_items (d : list (string * Q)) : list (string * Q) :=
  fold_right insert_sorted [] d.

(** [AdvancedCache._generate_hash]. *)
Definition _generate_hash (query context : string) : string :=
  let content := (PyStr.lower (PyStr.strip query) ++ PyStr.lower (PyStr.strip context))%string in
  PyStr.prefix 16 (Sha256.hexdigest (PyStr.encode content)).

(** [AdvancedCache._evict_lru]. *)
Definition _evict_lru (self : AdvancedCache) : AdvancedCache :=
  match access_times self with
  | [] => self
  | _ =>
      let evict_count := Z.max 1 (Z.of_nat (size (cache self)) / 10) in
      let victims := firstn (Z.to_nat evict_count) (sorted_items (access_times self)) in
      fold_left
        (fun s (victim : string * Q) =>
           mkAdvancedCache (max_size s) (ttl s)
             (delete (fst victim) (cache s)) (od_del (fst victim) (access_times s)) (db s))
        victims self
  end.

(** The database block of [AdvancedCache.get], after a miss (or an expired
    entry) in memory. *)
Definition get_db (self : AdvancedCache) (key : string) (env : Env)
  : option CachedResponse * AdvancedCache :=
  if negb (db_ok env) then (None, self)
  else
    match db self !! key with
    | Some row =>
        if now_db env - row_timestamp row <? ttl self
        then
          (* Load into memory cache *)
          let cached_response := set_hit_count (row_hit_count row + 1) (response_data row) in
          let row' := mkRow (response_data row) (row_timestamp row) (row_hit_count row + 1)
                        (row_provider row) (row_model_used row) in
          (Some cached_response,
           mkAdvancedCache (max_size self) (ttl self)
             (<[key := cached_response]> (cache self))
             (od_set key (time_time env) (access_times self))
             (<[key := row']> (db self)))
        else
          (* Remove expired entry *)
          (None,
           mkAdvancedCache (max_size self) (ttl self) (cache self) (access_times self)
             (delete key (db self)))
    | None => (None, self)
    end.

(** [AdvancedCache.get]. *)
Definition get (self : AdvancedCache) (query context : string) (env : Env)
  : option CachedResponse * AdvancedCache :=
  let key := _generate_hash query context in
  match cache self !! key with
  | Some entry =>
      if now_memory env - timestamp entry <? ttl self
      then
        let entry' := set_hit_count (hit_count entry + 1) entry in
        (Some entry',
         mkAdvancedCache (max_size self) (ttl self)
           (<[key := entry']> (cache self))
           (od_set key (time_time env) (access_times self))
           (db self))
      else
        (* Expired entry *)
        get_db
          (mkAdvancedCache (max_size self) (ttl self)
             (delete key (cache self)) (od_del key (access_times self)) (db self))
          key env
  | None => get_db self key env
  end.

(** [AdvancedCache.set].  The entry handed in is the object that is kept:
    its [query_hash] is overwritten with the key before it is stored. *)
Definition set (self : AdvancedCache) (query context : string)
  (response : CachedResponse) (env : Env) : AdvancedCache :=
  let key := _generate_hash query context in
  let response := set_query_hash key response in
  let self1 := if max_size self <=? Z.of_nat (size (cache self)) then _evict_lru self else self in
  let self2 :=
    mkAdvancedCache (max_size self1) (ttl self1)
      (<[key := response]> (cache self1))
      (od_set key (time_time env) (access_times self1))
      (db self1) in
  if db_ok env
  then mkAdvancedCache (max_size self2) (ttl self2) (cache self2) (access_times self2)
         (<[key := mkRow response (timestamp response) (hit_count response)
                     (provider response) (model_used response)]> (db self2))
  else self2.

(** [AdvancedCache.clear_expired]; [now_memory] is its one reading of
    [datetime.now()]. *)
Definition clear_expired (self : AdvancedCache) (env : Env) : AdvancedCache :=
  let cutoff := now_memory env - ttl self in
  let expired (key : string) : bool :=
    match cache self !! key with
    | Some entry => timestamp entry <? cutoff
    | None => false
    end in
  mkAdvancedCache (max_size self) (ttl self)
    (filter (fun kv => cutoff <= timestamp (snd kv)) (cache self))
    (List.filter (fun p => negb (expired (fst p))) (access_times self))
    (if db_ok env
     then filter (fun kv => cutoff <= row_timestamp (snd kv)) (db self)
     else db self).

(** *** class OptimizedMultiAIIntegration *)

(** One value of [provider_stats].  [min_time] starts as [float('inf')],
    which is [None] here; [recent_times] is a [deque(maxlen=100)]. *)
Record ProviderStats : Type := mkProviderStats {
  requests : Z;
  successes : Z;
  failures : Z;
  avg_time : Q;
  min_time : option Q;
  max_time : Q;
  recent_times : list Q
}.

Definition zero_stats : ProviderStats := mkProviderStats 0 0 0 0 None 0 [].

(** [provider_stats] as [__init__] builds it. *)
Definition initial_provider_stats : gmap string ProviderStats :=
  <["gemini" := zero_stats]> (<["llama2" := zero_stats]> ∅).

(** The score one round of the loop in [_get_adaptive_provider] gives a
    provider: [stats] is [self.provider_stats.get(provider)]. *)
Definition base_score (stats : option ProviderStats) : Q :=
  let requests := match stats with Some s => requests s | None => 0 end in
  if requests =? 0 then 1 # 2
  else
    let success_rate :=
      (inject_Z (match stats with Some s => successes s | None => 0 end) / inject_Z requests)%Q in
    let avg_time := match stats with Some s => avg_time s | None => 5%Q end in
    let speed_factor :=
      PyNum.py_max (1 # 10) ((10 - PyNum.py_min avg_time 10) / 10)%Q in
    (success_rate * ((7 # 10) + (3 # 10) * speed_factor))%Q.

Definition pattern_boost (pattern : QueryPattern) (provider : string) : Q :=
  if (pattern_eqb pattern FAQ || pattern_eqb pattern DEBUG) && String.eqb provider "gemini"
  then 12 # 10
  else if pattern_eqb pattern CREATIVE && String.eqb provider "llama2"
  then 12 # 10
  else 1.

Definition final_score (provider_stats : gmap string ProviderStats)
  (pattern : QueryPattern) (provider : string) : Q :=
  (base_score (provider_stats !! provider) * pattern_boost pattern provider)%Q.

(** One round of the loop: [best] is [(best_provider, best_score)]. *)
Definition adaptive_step (provider_stats : gmap string ProviderStats)
  (pattern : QueryPattern) (best : string * Q) (provider : string) : string * Q :=
  let score := final_score provider_stats pattern provider in
  if PyNum.Qlt_bool (snd best) score then (provider, score) else best.

(** [OptimizedMultiAIIntegration._get_adaptive_provider]; [None] is the
    [IndexError] of [available_providers[0]] on an empty list. *)
Definition _get_adaptive_provider (provider_stats : gmap string ProviderStats)
  (available_providers : list string) (pattern : QueryPattern) : option string :=
  match available_providers with
  | [] => None
  | [only] => Some only
  | first :: _ =>
      Some (fst (fold_left (adaptive_step provider_stats pattern)
                   available_providers (first, 0%Q)))
  end.

(** The dictionary [pattern_multipliers]. *)
Definition pattern_multipliers (pattern : QueryPattern) : Q :=
  match pattern with
  | FAQ => 6 # 10
  | TECHNICAL => 12 # 10
  | CREATIVE => 15 # 10
  | ANALYSIS => 13 # 10
  | DEBUG => 1
  | GENERAL => 1
  end.

(** [OptimizedMultiAIIntegration._calculate_adaptive_timeout];
    [timeout_total] is [self.config.get("timeout_total", 60)], [query] and
    [pattern_type] are the two fields of the request that are read. *)
Definition _calculate_adaptive_timeout (timeout_total : Q) (query : string)
  (pattern_type : QueryPattern) : Q :=
  let base_timeout := (timeout_total / 2)%Q in
  let query_length := PyStr.len (PyStr.split query) in
  let base_timeout :=
    if 50 <? query_length then (base_timeout * (15 # 10))%Q
    else if query_length <? 10 then (base_timeout * (7 # 10))%Q
    else base_timeout in
  let multiplier := pattern_multipliers pattern_type in
  PyNum.py_max 10 (PyNum.py_min (base_timeout * multiplier) 120).

(** [deque.append] with [maxlen=100]. *)
Definition deque_append (d : list Q) (x : Q) : list Q :=
  let d' := d ++ [x] in
  skipn (List.length d' - 100) d'.

(** [min(stats["min_time"], response_time)]. *)
Definition min_with (m : option Q) (x : Q) : Q :=
  match m with
  | None => x
  | Some m => PyNum.py_min m x
  end.

(** The body of [_update_provider_stats_optimized] on the statistics of
    one provider. *)
Definition update_stats (stats : ProviderStats) (success : bool) (response_time : Q)
  : ProviderStats :=
  let recent := deque_append (recent_times stats) response_time in
  mkProviderStats
    (requests stats + 1)
    (if success then successes stats + 1 else successes stats)
    (if success then failures stats else failures stats + 1)
    (match recent with
     | [] => avg_time stats
     | _ => (PyNum.py_sum recent / inject_Z (PyStr.len recent))%Q
     end)
    (Some (min_with (min_time stats) response_time))
    (PyNum.py_max (max_time stats) response_time)
    recent.

(** [OptimizedMultiAIIntegration._update_provider_stats_optimized]. *)
Definition _update_provider_stats_optimized (provider_stats : gmap string ProviderStats)
  (provider : string) (success : bool) (response_time : Q) : gmap string ProviderStats :=
  let stats := default zero_stats (provider_stats !! provider) in
  <[provider := update_stats stats success response_time]> provider_stats.

(** *** Predicates of the statements *)

(** The timestamp column of every row is the timestamp of the entry
    pickled in it: [set] writes both from the same entry, and nothing
    else writes either. *)
Definition db_consistent (self : AdvancedCache) : Prop :=
  forall key row, db self !! key = Some row ->
    row_timestamp row = timestamp (response_data row).

(** [requests == successes + failures]. *)
Definition balanced (s : ProviderStats) : Prop :=
  requests s = successes s + failures s.

Definition all_balanced (provider_stats : gmap string ProviderStats) : Prop :=
  forall p s, provider_stats !! p = Some s -> balanced s.

(** No counter of [after] is below the one of [before]. *)
Definition not_below (before after : ProviderStats) : Prop :=
  requests before <= requests after
  /\ successes before <= successes after
  /\ failures before <= failures after.

(** The counters and latencies the statistics hold are not negative. *)
Definition sane (provider_stats : gmap string ProviderStats) : Prop :=
  forall p s, provider_stats !! p = Some s ->
    0 <= requests s /\ 0 <= successes s /\ (0 <= avg_time s)%Q.

(** One round of the loop of [_get_adaptive_provider] over any score. *)
Definition score_step (f : string -> Q) (best : string * Q) (p : string) : string * Q :=
  if PyNum.Qlt_bool (snd best) (f p) then (p, f p) else best.

End Optimized.

(** ** The provider score as the specification words it

    [score = successRate * (0.7 + 0.3 * speedFactor)], where
    [successRate = successes / requests] (1.0 with zero history) and
    [speedFactor = clamp((10 - avgLatencySeconds) / 10, 0.1, 1)], times
    1.2 for the provider favoured for the category. *)

Module Spec.

Definition success_rate (stats : option Optimized.ProviderStats) : Q :=
  match stats with
  | None => 1
  | Some s =>
      if Optimized.requests s =? 0 then 1
      else (inject_Z (Optimized.successes s) / inject_Z (Optimized.requests s))%Q
  end.

Definition speed_factor (avg_latency : Q) : Q :=
  PyNum.clamp ((10 - avg_latency) / 10) (1 # 10) 1.

Definition avg_latency (stats : option Optimized.ProviderStats) : Q :=
  match stats with
  | None => 0
  | Some s => Optimized.avg_time s
  end.

Definition favoured (pattern : Optimized.QueryPattern) (provider : string) : bool :=
  match pattern with
  | Optimized.FAQ | Optimized.DEBUG => String.eqb provider "gemini"
  | Optimized.CREATIVE => String.eqb provider "llama2"
  | _ => false
  end.

Definition score (provider_stats : gmap string Optimized.ProviderStats)
  (pattern : Optimized.QueryPattern) (provider : string) : Q :=
  let stats := provider_stats !! provider in
  (success_rate stats * ((7 # 10) + (3 # 10) * speed_factor (avg_latency stats))
   * (if favoured pattern provider then 12 # 10 else 1))%Q.

(** The score of the code, in the words of the spec but for the start
    value: a provider without a recorded request has the base score 0.5. *)
Definition score_as_coded (provider_stats : gmap string Optimized.ProviderStats)
  (pattern : Optimized.QueryPattern) (provider : string) : Q :=
  let stats := provider_stats !! provider in
  ((match stats with
    | Some s =>
        if Optimized.requests s =? 0 then 1 # 2
        else success_rate stats * ((7 # 10) + (3 # 10) * speed_factor (Optimized.avg_time s))
    | None => 1 # 2
    end)
   * (if favoured pattern provider then 12 # 10 else 1))%Q.

(** The spec's [normalize]: trimmed and lower-cased. *)
Definition normalize (s : string) : string := PyStr.lower (PyStr.strip s).

(** The spec's [lengthFactor] of a query of [n] words. *)
Definition length_factor (n : Z) : Q :=
  if 50 <? n then 15 # 10 else if n <? 10 then 7 # 10 else 1.

End Spec.

(** ** A concrete world for the examples

    The world is the clock and the number of times the provider has been
    run; reading the clock changes nothing. *)

Module Scenario.

Record World : Type := mkWorld { clock : Q; invocations : nat }.

Definition time_time (w : World) : Q * World := (clock w, w).

(** A provider call that takes one second and raises. *)
Definition boom : Gemini.Callable unit :=
  fun w => (inr (Gemini.OtherException "boom"), mkWorld (clock w + 1) (S (invocations w))).

(** A provider call that takes one second and returns. *)
Definition fine : Gemini.Callable unit :=
  fun w => (inl tt, mkWorld (clock w + 1) (S (invocations w))).

(** The world at clock reading [t] in which the provider has run [n] times. *)
Definition at_time (t : Q) (n : nat) : World := mkWorld t n.

(** The entry of the repository's cache tests, created at second 1000;
    [query_hash] is left at its default, the empty string. *)
Definition test_entry : Optimized.CachedResponse :=
  Optimized.mkCachedResponse "Test response" "gemini" "gemini-pro" (1000 * 1000000) 0 "" 0.

(** The readings of a cache call made at second [t], the database
    working. *)
Definition cache_env (t : Z) : Optimized.Env :=
  Optimized.mkEnv (t * 1000000) (t * 1000000) (inject_Z t) true.

(** The cache of the tests ([max_size=100], [ttl_hours=1]) after
    [set("test query", "test context", test_entry)] at second 1000. *)
Definition test_cache : Optimized.AdvancedCache :=
  Optimized.set (Optimized.new_cache 100 1) "test query" "test context" test_entry
    (cache_env 1000).

End Scenario.


(** ** The memory tier of [AdvancedCache]: the two dictionaries together *)

Module MemoryTier.

(** The keys of an insertion-ordered dictionary, in order. *)
Definition keys (d : list (string * Q)) : list string := map fst d.

(** [cache] and [access_times] have the same keys (and [access_times],
    being a dictionary, has each key once). *)
Definition in_sync (self : Optimized.AdvancedCache) : Prop :=
  List.NoDup (keys (Optimized.access_times self))
  /\ forall k, is_Some (Optimized.cache self !! k) <-> In k (keys (Optimized.access_times self)).

(** The number of entries that memory is kept to: [max_size], and one
    entry when [max_size] is below one. *)
Definition capacity (self : Optimized.AdvancedCache) : Z :=
  Z.max 1 (Optimized.max_size self).

(** The order of the sort in [_evict_lru]: by access time. *)
Definition older (a b : string * Q) : Prop := (snd a <= snd b)%Q.

End MemoryTier.

(** ** gemini_integration.py, class ResponseCache: the sweep *)

Module ResponseCacheSweep.

Section World.

Context {W : Type}.
Variable time_time : W -> Q * W.

(** [current_time - timestamp >= self.ttl] *)
Definition expired (ttl now : Q) (entry : string * Q) : bool :=
  Qle_bool ttl (now - snd entry).

(** [ResponseCache.clear_expired]. *)
Definition clear_expired (self : Gemini.ResponseCache) (w : W) : Gemini.ResponseCache * W :=
  let (current_time, w1) := time_time w in
  (Gemini.mkResponseCache
     (filter (fun kv => expired (Gemini.ttl self) current_time (snd kv) = false)
        (Gemini.cache self))
     (Gemini.ttl self),
   w1).

End World.

End ResponseCacheSweep.

(** ** A client with the default configuration, and a provider that answers *)

Module GeminiScenario.

(** [GeminiIntegration.__init__] with the values of [_default_config]. *)
Definition client : Gemini.GeminiIntegration :=
  Gemini.mkGeminiIntegration 10 true 0 0 (Gemini.new_breaker 5 60)
    (Gemini.mkResponseCache ∅ 300).

(** A provider that takes one second and answers. *)
Definition answers (request : Gemini.ConsultationRequest)
  : @Gemini.Callable Scenario.World (option string) :=
  fun w => (inl (Some "4"%string),
            Scenario.mkWorld (Scenario.clock w + 1) (S (Scenario.invocations w))).

Definition format (text : string) (request : Gemini.ConsultationRequest) : string :=
  ("Gemini: " ++ text)%string.

Definition question : Gemini.ConsultationRequest :=
  Gemini.mkConsultationRequest "What is 2+2?" "" false 0.

(** The client with its breaker opened by a failure at second 100. *)
Definition tripped : Gemini.GeminiIntegration :=
  Gemini.set_circuit_breaker
    (Gemini.mkCircuitBreaker 5 60 5 (Some 100%Q) Gemini.OPEN) client.

End GeminiScenario.

(** ** gemini_integration.py: the statistics of the models and the choice
    among them *)

Module ModelPool.

(** One dictionary of [model_performance].  A key that is absent is
    [None]; the code reads every key with [.get], so [last_success] and
    [last_failure] holding Python's [None] are [None] as well. *)
Record Stats : Type := mkStats {
  success_count : option Z;
  failure_count : option Z;
  avg_response_time : option Q;
  last_success : option Q;
  last_failure : option Q
}.

(** The dictionary [{}]. *)
Definition empty_stats : Stats := mkStats None None None None None.

(** The dictionary that [_initialize_model_stats] stores. *)
Definition initial_stats : Stats := mkStats (Some 0) (Some 0) (Some 0%Q) None None.

(** The fields of [GeminiIntegration] that the choice of a model and the
    retry loop read and write.  [max_attempts] and [backoff_factor] are
    [config.get("retry", {}).get(..)] with their defaults applied. *)
Record Pool : Type := mkPool {
  primary_model : string;
  fallback_models : list string;
  model_performance : gmap string Stats;
  max_attempts : Z;
  backoff_factor : Q
}.

Definition set_model_performance (mp : gmap string Stats) (self : Pool) : Pool :=
  mkPool (primary_model self) (fallback_models self) mp (max_attempts self)
    (backoff_factor self).

(** [[self.primary_model] + self.fallback_models]. *)
Definition all_models (self : Pool) : list string :=
  primary_model self :: fallback_models self.

(** [GeminiIntegration._initialize_model_stats]. *)
Definition _initialize_model_stats (self : Pool) : Pool :=
  set_model_performance
    (fold_left (fun mp model => <[model := initial_stats]> mp) (all_models self)
       (model_performance self))
    self.

(** The part of [GeminiIntegration.__init__] that sets the models up:
    [model] is [config["model"]], [fallbacks] is
    [config.get("fallback_models", [..])]. *)
Definition new_pool (model : string) (fallbacks : list string) (attempts : Z) (backoff : Q)
  : Pool :=
  _initialize_model_stats
    (mkPool model (List.filter (fun m => negb (String.eqb m model)) fallbacks) ∅
       attempts backoff).

(** [model_scores.sort(key=lambda x: x[1], reverse=True)]: stable, by
    descending score. *)
Fixpoint insert_desc (x : string * Q) (l : list (string * Q)) : list (string * Q) :=
  match l with
  | [] => [x]
  | y :: l' => if Qle_bool (snd y) (snd x) then x :: y :: l' else y :: insert_desc x l'
  end.

Definition sort_desc (l : list (string * Q)) : list (string * Q) :=
  fold_right insert_desc [] l.

Section World.

Context {W : Type}.
Variable time_time : W -> Q * W.

(** [GeminiIntegration._update_model_stats].  The division raises
    [ZeroDivisionError] when the new success count is zero; by then the
    dictionary of a known model has been changed in place. *)
Definition _update_model_stats (self : Pool) (model : string) (success : bool)
  (response_time : Q) (w : W) : option Gemini.Exn * Pool * W :=
  let known := model_performance self !! model in
  let stats := default empty_stats known in
  if success then
    let total_successes := default 0 (success_count stats) + 1 in
    let (now, w1) := time_time w in
    let stats1 := mkStats (Some total_successes) (failure_count stats)
                    (avg_response_time stats) (Some now) (last_failure stats) in
    (* Update average response time *)
    let current_avg := default 0%Q (avg_response_time stats1) in
    if total_successes =? 0
    then (Some (Gemini.OtherException "float division by zero"),
          match known with
          | Some _ => set_model_performance (<[model := stats1]> (model_performance self)) self
          | None => self
          end,
          w1)
    else
      let stats2 := mkStats (success_count stats1) (failure_count stats1)
                      (Some ((current_avg * inject_Z (total_successes - 1) + response_time)
                             / inject_Z total_successes)%Q)
                      (last_success stats1) (last_failure stats1) in
      (None, set_model_performance (<[model := stats2]> (model_performance self)) self, w1)
  else
    let failures := default 0 (failure_count stats) + 1 in
    let (now, w1) := time_time w in
    let stats1 := mkStats (success_count stats) (Some failures) (avg_response_time stats)
                    (last_success stats) (Some now) in
    (None, set_model_performance (<[model := stats1]> (model_performance self)) self, w1).

(** The body of the loop of [_get_best_available_model]: the score of one
    model.  The clock is read only for a model with a last failure (and
    a reading of [0.0] counts as none). *)
Definition model_score (self : Pool) (model : string) (w : W) : (string * Q) * W :=
  let stats := default empty_stats (model_performance self !! model) in
  let successes := default 0 (success_count stats) in
  let failures := default 0 (failure_count stats) in
  let total_attempts := successes + failures in
  let success_rate :=
    if total_attempts =? 0 then 1%Q   (* No data, assume good *)
    else (inject_Z successes / inject_Z total_attempts)%Q in
  (* Penalize recent failures *)
  let '(success_rate1, w1) :=
    match last_failure stats with
    | Some last =>
        if Qeq_bool last 0 then (success_rate, w)
        else
          let (now, w') := time_time w in
          if PyNum.Qlt_bool (now - last) 300
          then ((success_rate * (5 # 10))%Q, w') else (success_rate, w')
    | None => (success_rate, w)
    end in
  let avg := default 10%Q (avg_response_time stats) in
  (* Combined score: success rate (80%) + speed bonus (20%) *)
  let speed_bonus := (PyNum.py_max 0 ((10 - avg) / 10) * (2 # 10))%Q in
  let score := (success_rate1 * (8 # 10) + speed_bonus)%Q in
  ((model, score), w1).

(** The loop of [_get_best_available_model]. *)
Fixpoint model_scores (self : Pool) (models : list string) (w : W)
  : list (string * Q) * W :=
  match models with
  | [] => ([], w)
  | model :: rest =>
      let (entry, w1) := model_score self model w in
      let (entries, w2) := model_scores self rest w1 in
      (entry :: entries, w2)
  end.

(** [GeminiIntegration._get_best_available_model]; [model_scores[0]]
    raises [IndexError] on an empty list. *)
Definition _get_best_available_model (self : Pool) (w : W) : (string + Gemini.Exn) * W :=
  let (scores, w1) := model_scores self (all_models self) w in
  match sort_desc scores with
  | [] => (inr (Gemini.OtherException "list index out of range"), w1)
  | (selected_model, _) :: _ => (inl selected_model, w1)
  end.

(** A run of [_update_model_stats] on one model; it stops at the first
    update that raises. *)
Fixpoint run_updates (self : Pool) (model : string) (updates : list (bool * Q)) (w : W)
  : option Gemini.Exn * Pool * W :=
  match updates with
  | [] => (None, self, w)
  | (success, response_time) :: rest =>
      match _update_model_stats self model success response_time w with
      | (None, self1, w1) => run_updates self1 model rest w1
      | raised => raised
      end
  end.

End World.

(** The response times of the successful updates of a run. *)
Definition successes (updates : list (bool * Q)) : list Q :=
  map snd (List.filter fst updates).

Definition failures (updates : list (bool * Q)) : list Q :=
  map snd (List.filter (fun u => negb (fst u)) updates).

(** The sum of a list of response times. *)
Definition total (times : list Q) : Q := fold_right Qplus 0%Q times.

End ModelPool.

(** ** gemini_integration.py: [_make_gemini_request], the retry loop over
    the models *)

Module GeminiRequest.
Import ModelPool.

(** [list(dict.fromkeys(models))]: the first occurrences, in order. *)
Definition dedupe (models : list string) : list string :=
  fold_left (fun seen model => if existsb (String.eqb model) seen then seen else seen ++ [model])
    models [].

(** [range(n)]. *)
Definition range (n : Z) : list Z := map Z.of_nat (seq 0 (Z.to_nat n)).

(** How one pass of a loop body ends. *)
Inductive Step : Type :=
| Return (result : string)      (* [return result] *)
| Raise (e : Gemini.Exn)        (* an exception leaves the function *)
| Break                         (* [break] *)
| Continue.                     (* the next iteration *)

Section World.

Context {W : Type}.
Variable time_time : W -> Q * W.

(** [await asyncio.sleep(wait_time)]. *)
Variable sleep : Q -> W -> W.

(** [_construct_prompt] only builds a string. *)
Variable _construct_prompt : Gemini.ConsultationRequest -> string.

(** [_call_gemini_cli_with_model(prompt, model)]. *)
Variable _call_gemini_cli_with_model : string -> string -> @Gemini.Callable W (option string).

(** The [except Exception as e] block of the inner loop. *)
Definition on_exception (self : Pool) (model : string) (start_time : Q)
  (max_attempts : Z) (backoff_factor : Q) (attempt : Z)
  (e : Gemini.Exn) (w : W) : Step * Pool * option Gemini.Exn * W :=
  let last_exception := Some e in
  let (now, w1) := time_time w in
  let response_time := (now - start_time)%Q in
  match _update_model_stats time_time self model false response_time w1 with
  | (Some raised, self1, w2) => (Raise raised, self1, last_exception, w2)
  | (None, self1, w2) =>
      (* If this is the last attempt for this model, try next model *)
      if attempt =? max_attempts - 1
      then (Break, self1, last_exception, w2)
      else
        (* Wait before retry (but not before trying next model) *)
        let wait_time := Qpower backoff_factor attempt in
        (Continue, self1, last_exception, sleep wait_time w2)
  end.

(** The body of [for attempt in range(max_attempts)]. *)
Definition attempt_once (self : Pool) (model : string) (start_time : Q)
  (max_attempts : Z) (backoff_factor : Q)
  (request : Gemini.ConsultationRequest) (attempt : Z) (last_exception : option Gemini.Exn)
  (w : W) : Step * Pool * option Gemini.Exn * W :=
  let prompt := _construct_prompt request in
  match _call_gemini_cli_with_model prompt model w with
  | (inl result, w1) =>
      (* Update success statistics *)
      let (now, w2) := time_time w1 in
      let response_time := (now - start_time)%Q in
      match _update_model_stats time_time self model true response_time w2 with
      | (Some raised, self1, w3) =>
          on_exception self1 model start_time max_attempts backoff_factor attempt raised w3
      | (None, self1, w3) =>
          match Gemini.truthy result with
          | Some text => (Return text, self1, last_exception, w3)
          | None => (Continue, self1, last_exception, w3)
          end
      end
  | (inr e, w1) => on_exception self model start_time max_attempts backoff_factor attempt e w1
  end.

(** [for attempt in range(max_attempts)]. *)
Fixpoint try_attempts (self : Pool) (model : string) (start_time : Q)
  (max_attempts : Z) (backoff_factor : Q)
  (request : Gemini.ConsultationRequest) (attempts : list Z)
  (last_exception : option Gemini.Exn) (w : W) : Step * Pool * option Gemini.Exn * W :=
  match attempts with
  | [] => (Continue, self, last_exception, w)
  | attempt :: rest =>
      match attempt_once self model start_time max_attempts backoff_factor request attempt
              last_exception w with
      | (Continue, self1, last_exception1, w1) =>
          try_attempts self1 model start_time max_attempts backoff_factor request rest
            last_exception1 w1
      | (Break, self1, last_exception1, w1) => (Continue, self1, last_exception1, w1)
      | ended => ended
      end
  end.

(** [for model_index, model in enumerate(models_to_try)]. *)
Fixpoint try_models (self : Pool) (request : Gemini.ConsultationRequest)
  (models : list string) (last_exception : option Gemini.Exn) (w : W)
  : Step * Pool * option Gemini.Exn * W :=
  match models with
  | [] => (Continue, self, last_exception, w)
  | model :: rest =>
      let (start_time, w1) := time_time w in
      let max_attempts := max_attempts self in
      let backoff_factor := backoff_factor self in
      match try_attempts self model start_time max_attempts backoff_factor request
              (range max_attempts) last_exception w1 with
      | (Continue, self1, last_exception1, w2) =>
          try_models self1 request rest last_exception1 w2
      | ended => ended
      end
  end.

(** [GeminiIntegration._make_gemini_request]. *)
Definition _make_gemini_request (self : Pool) (request : Gemini.ConsultationRequest) (w : W)
  : (string + Gemini.Exn) * Pool * W :=
  match _get_best_available_model time_time self w with
  | (inr e, w1) => (inr e, self, w1)
  | (inl best, w1) =>
      let models_to_try := dedupe (best :: fallback_models self) in
      match try_models self request models_to_try None w1 with
      | (Return result, self1, _, w2) => (inl result, self1, w2)
      | (Raise e, self1, _, w2) => (inr e, self1, w2)
      | (_, self1, Some last_exception, w2) => (inr last_exception, self1, w2)
      | (_, self1, None, w2) =>
          (inr (Gemini.GeminiAPIError "All models failed to provide a response"), self1, w2)
      end
  end.

End World.

(** [after] differs from [before] at most in the statistics of [models]. *)
Definition only_touches (models : list string) (before after : Pool) : Prop :=
  primary_model after = primary_model before
  /\ fallback_models after = fallback_models before
  /\ max_attempts after = max_attempts before
  /\ backoff_factor after = backoff_factor before
  /\ forall m, ~ In m models -> model_performance after !! m = model_performance before !! m.

(** The failure count that the statistics show for a model ([0] when
    there is none). *)
Definition failures_of (self : Pool) (model : string) : Z :=
  default 0 (failure_count (default empty_stats (model_performance self !! model))).

Definition successes_of (self : Pool) (model : string) : Z :=
  default 0 (success_count (default empty_stats (model_performance self !! model))).

End GeminiRequest.

(** ** A pool with the default configuration, and providers for it *)

Module PoolScenario.

(** [_default_config]: the model, [retry], and the fallbacks of
    [__init__]. *)
Definition pool : ModelPool.Pool :=
  ModelPool.new_pool "gemini-2.5-pro" ["gemini-2.5-flash"; "gemini-2.0-flash-exp"] 3 2.

(** Sleeping moves the clock. *)
Definition sleep (t : Q) (w : Scenario.World) : Scenario.World :=
  Scenario.mkWorld (Scenario.clock w + t) (Scenario.invocations w).

Definition prompt (request : Gemini.ConsultationRequest) : string :=
  Gemini.query request.

(** A provider that takes one second and fails with the name of the
    model. *)
Definition failing (prompt model : string) : @Gemini.Callable Scenario.World (option string) :=
  fun w => (inr (Gemini.GeminiAPIError model),
            Scenario.mkWorld (Scenario.clock w + 1) (S (Scenario.invocations w))).

(** A provider that takes one second and answers. *)
Definition answering (prompt model : string) : @Gemini.Callable Scenario.World (option string) :=
  fun w => (inl (Some "4"%string),
            Scenario.mkWorld (Scenario.clock w + 1) (S (Scenario.invocations w))).

(** The pool after the primary model has failed once at second 50, read
    within five minutes of the failure. *)
Definition after_failure : ModelPool.Pool :=
  snd (fst (ModelPool._update_model_stats Scenario.time_time pool "gemini-2.5-pro" false 1
              (Scenario.at_time 50 0))).

End PoolScenario.

(** ** Substring tests of Python strings *)

Module PyIn.

(** [s.startswith(p)]. *)
Fixpoint startswith (s p : string) : bool :=
  match p, s with
  | EmptyString, _ => true
  | String a p', String b s' => Ascii.eqb a b && startswith s' p'
  | String _ _, EmptyString => false
  end.

(** [p in s]. *)
Fixpoint contains (p s : string) : bool :=
  startswith s p
  || match s with
     | EmptyString => false
     | String _ s' => contains p s'
     end.

(** [str(n)] of an [int]. *)
Definition str_int (n : Z) : string := DecimalString.NilZero.string_of_int (Z.to_int n).

End PyIn.

(** ** gemini_integration.py: [_call_gemini_cli_with_model] *)

Module GeminiCli.

(** What starting the [gemini] process and waiting for it comes to. *)
Inductive Outcome : Type :=
| NotFound                                        (* [FileNotFoundError] *)
| TimedOut                                        (* [asyncio.TimeoutError] *)
| Failed (e : Gemini.Exn)                         (* any other exception *)
| Exited (returncode : Z) (stdout stderr : list Z).

(** The [except] clauses after the first: the three classes of the module
    are raised again, anything else is wrapped. *)
Definition reraise (e : Gemini.Exn) : Gemini.Exn :=
  match e with
  | Gemini.AuthenticationError _ | Gemini.RateLimitError _ | Gemini.GeminiAPIError _ => e
  | _ => Gemini.GeminiAPIError ("Unexpected error calling Gemini CLI: " ++ Gemini.str_exn e)
  end.

Section World.

Context {W : Type}.

(** [os.getenv(name)]. *)
Variable getenv : string -> W -> option string.

(** [asyncio.create_subprocess_exec] on the command, with [GOOGLE_API_KEY]
    set to the key, and [asyncio.wait_for(process.communicate(), timeout)]. *)
Variable run : list string -> string -> Z -> W -> Outcome * W.

(** [bytes.decode('utf-8')], which raises on bytes that are not UTF-8. *)
Variable decode : list Z -> string + Gemini.Exn.

(** [GeminiIntegration._call_gemini_cli_with_model]; [timeout_seconds] is
    [config["rate_limiting"]["timeout_seconds"]]. *)
Definition _call_gemini_cli_with_model (timeout_seconds : Z) (prompt model : string)
  : @Gemini.Callable W (option string) :=
  fun w =>
  (* Validate API key first *)
  match Gemini.truthy (getenv "GOOGLE_API_KEY" w) with
  | None =>
      (inr (Gemini.AuthenticationError
              "GOOGLE_API_KEY environment variable is required but not set"), w)
  | Some api_key =>
      let cmd := ["gemini"; "--model"; model; "--prompt"; prompt]%string in
      match run cmd api_key timeout_seconds w with
      | (NotFound, w1) =>
          (inr (Gemini.GeminiAPIError
                  "Gemini CLI not found. Please install it with: npm install -g @google/gemini-cli"),
           w1)
      | (TimedOut, w1) =>
          (inr (Gemini.GeminiAPIError
                  ("Gemini CLI call timed out after " ++ PyIn.str_int timeout_seconds
                   ++ " seconds")), w1)
      | (Failed e, w1) => (inr (reraise e), w1)
      | (Exited returncode stdout stderr, w1) =>
          if returncode =? 0
          then
            match decode stdout with
            | inr e => (inr (reraise e), w1)
            | inl text =>
                let response := PyStr.strip text in
                match response with
                | EmptyString =>
                    (inr (Gemini.GeminiAPIError "Received empty response from Gemini CLI"), w1)
                | _ => (inl (Some response), w1)
                end
            end
          else
            match decode stderr with
            | inr e => (inr (reraise e), w1)
            | inl text =>
                let error_msg := PyStr.strip text in
                (* Parse specific error types *)
                if PyIn.contains "quota" (PyStr.lower error_msg)
                   || PyIn.contains "limit" (PyStr.lower error_msg)
                then (inr (Gemini.RateLimitError
                             ("Gemini API rate limit exceeded: " ++ error_msg)), w1)
                else if PyIn.contains "auth" (PyStr.lower error_msg)
                        || PyIn.contains "key" (PyStr.lower error_msg)
                then (inr (Gemini.AuthenticationError
                             ("Gemini API authentication failed: " ++ error_msg)), w1)
                else (inr (Gemini.GeminiAPIError ("Gemini CLI failed: " ++ error_msg)), w1)
            end
      end
  end.

End World.

End GeminiCli.

(** ** src/optimized-ai-system.py, class QueryPatternAnalyzer *)

Module PatternAnalyzer.
Import Optimized.

(** [self.patterns] as [__init__] builds it, in the order of the
    dictionary. *)
Definition patterns : list (QueryPattern * list string) :=
  [ (FAQ, ["what is"; "how to"; "why does"; "can you explain"; "what are";
           "how do i"; "tell me about"; "what's the difference"; "compare"]);
    (TECHNICAL, ["implement"; "code"; "function"; "class"; "algorithm"; "debug";
                 "error"; "exception"; "api"; "database"; "performance"]);
    (CREATIVE, ["create"; "generate"; "design"; "write"; "compose"; "brainstorm";
                "imagine"; "story"; "poem"; "creative"]);
    (ANALYSIS, ["analyze"; "evaluate"; "assess"; "review"; "examine"; "study";
                "investigate"; "research"; "compare"; "contrast"]);
    (DEBUG, ["fix"; "debug"; "error"; "bug"; "issue"; "problem"; "broken";
             "not working"; "fails"; "exception"; "traceback"]) ]%string.

(** [pattern_scores[pattern] += weight] on a [defaultdict(float)], kept in
    the order of insertion. *)
Fixpoint dd_add (pattern : QueryPattern) (weight : Q) (d : list (QueryPattern * Q))
  : list (QueryPattern * Q) :=
  match d with
  | [] => [(pattern, (0 + weight)%Q)]
  | (p, v) :: d' =>
      if pattern_eqb pattern p then (p, (v + weight)%Q) :: d'
      else (p, v) :: dd_add pattern weight d'
  end.

(** The body of the inner loop of [classify_query]. *)
Definition score_keyword (query_lower : string) (pattern : QueryPattern)
  (pattern_scores : list (QueryPattern * Q)) (keyword : string) : list (QueryPattern * Q) :=
  if PyIn.contains keyword query_lower
  then
    (* Weight by keyword length and position *)
    let weight := (inject_Z (Z.of_nat (String.length keyword)) / 10)%Q in
    let weight := if PyIn.startswith query_lower keyword
                  then (weight * (15 # 10))%Q   (* Boost for starting keywords *)
                  else weight in
    dd_add pattern weight pattern_scores
  else pattern_scores.

(** The two loops of [classify_query]. *)
Definition score_patterns (self_patterns : list (QueryPattern * list string))
  (query_lower : string) : list (QueryPattern * Q) :=
  fold_left
    (fun pattern_scores (entry : QueryPattern * list string) =>
       fold_left (score_keyword query_lower (fst entry)) (snd entry) pattern_scores)
    self_patterns [].

(** [max(items, key=lambda x: x[1])] on a list that begins with [best]:
    the first item of the greatest value. *)
Definition max_item (best : QueryPattern * Q) (items : list (QueryPattern * Q))
  : QueryPattern * Q :=
  fold_left (fun best item => if PyNum.Qlt_bool (snd best) (snd item) then item else best)
    items best.

(** [QueryPatternAnalyzer.classify_query]; the division raises
    [ZeroDivisionError] when [query.split()] is empty. *)
Definition classify_query (self_patterns : list (QueryPattern * list string)) (query : string)
  : (QueryPattern * Q) + Gemini.Exn :=
  let query_lower := PyStr.lower query in
  match score_patterns self_patterns query_lower with
  | [] => inl (GENERAL, (5 # 10)%Q)
  | first :: others =>
      let best_pattern := max_item first others in
      let words := PyStr.len (PyStr.split query) in
      if words =? 0 then inr (Gemini.OtherException "float division by zero")
      else
        let confidence := PyNum.py_min (snd best_pattern / inject_Z words) 1 in
        inl (fst best_pattern, confidence)
  end.

(** Some keyword of the table occurs in the text. *)
Definition mentions (self_patterns : list (QueryPattern * list string)) (text : string)
  : Prop :=
  exists pattern keywords keyword,
    In (pattern, keywords) self_patterns /\ In keyword keywords
    /\ PyIn.contains keyword text = true.

(** A keyword of [pattern] occurs in the text. *)
Definition mentions_for (self_patterns : list (QueryPattern * list string))
  (pattern : QueryPattern) (text : string) : Prop :=
  exists keywords keyword,
    In (pattern, keywords) self_patterns /\ In keyword keywords
    /\ PyIn.contains keyword text = true.

(** Every keyword of the table begins with a character that is not white
    space, and no pattern of the table is [GENERAL]. *)
Definition proper (self_patterns : list (QueryPattern * list string)) : bool :=
  forallb
    (fun entry : QueryPattern * list string =>
       negb (pattern_eqb (fst entry) GENERAL)
       && forallb (fun keyword => match keyword with
                                  | EmptyString => false
                                  | String c _ => negb (PyStr.is_space c)
                                  end) (snd entry))
    self_patterns.

(** What holds of the scores while they are built: every score is
    positive and belongs to a pattern with a keyword in the text. *)
Definition sound (self_patterns : list (QueryPattern * list string)) (query_lower : string)
  (d : list (QueryPattern * Q)) : Prop :=
  forall p v, In (p, v) d -> (0 < v)%Q /\ mentions_for self_patterns p query_lower.

(** No character of the text is anything but white space. *)
Fixpoint blank (s : string) : bool :=
  match s with
  | EmptyString => true
  | String c s' => PyStr.is_space c && blank s'
  end.

End PatternAnalyzer.

(** ** src/optimized-ai-system.py, class PerformanceMonitor *)

Module Monitor.

(** The dictionary [self.metrics]. *)
Record Metrics : Type := mkMetrics {
  request_count : Z;
  cache_hits : Z;
  cache_misses : Z;
  avg_response_time : Q;
  error_count : Z;
  concurrent_requests : Z
}.

(** [request_times] is a [deque(maxlen=1000)]. *)
Record PerformanceMonitor : Type := mkPerformanceMonitor {
  metrics : Metrics;
  request_times : list Q
}.

(** [PerformanceMonitor.__init__]. *)
Definition new_monitor : PerformanceMonitor :=
  mkPerformanceMonitor (mkMetrics 0 0 0 0 0 0) [].

(** [deque.append] on a deque of [maxlen] items. *)
Definition deque_append (maxlen : nat) (d : list Q) (x : Q) : list Q :=
  let d' := d ++ [x] in
  skipn (List.length d' - maxlen) d'.

Section World.

Context {W : Type}.
Variable time_time : W -> Q * W.

(** [f"req_{int(time.time() * 1000)}"], as a function of the reading. *)
Variable request_name : Q -> string.

(** [PerformanceMonitor.start_request]. *)
Definition start_request (self : PerformanceMonitor) (w : W)
  : string * PerformanceMonitor * W :=
  let (now, w1) := time_time w in
  let request_id := request_name now in
  let m := metrics self in
  (request_id,
   mkPerformanceMonitor
     (mkMetrics (request_count m) (cache_hits m) (cache_misses m) (avg_response_time m)
        (error_count m) (concurrent_requests m + 1))
     (request_times self),
   w1).

End World.

(** [PerformanceMonitor.end_request]. *)
Definition end_request (self : PerformanceMonitor) (request_id : string)
  (response_time : Q) (success cache_hit : bool) : PerformanceMonitor :=
  let m := metrics self in
  let times := deque_append 1000 (request_times self) response_time in
  mkPerformanceMonitor
    (mkMetrics
       (request_count m + 1)
       (if cache_hit then cache_hits m + 1 else cache_hits m)
       (if cache_hit then cache_misses m else cache_misses m + 1)
       (* Update average response time *)
       (match times with
        | [] => avg_response_time m
        | _ => (PyNum.py_sum times / inject_Z (PyStr.len times))%Q
        end)
       (if success then error_count m else error_count m + 1)
       (Z.max 0 (concurrent_requests m - 1)))
    times.

(** The entries ["cache_hit_rate"] and ["error_rate"] of the dictionary
    that [get_system_metrics] returns. *)
Definition cache_hit_rate (self : PerformanceMonitor) : Q :=
  let cache_total := cache_hits (metrics self) + cache_misses (metrics self) in
  (inject_Z (cache_hits (metrics self)) / inject_Z (Z.max cache_total 1) * 100)%Q.

Definition error_rate (self : PerformanceMonitor) : Q :=
  (inject_Z (error_count (metrics self))
   / inject_Z (Z.max (request_count (metrics self)) 1) * 100)%Q.

(** A call on the monitor. *)
Inductive Event : Type :=
| Start
| End (response_time : Q) (success cache_hit : bool).

Section Run.

Context {W : Type}.
Variable time_time : W -> Q * W.
Variable request_name : Q -> string.

(** A run of calls on one monitor; an [End] is given the name of the
    latest [Start] ([end_request] ignores it). *)
Fixpoint run (events : list Event) (self : PerformanceMonitor) (request_id : string) (w : W)
  : PerformanceMonitor * W :=
  match events with
  | [] => (self, w)
  | Start :: rest =>
      let '(request_id1, self1, w1) := start_request time_time request_name self w in
      run rest self1 request_id1 w1
  | End response_time success cache_hit :: rest =>
      run rest (end_request self request_id response_time success cache_hit) request_id w
  end.

End Run.

(** The response times, the failures and the cache hits that a run of
    calls reports. *)
Definition ended (events : list Event) : list Q :=
  flat_map (fun e => match e with End t _ _ => [t] | Start => [] end) events.

Definition errors (events : list Event) : Z :=
  PyStr.len (List.filter (fun e => match e with End _ false _ => true | _ => false end) events).

Definition hits (events : list Event) : Z :=
  PyStr.len (List.filter (fun e => match e with End _ _ true => true | _ => false end) events).

Definition started (events : list Event) : Z :=
  PyStr.len (List.filter (fun e => match e with Start => true | _ => false end) events).

(** What the monitor holds after the calls [history]. *)
Definition invariant (history : list Event) (self : PerformanceMonitor) : Prop :=
  let m := metrics self in
  request_count m = PyStr.len (ended history)
  /\ cache_hits m = hits history
  /\ cache_misses m = PyStr.len (ended history) - hits history
  /\ error_count m = errors history
  /\ 0 <= concurrent_requests m <= started history
  /\ request_times self = skipn (List.length (ended history) - 1000) (ended history)
  /\ (ended history <> [] ->
      avg_response_time m
      = (PyNum.py_sum (request_times self) / inject_Z (PyStr.len (request_times self)))%Q).

End Monitor.

(** ** src/optimized-ai-system.py: [_adaptive_provider_selection] *)

Module ProviderSelection.
Import Optimized.

(** [get_optimization_config(pattern)["preferred_provider"]], from the
    table of [_load_optimization_rules]. *)
Definition preferred_provider (pattern : QueryPattern) : string :=
  match pattern with
  | FAQ => "gemini"
  | TECHNICAL => "auto"
  | CREATIVE => "llama2"
  | DEBUG => "gemini"
  | ANALYSIS => "both"
  | GENERAL => "auto"
  end.

Definition no_such_method : string :=
  "'OptimizedMultiAIIntegration' object has no attribute '_get_best_performing_provider'".

(** [[p for p, avail in availability.items() if avail]]. *)
Definition available (availability : list (string * bool)) : list string :=
  map fst (List.filter snd availability).

(** [OptimizedMultiAIIntegration._adaptive_provider_selection].
    [strategy] is [self.config.get("provider_selection_strategy")];
    [compare_responses] and [pattern_type] are the fields of the request
    that are read; the class has no method
    [_get_best_performing_provider], so the last line raises
    [AttributeError]. *)
Definition _adaptive_provider_selection (provider_stats : gmap string ProviderStats)
  (strategy : option string) (compare_responses : bool) (pattern_type : QueryPattern)
  (availability : list (string * bool)) : list string + Gemini.Exn :=
  let available_providers := available availability in
  match available_providers with
  | [] => inl []
  | _ =>
      (* For comparison requests, use all available providers *)
      if compare_responses && (1 <? PyStr.len available_providers)
      then inl available_providers
      else
        (* Pattern-based selection *)
        let preferred := preferred_provider pattern_type in
        if negb (String.eqb preferred "auto") && existsb (String.eqb preferred) available_providers
        then inl [preferred]
        else if String.eqb preferred "both"
        then inl available_providers
        else
          (* Adaptive selection based on recent performance *)
          if match strategy with Some s => String.eqb s "adaptive" | None => false end
          then
            match _get_adaptive_provider provider_stats available_providers pattern_type with
            | Some provider => inl [provider]
            | None => inr (Gemini.OtherException "list index out of range")
            end
          else
            (* Fallback to performance-based selection *)
            inr (Gemini.OtherException no_such_method)
  end.

(** The provider that the loop of [_get_adaptive_provider] would keep if
    it scored by [base_score] alone, without the boost for the pattern. *)
Definition best_by_base_score (provider_stats : gmap string ProviderStats)
  (providers : list string) : string :=
  fst (fold_left (score_step (fun p => base_score (provider_stats !! p))) providers
         (hd ""%string providers, 0%Q)).

End ProviderSelection.

(** ** src/optimized-ai-system.py: the consultations of the providers *)

Module Consultations.
Import Optimized.

(** The fields of [OptimizedConsultationRequest] that a consultation
    reads. *)
Record Request : Type := mkRequest {
  query : string;
  context : string;
  pattern_type : QueryPattern;
  uncertainty_detected : bool;
  confidence_score : Q;
  compare_responses : bool
}.

(** A response dictionary: with ["success": True] it holds the text and
    the model, with ["success": False] the error. *)
Inductive Response : Type :=
| Answer (provider text : string) (response_time : Q) (model_used : string)
| Failure (provider error : string) (response_time : Q).

(** [response["provider"]] and [response.get("success")]. *)
Definition provider_of (r : Response) : string :=
  match r with Answer p _ _ _ | Failure p _ _ => p end.

Definition success (r : Response) : bool :=
  match r with Answer _ _ _ _ => true | Failure _ _ _ => false end.

(** What [await asyncio.wait_for(consult(request), timeout=timeout)]
    comes to. *)
Inductive Awaited : Type :=
| Returned (response : option string)
| TimedOut                                  (* [asyncio.TimeoutError] *)
| Raised (e : Gemini.Exn).

Section World.

Context {W : Type}.
Variable time_time : W -> Q * W.

(** The two providers behind [wait_for]: [self.gemini.consult_gemini] and
    [self.llama2.consult_llama2], asked with the query, the context, the
    two flags of the request, and the timeout. *)
Variable consult_gemini : Gemini.ConsultationRequest -> Q -> W -> Awaited * W.
Variable consult_llama2 : Gemini.ConsultationRequest -> Q -> W -> Awaited * W.

(** [self.gemini.primary_model] and [self.llama2.default_model]. *)
Variable primary_model : string.
Variable default_model : string.

(** [f"Timeout after {response_time:.1f}s"]. *)
Variable timeout_message : Q -> string.

(** [self.config.get("timeout_total", 60)]. *)
Variable timeout_total : Q.

(** The common body of [_consult_gemini_optimized] and
    [_consult_llama2_optimized], which differ in the provider they ask,
    its name, and the model they report. *)
Definition consult_optimized (name : string)
  (ask : Gemini.ConsultationRequest -> Q -> W -> Awaited * W) (model : string)
  (provider_stats : gmap string ProviderStats) (request : Request) (w : W)
  : Response * gmap string ProviderStats * W :=
  let (start_time, w1) := time_time w in
  let provider_request :=
    Gemini.mkConsultationRequest (query request) (context request)
      (uncertainty_detected request) (confidence_score request) in
  (* Use adaptive timeout based on query complexity *)
  let timeout := _calculate_adaptive_timeout timeout_total (query request)
                   (pattern_type request) in
  let (awaited, w2) := ask provider_request timeout w1 in
  let (now, w3) := time_time w2 in
  let response_time := (now - start_time)%Q in
  match awaited with
  | Returned response =>
      match Gemini.truthy response with
      | Some text =>
          (Answer name text response_time model,
           _update_provider_stats_optimized provider_stats name true response_time, w3)
      | None =>
          (Failure name "Empty response" response_time,
           _update_provider_stats_optimized provider_stats name false response_time, w3)
      end
  | TimedOut =>
      (Failure name (timeout_message response_time) response_time,
       _update_provider_stats_optimized provider_stats name false response_time, w3)
  | Raised e =>
      (Failure name (Gemini.str_exn e) response_time,
       _update_provider_stats_optimized provider_stats name false response_time, w3)
  end.

(** [OptimizedMultiAIIntegration._consult_gemini_optimized]. *)
Definition _consult_gemini_optimized :=
  consult_optimized "gemini" consult_gemini primary_model.

(** [OptimizedMultiAIIntegration._consult_llama2_optimized]. *)
Definition _consult_llama2_optimized :=
  consult_optimized "llama2" consult_llama2 default_model.

(** The loop of [_execute_sequential_consultations]; [responses] is the
    list built so far. *)
Fixpoint sequential_loop (providers : list string) (responses : list Response)
  (provider_stats : gmap string ProviderStats) (request : Request) (w : W)
  : list Response * gmap string ProviderStats * W :=
  match providers with
  | [] => (responses, provider_stats, w)
  | provider :: rest =>
      let consulted :=
        if String.eqb provider "gemini"
        then Some (_consult_gemini_optimized provider_stats request w)
        else if String.eqb provider "llama2"
        then Some (_consult_llama2_optimized provider_stats request w)
        else None in
      match consulted with
      | None => sequential_loop rest responses provider_stats request w   (* [continue] *)
      | Some (response, provider_stats1, w1) =>
          let responses1 := responses ++ [response] in
          (* If successful and not comparing, stop here *)
          if success response && negb (compare_responses request)
          then (responses1, provider_stats1, w1)
          else sequential_loop rest responses1 provider_stats1 request w1
      end
  end.

(** [OptimizedMultiAIIntegration._execute_sequential_consultations]. *)
Definition _execute_sequential_consultations (provider_stats : gmap string ProviderStats)
  (request : Request) (providers : list string) (w : W)
  : list Response * gmap string ProviderStats * W :=
  sequential_loop providers [] provider_stats request w.

End World.

(** The providers of a list that a sequential run knows how to ask. *)
Definition known (providers : list string) : list string :=
  List.filter (fun p => String.eqb p "gemini" || String.eqb p "llama2") providers.

(** The number of requests recorded for a provider. *)
Definition requests_of (provider_stats : gmap string ProviderStats) (provider : string) : Z :=
  requests (default zero_stats (provider_stats !! provider)).

(** The number of responses of a provider in a list. *)
Definition responses_of (responses : list Response) (provider : string) : Z :=
  PyStr.len (List.filter (fun r => String.eqb (provider_of r) provider) responses).

End Consultations.

(** ** src/optimized-ai-system.py: the analytics of the queries *)

Module Analytics.
Import Optimized.

(** [timestamp] is a [datetime], in microseconds. *)
Record QueryAnalytics : Type := mkQueryAnalytics {
  pattern_type : QueryPattern;
  response_time : Q;
  provider_used : string;
  cache_hit : bool;
  user_id : option string;
  timestamp : Z;
  query_length : Z;
  response_length : Z;
  success : bool
}.

(** One value of [pattern_stats]. *)
Record PatternStats : Type := mkPatternStats {
  count : Z;
  avg_time : Q;
  cache_hits : Z
}.

(** The value that the [defaultdict] makes for a pattern without one. *)
Definition no_stats : PatternStats := mkPatternStats 0 0 0.

(** The part of [OptimizedMultiAIIntegration] that the analytics read and
    write; [analytics_enabled] is [self.config.get("analytics_enabled",
    True)]. *)
Record State : Type := mkState {
  analytics_enabled : bool;
  query_analytics : list QueryAnalytics;
  pattern_stats : list (QueryPattern * PatternStats);
  cache : AdvancedCache
}.

(** [d[k]] and [d[k] = v] on [pattern_stats], in the order of insertion. *)
Fixpoint stats_get (pattern : QueryPattern) (d : list (QueryPattern * PatternStats))
  : option PatternStats :=
  match d with
  | [] => None
  | (p, s) :: d' => if pattern_eqb pattern p then Some s else stats_get pattern d'
  end.

Fixpoint stats_set (pattern : QueryPattern) (s : PatternStats)
  (d : list (QueryPattern * PatternStats)) : list (QueryPattern * PatternStats) :=
  match d with
  | [] => [(pattern, s)]
  | (p, s') :: d' =>
      if pattern_eqb pattern p then (p, s) :: d' else (p, s') :: stats_set pattern s d'
  end.

(** [OptimizedMultiAIIntegration._update_pattern_stats]; the division
    raises [ZeroDivisionError] when the new count is zero, after the
    counters have been written. *)
Definition _update_pattern_stats (self : State) (pattern : QueryPattern)
  (response_time : Q) (cache_hit : bool) : option Gemini.Exn * State :=
  let stats := default no_stats (stats_get pattern (pattern_stats self)) in
  let stats1 := mkPatternStats (count stats + 1) (avg_time stats)
                  (if cache_hit then cache_hits stats + 1 else cache_hits stats) in
  (* Update average response time *)
  let current_avg := avg_time stats1 in
  let count := count stats1 in
  if count =? 0
  then (Some (Gemini.OtherException "float division by zero"),
        mkState (analytics_enabled self) (query_analytics self)
          (stats_set pattern stats1 (pattern_stats self)) (cache self))
  else
    let stats2 := mkPatternStats count
                    ((current_avg * inject_Z (count - 1) + response_time) / inject_Z count)%Q
                    (cache_hits stats1) in
    (None,
     mkState (analytics_enabled self) (query_analytics self)
       (stats_set pattern stats2 (pattern_stats self)) (cache self)).

(** [l[-n:]] for a positive [n]. *)
Definition last_n {A : Type} (n : nat) (l : list A) : list A :=
  skipn (List.length l - n) l.

(** [OptimizedMultiAIIntegration._record_analytics]; [now] is the reading
    of [datetime.now()], and the arguments after it are the fields of the
    request that are read. *)
Definition _record_analytics (self : State) (now : Z)
  (request_pattern_type : QueryPattern) (request_user_id : option string)
  (request_query : string)
  (response_time : Q) (provider_used : string) (cache_hit : bool)
  : option Gemini.Exn * State :=
  if negb (analytics_enabled self) then (None, self)
  else
    let analytics :=
      mkQueryAnalytics request_pattern_type response_time provider_used cache_hit
        request_user_id now (Z.of_nat (String.length request_query)) 0 true in
    (* Store analytics (limit to last 10000 entries) *)
    let kept :=
      if 10000 <=? PyStr.len (query_analytics self)
      then last_n 5000 (query_analytics self)   (* Keep last 5000 *)
      else query_analytics self in
    let self1 := mkState (analytics_enabled self) (kept ++ [analytics])
                   (pattern_stats self) (cache self) in
    (* Update pattern statistics *)
    _update_pattern_stats self1 request_pattern_type response_time cache_hit.

(** [pattern_counts[pattern] += 1] on a [defaultdict(int)]. *)
Fixpoint count_add (pattern : QueryPattern) (d : list (QueryPattern * Z))
  : list (QueryPattern * Z) :=
  match d with
  | [] => [(pattern, 0 + 1)]
  | (p, n) :: d' =>
      if pattern_eqb pattern p then (p, n + 1) :: d' else (p, n) :: count_add pattern d'
  end.

(** [pattern_counts[pattern]] on the [defaultdict(int)]. *)
Fixpoint count_get (pattern : QueryPattern) (d : list (QueryPattern * Z)) : Z :=
  match d with
  | [] => 0
  | (p, n) :: d' => if pattern_eqb pattern p then n else count_get pattern d'
  end.

(** [max(items, key=lambda x: x[1])] on a list that begins with [best]. *)
Definition most_common (best : QueryPattern * Z) (items : list (QueryPattern * Z))
  : QueryPattern * Z :=
  fold_left (fun best item => if snd best <? snd item then item else best) items best.

(** [OptimizedMultiAIIntegration._optimize_based_on_patterns]. *)
Definition _optimize_based_on_patterns (self : State) : State :=
  if negb (analytics_enabled self) then self
  else
    (* Analyze most common patterns *)
    let pattern_counts :=
      fold_left (fun counts analytics => count_add (pattern_type analytics) counts)
        (last_n 1000 (query_analytics self)) [] in
    match pattern_counts with
    | [] => self
    | first :: others =>
        let most_common_pattern := fst (most_common first others) in
        (* Adjust cache TTL based on FAQ frequency *)
        if pattern_eqb most_common_pattern FAQ && (500 <? count_get FAQ pattern_counts)
        then mkState (analytics_enabled self) (query_analytics self) (pattern_stats self)
               (mkAdvancedCache (max_size (cache self)) (72 * hour)
                  (Optimized.cache (cache self)) (access_times (cache self)) (db (cache self)))
        else self
    end.

(** A run of [_record_analytics]: each call with its reading of the
    clock, the three fields of its request, and its three other
    arguments.  A call that raises ends the run. *)
Definition Call : Type := Z * QueryPattern * option string * string * Q * string * bool.

Fixpoint record_all (self : State) (calls : list Call) : option Gemini.Exn * State :=
  match calls with
  | [] => (None, self)
  | (now, pattern, user, query, response_time, provider, hit) :: rest =>
      match _record_analytics self now pattern user query response_time provider hit with
      | (None, self1) => record_all self1 rest
      | raised => raised
      end
  end.

(** The number of entries of a pattern. *)
Definition occurrences (pattern : QueryPattern) (l : list QueryAnalytics) : Z :=
  PyStr.len (List.filter (fun a => pattern_eqb (pattern_type a) pattern) l).

(** The state of a new integration around a cache. *)
Definition new_state (enabled : bool) (cache : AdvancedCache) : State :=
  mkState enabled [] [] cache.

(** The counts in [pattern_stats] are not negative. *)
Definition counted (self : State) : Prop :=
  forall p s, In (p, s) (pattern_stats self) -> 0 <= count s.

End Analytics.

(** * Part II: properties *)

(** ** Facts about the numerics *)

Lemma Qlt_bool_iff (a b : Q) : PyNum.Qlt_bool a b = true <-> (a < b)%Q.
Proof.
  unfold PyNum.Qlt_bool. rewrite negb_true_iff. split.
  - intros H. apply Qnot_le_lt. intros Hle.
    apply Qle_bool_iff in Hle. congruence.
  - intros H. destruct (Qle_bool b a) eqn:E; [|reflexivity].
    apply Qle_bool_iff in E. exfalso. exact (Qlt_not_le _ _ H E).
Qed.

Lemma Qlt_bool_false_iff (a b : Q) : PyNum.Qlt_bool a b = false <-> (b <= a)%Q.
Proof.
  unfold PyNum.Qlt_bool. rewrite negb_false_iff. apply Qle_bool_iff.
Qed.

Lemma py_max_spec (a b : Q) : (PyNum.py_max a b == Qmax a b)%Q.
Proof.
  unfold PyNum.py_max. destruct (PyNum.Qlt_bool a b) eqn:E.
  - apply Qlt_bool_iff in E. symmetry. apply Q.max_r. now apply Qlt_le_weak.
  - apply Qlt_bool_false_iff in E. symmetry. now apply Q.max_l.
Qed.

Lemma py_min_spec (a b : Q) : (PyNum.py_min a b == Qmin a b)%Q.
Proof.
  unfold PyNum.py_min. destruct (PyNum.Qlt_bool b a) eqn:E.
  - apply Qlt_bool_iff in E. symmetry. apply Q.min_r. now apply Qlt_le_weak.
  - apply Qlt_bool_false_iff in E. symmetry. now apply Q.min_l.
Qed.

(** ** The circuit breaker *)

Module BreakerFacts.
Import Gemini.

Section World.

Context {W : Type}.
Variable time_time : W -> Q * W.

(** A breaker that is not OPEN lets the call through as it is. *)
Lemma gate_not_open (self : CircuitBreaker) (w : W) :
  state self <> OPEN -> gate time_time self w = (inl self, w).
Proof.
  unfold gate. destruct (state self); congruence.
Qed.









(** The probe of a HALF_OPEN breaker that succeeds closes the breaker and
    resets the counter. *)
Lemma half_open_success {A : Type} (self : CircuitBreaker) (func : Callable A)
  (w w1 : W) (a : A) :
  state self = HALF_OPEN ->
  func w = (inl a, w1) ->
  call time_time self func w
  = (inl a,
     mkCircuitBreaker (failure_threshold self) (recovery_timeout self) 0
       (last_failure_time self) CLOSED,
     w1).
Proof.
  intros Hst Hf. unfold call. rewrite gate_not_open by congruence.
  unfold attempt. rewrite Hf, Hst. reflexivity.
Qed.

(** The probe of a HALF_OPEN breaker that fails: the counter goes up by
    one and the time of the failure is recorded, but the breaker only
    opens when the counter has reached the threshold. *)
Lemma half_open_failure {A : Type} (self : CircuitBreaker) (func : Callable A)
  (w w1 : W) (e : Exn) :
  state self = HALF_OPEN ->
  func w = (inr e, w1) ->
  call time_time self func w
  = (inr e,
     mkCircuitBreaker (failure_threshold self) (recovery_timeout self)
       (failure_count self + 1) (Some (reading time_time w1))
       (if failure_threshold self <=? failure_count self + 1 then OPEN else HALF_OPEN),
     snd (time_time w1)).
Proof.
  intros Hst Hf. unfold call. rewrite gate_not_open by congruence.
  unfold attempt, reading. rewrite Hf.
  destruct (time_time w1) as [now w2]. cbn.
  destruct (failure_threshold self <=? failure_count self + 1);
    unfold set_state, set_last_failure_time, set_failure_count; cbn;
    rewrite ?Hst; reflexivity.
Qed.

(** A HALF_OPEN breaker is CLOSED after a call only if the callable
    returned: there is no way from HALF_OPEN to CLOSED without a
    successful call. *)
Lemma half_open_closes_only_on_success {A : Type} (self : CircuitBreaker)
  (func : Callable A) (w : W) :
  state self = HALF_OPEN ->
  state (snd (fst (call time_time self func w))) = CLOSED ->
  exists a w1, func w = (inl a, w1).
Proof.
  intros Hst Hclosed. destruct (func w) as [[a|e] w1] eqn:Hf.
  - exists a, w1. reflexivity.
  - exfalso. revert Hclosed. unfold call. rewrite gate_not_open by congruence.
    unfold attempt. rewrite Hf. destruct (time_time w1) as [now w2]. cbn.
    destruct (failure_threshold self <=? failure_count self + 1); cbn;
      rewrite ?Hst; discriminate.
Qed.

End World.


(** C1, on the code as it is.  A breaker with threshold 5 that five
    failures have opened is probed 100 seconds later.  The probe fails,
    and the breaker is left HALF_OPEN with one failure counted, not OPEN;
    the call after it is let through to the provider as well (the
    provider has then run seven times). *)
Example half_open_failed_probe_does_not_reopen :
  let failing := map (fun n => (Scenario.boom, Scenario.at_time (inject_Z (Z.of_nat n)) n))
                   (seq 0 5) in
  let opened := snd (run_calls Scenario.time_time (new_breaker 5 60) failing) in
  let '(probe, after_probe, w1) :=
    call Scenario.time_time opened Scenario.boom (Scenario.at_time 100 5) in
  let '(next, after_next, w2) :=
    call Scenario.time_time after_probe Scenario.boom w1 in
  state opened = OPEN
  /\ probe = inr (OtherException "boom")
  /\ state after_probe = HALF_OPEN
  /\ failure_count after_probe = 1
  /\ last_failure_time after_probe = Some (101 # 1)
  /\ next = inr (OtherException "boom")
  /\ state after_next = HALF_OPEN
  /\ Scenario.invocations w2 = 7%nat.
Proof.
  vm_compute. repeat split; reflexivity.
Qed.

(** A successful probe at second 100 of a HALF_OPEN breaker. *)
Lemma half_open_success_witness :
  snd (fst (call Scenario.time_time (mkCircuitBreaker 5 60 1 (Some (6 # 1)) HALF_OPEN)
              Scenario.fine (Scenario.at_time 100 6)))
  = mkCircuitBreaker 5 60 0 (Some (6 # 1)) CLOSED.
Proof.
  rewrite (half_open_success Scenario.time_time (mkCircuitBreaker 5 60 1 (Some (6 # 1)) HALF_OPEN)
             Scenario.fine (Scenario.at_time 100 6)
             (Scenario.mkWorld (100 + 1) 7) tt); reflexivity.
Defined.

(** A failed probe at second 100 of a HALF_OPEN breaker with threshold 5
    and with threshold 1. *)
Lemma half_open_failure_witness :
  state (snd (fst (call Scenario.time_time (mkCircuitBreaker 5 60 0 (Some (6 # 1)) HALF_OPEN)
                     Scenario.boom (Scenario.at_time 100 6))))
  = HALF_OPEN
  /\ state (snd (fst (call Scenario.time_time (mkCircuitBreaker 1 60 0 (Some (6 # 1)) HALF_OPEN)
                        Scenario.boom (Scenario.at_time 100 6))))
     = OPEN.
Proof.
  split.
  - rewrite (half_open_failure Scenario.time_time (mkCircuitBreaker 5 60 0 (Some (6 # 1)) HALF_OPEN)
               Scenario.boom (Scenario.at_time 100 6)
               (Scenario.mkWorld (100 + 1) 7) (OtherException "boom")); reflexivity.
  - rewrite (half_open_failure Scenario.time_time (mkCircuitBreaker 1 60 0 (Some (6 # 1)) HALF_OPEN)
               Scenario.boom (Scenario.at_time 100 6)
               (Scenario.mkWorld (100 + 1) 7) (OtherException "boom")); reflexivity.
Defined.

(** A HALF_OPEN breaker that a call has closed: the callable returned. *)
Lemma half_open_closes_only_on_success_witness :
  exists a w1, Scenario.fine (Scenario.at_time 100 6) = (inl a, w1).
Proof.
  apply (half_open_closes_only_on_success Scenario.time_time
           (mkCircuitBreaker 5 60 1 (Some (6 # 1)) HALF_OPEN)
           Scenario.fine (Scenario.at_time 100 6)); reflexivity.
Defined.

End BreakerFacts.

(** ** The rate limiter *)

Module RateLimitFacts.
Import Gemini.

Section World.

Context {W : Type}.
Variable time_time : W -> Q * W.

Lemma check_keeps_config (self : GeminiIntegration) (w : W) :
  requests_per_minute (snd (fst (_check_rate_limit time_time self w)))
  = requests_per_minute self.
Proof.
  unfold _check_rate_limit. destruct (time_time w) as [now w1].
  destruct (Qeq_bool (last_request_time self) 0);
    destruct (PyNum.Qlt_bool 60 _); cbn;
    destruct (_ <=? _); reflexivity.
Qed.

(** The same window: the state as it is decides. *)
Lemma check_same_window (self : GeminiIntegration) (w : W) :
  ~ (last_request_time self == 0)%Q ->
  (reading time_time w - last_request_time self <= 60)%Q ->
  _check_rate_limit time_time self w
  = if requests_per_minute self <=? request_count self
    then (false, self, snd (time_time w))
    else (true, set_rate (last_request_time self) (request_count self + 1) self,
          snd (time_time w)).
Proof.
  intros Hnz Hin. unfold _check_rate_limit, reading in *.
  destruct (time_time w) as [now w1]. cbn in *.
  destruct (Qeq_bool (last_request_time self) 0) eqn:E0.
  { apply Qeq_bool_iff in E0. contradiction. }
  apply Qlt_bool_false_iff in Hin. rewrite Hin. reflexivity.
Qed.

(** A new window: the first request ever, or one more than 60 seconds
    after the window start.  The count starts again from zero. *)
Lemma check_new_window (self : GeminiIntegration) (w : W) :
  (last_request_time self == 0)%Q \/ (60 < reading time_time w - last_request_time self)%Q ->
  _check_rate_limit time_time self w
  = if requests_per_minute self <=? 0
    then (false, set_rate (reading time_time w) 0 self, snd (time_time w))
    else (true, set_rate (reading time_time w) 1 self, snd (time_time w)).
Proof.
  intros Hnew. unfold _check_rate_limit, reading in *.
  destruct (time_time w) as [now w1]. cbn in *.
  destruct (Qeq_bool (last_request_time self) 0) eqn:E0.
  - assert (Hself : PyNum.Qlt_bool 60 (now - now) = false).
    { apply Qlt_bool_false_iff. lra. }
    cbn. rewrite Hself. cbn. destruct (_ <=? 0); reflexivity.
  - assert (Hnz : ~ (last_request_time self == 0)%Q).
    { intros H. apply Qeq_bool_iff in H. congruence. }
    destruct Hnew as [H|H]; [contradiction|].
    apply Qlt_bool_iff in H. rewrite H. cbn. destruct (_ <=? 0); reflexivity.
Qed.

Lemma check_keeps_invariant (self : GeminiIntegration) (w : W) :
  ~ (reading time_time w == 0)%Q ->
  fresh_or_started self ->
  fresh_or_started (snd (fst (_check_rate_limit time_time self w))).
Proof.
  intros Hnow Hinv.
  destruct (Qeq_dec (last_request_time self) 0) as [Hz|Hnz].
  - rewrite check_new_window by (left; exact Hz).
    destruct (_ <=? 0); cbn; intros H; cbn in H; contradiction.
  - destruct (Qlt_le_dec 60 (reading time_time w - last_request_time self)) as [Hout|Hin].
    + rewrite check_new_window by (right; exact Hout).
      destruct (_ <=? 0); cbn; intros H; cbn in H; contradiction.
    + rewrite check_same_window by assumption.
      destruct (_ <=? _); cbn; intros H; cbn in H; contradiction.
Qed.

Lemma run_keeps_invariant (ws : list W) :
  forall self : GeminiIntegration,
    Forall (fun w => ~ (reading time_time w == 0)%Q) ws ->
    fresh_or_started self ->
    fresh_or_started (snd (run_checks time_time self ws))
    /\ requests_per_minute (snd (run_checks time_time self ws)) = requests_per_minute self.
Proof.
  induction ws as [|w rest IH]; intros self Hall Hinv.
  - split; [exact Hinv|reflexivity].
  - inversion Hall as [|x xs Hw Hrest]; subst.
    cbn [run_checks].
    pose proof (check_keeps_invariant self w Hw Hinv) as H1.
    pose proof (check_keeps_config self w) as H2.
    destruct (_check_rate_limit time_time self w) as [[ok self1] w1]. cbn in H1, H2.
    destruct (IH self1 Hrest H1) as [H3 H4].
    destruct (run_checks time_time self1 rest) as [oks self2]. cbn in *.
    split; [exact H3|congruence].
Qed.

(** Once the limit is reached, every attempt of the same window is
    rejected and changes nothing. *)
Lemma run_rejected_in_window (ws : list W) (self : GeminiIntegration) :
  ~ (last_request_time self == 0)%Q ->
  requests_per_minute self <= request_count self ->
  Forall (fun w => (reading time_time w - last_request_time self <= 60)%Q) ws ->
  run_checks time_time self ws = (map (fun _ => false) ws, self).
Proof.
  intros Hnz Hfull. induction ws as [|w rest IH]; intros Hall.
  - reflexivity.
  - inversion Hall as [|x xs Hw Hrest]; subst.
    cbn [run_checks map]. rewrite check_same_window by assumption.
    replace (requests_per_minute self <=? request_count self) with true
      by (symmetry; apply Z.leb_le; exact Hfull).
    rewrite (IH Hrest). reflexivity.
Qed.

(** C7.  Take any sequence of rate-limit checks of one object, from its
    first request on (the limit is positive, as [_validate_config]
    demands, and no clock reading is the zero that marks "no request
    yet"), and the check that follows it at the reading [now].  If more
    than 60 seconds have passed since the window start, the window starts
    at [now] and the count starts again from zero, so the attempt is
    allowed and counted as the first.  Otherwise, if the count has
    reached the limit the attempt is rejected and nothing changes, and so
    is every later attempt as long as its reading is within 60 seconds of
    the window start; below the limit the attempt is allowed and the
    count goes up by one. *)
Theorem rate_limit_window (fresh : GeminiIntegration) (history : list W) (w : W) :
  last_request_time fresh = 0%Q ->
  request_count fresh = 0 ->
  0 < requests_per_minute fresh ->
  Forall (fun w0 => ~ (reading time_time w0 == 0)%Q) history ->
  let self := snd (run_checks time_time fresh history) in
  let now := reading time_time w in
  let ok := fst (fst (_check_rate_limit time_time self w)) in
  let self' := snd (fst (_check_rate_limit time_time self w)) in
  ((60 < now - last_request_time self)%Q ->
     last_request_time self' = now /\ request_count self' = 1 /\ ok = true)
  /\ ((now - last_request_time self <= 60)%Q ->
      requests_per_minute self <= request_count self ->
      ok = false /\ self' = self
      /\ forall later : list W,
           Forall (fun w' => (reading time_time w' - last_request_time self <= 60)%Q) later ->
           run_checks time_time self' later = (map (fun _ => false) later, self'))
  /\ ((now - last_request_time self <= 60)%Q ->
      request_count self < requests_per_minute self ->
      ok = true /\ request_count self' = request_count self + 1).
Proof.
  intros Hlast Hcount Hlimit Hhist self now ok self'.
  assert (Hinv0 : fresh_or_started fresh) by (intros _; exact Hcount).
  destruct (run_keeps_invariant history fresh Hhist Hinv0) as [Hinv Hcfg].
  fold self in Hinv, Hcfg. unfold fresh_or_started in Hinv.
  assert (Hpos : 0 < requests_per_minute self) by lia.
  assert (Hleb0 : (requests_per_minute self <=? 0) = false) by (apply Z.leb_gt; lia).
  split; [|split].
  - intros Hout. subst ok self'.
    rewrite check_new_window by (right; exact Hout). rewrite Hleb0. cbn. auto.
  - intros Hin Hfull.
    assert (Hnz : ~ (last_request_time self == 0)%Q).
    { intros Hz. specialize (Hinv Hz). lia. }
    assert (Hstep : _check_rate_limit time_time self w = (false, self, snd (time_time w))).
    { rewrite check_same_window by assumption.
      replace (requests_per_minute self <=? request_count self) with true
        by (symmetry; apply Z.leb_le; exact Hfull).
      reflexivity. }
    subst ok self'. rewrite Hstep. cbn. repeat split.
    intros later Hlater. apply run_rejected_in_window; assumption.
  - intros Hin Hroom. subst ok self'.
    assert (Hleb : (requests_per_minute self <=? request_count self) = false)
      by (apply Z.leb_gt; exact Hroom).
    destruct (Qeq_dec (last_request_time self) 0) as [Hz|Hnz].
    + rewrite check_new_window by (left; exact Hz). rewrite Hleb0. cbn.
      rewrite (Hinv Hz). auto.
    + rewrite check_same_window by assumption. rewrite Hleb. cbn. auto.
Qed.

End World.

(** The hypotheses of C7 hold for an object with a limit of two requests
    per minute after checks at the readings 100 and 101; the check at 102
    is the third of the window. *)
Lemma rate_limit_window_witness :
  let fresh := mkGeminiIntegration 2 true 0 0 (new_breaker 5 60) (mkResponseCache ∅ 300) in
  let history := [Scenario.at_time 100 0; Scenario.at_time 101 0] in
  let w := Scenario.at_time 102 0 in
  let self := snd (run_checks Scenario.time_time fresh history) in
  requests_per_minute self <= request_count self
  /\ fst (fst (_check_rate_limit Scenario.time_time self w)) = false.
Proof.
  intros fresh history w self.
  pose proof (rate_limit_window Scenario.time_time fresh history w) as H.
  destruct H as (_ & Hfull & _).
  - reflexivity.
  - reflexivity.
  - cbn. lia.
  - repeat constructor; cbn; intros H; discriminate H.
  - assert (Hc : requests_per_minute self <= request_count self).
    { vm_compute. discriminate. }
    split; [exact Hc|].
    apply Hfull; [|exact Hc].
    vm_compute. discriminate.
Defined.

End RateLimitFacts.

(** ** The request path [consult_gemini] *)

Module ConsultFacts.
Import Gemini.

Section World.

Context {W : Type}.
Variable time_time : W -> Q * W.
Variable md5_hexdigest : string -> string.
Variable _format_response : string -> ConsultationRequest -> string.
Variable _make_gemini_request : ConsultationRequest -> @Callable W (option string).

(** The callable that [consult_gemini] hands to the breaker returns the
    task in every world and leaves the world as it is: the request has
    not run. *)
Lemma make_request_returns (request : ConsultationRequest) (w : W) :
  _make_request _make_gemini_request request w = (inl (_make_gemini_request request), w).
Proof. reflexivity. Qed.

(** A call of the breaker with a callable that always returns. *)
Lemma call_returning {A : Type} (self : CircuitBreaker) (func : Callable A) :
  (forall w, exists a, func w = (inl a, w)) ->
  forall w, untouched_or_closed self (snd (fst (call time_time self func w))).
Proof.
  intros Hret w. unfold call, gate.
  destruct (state self) eqn:Hst.
  - destruct (Hret w) as [a Ha]. unfold attempt. rewrite Ha, Hst. cbn.
    left; reflexivity.
  - destruct (time_time w) as [now w1].
    destruct (last_failure_time self) as [last|] eqn:Hlast.
    + destruct (PyNum.Qlt_bool _ _).
      * destruct (Hret w1) as [a Ha]. unfold attempt. rewrite Ha. cbn.
        right. unfold set_failure_count, set_state. cbn. rewrite Hlast. reflexivity.
      * cbn. left; reflexivity.
    + cbn. left; reflexivity.
  - destruct (Hret w) as [a Ha]. unfold attempt. rewrite Ha, Hst. cbn.
    right; reflexivity.
Qed.

(** C9.  In [consult_gemini] the callable given to [CircuitBreaker.call]
    creates the task and returns it; the request runs only when the task
    is awaited, outside the breaker.  So whatever the request does, also
    when it raises, the breaker is left as it was or is closed with the
    counter reset: the failure counter never goes up, the time of the last
    failure is never written, and the breaker is OPEN afterwards only if
    it was OPEN before. *)
Theorem consult_gemini_never_counts_failure
  (self : GeminiIntegration) (request : ConsultationRequest) (w : W) :
  let before := circuit_breaker self in
  let after :=
    circuit_breaker
      (snd (fst (consult_gemini time_time md5_hexdigest _format_response
                   _make_gemini_request self request w))) in
  (forall w0, exists task,
      _make_request _make_gemini_request request w0 = (inl task, w0))
  /\ untouched_or_closed before after
  /\ (failure_count after = failure_count before \/ failure_count after = 0)
  /\ last_failure_time after = last_failure_time before
  /\ (state after = OPEN -> state before = OPEN).
Proof.
  intros before after.
  assert (Hret : forall w0, exists task,
             _make_request _make_gemini_request request w0 = (inl task, w0)).
  { intros w0. eexists. apply make_request_returns. }
  split; [exact Hret|].
  assert (Hmain : untouched_or_closed before after).
  { subst before after. unfold consult_gemini.
    destruct (caching_enabled self) eqn:Hcache.
    - destruct (cache_get _ _ _ _ _) as [[r rc] w1].
      destruct (truthy r); [left; reflexivity|].
      destruct (_check_rate_limit time_time (set_response_cache rc self) w1)
        as [[ok self2] w2] eqn:Hrl.
      assert (Hcb : circuit_breaker self2 = circuit_breaker self).
      { unfold _check_rate_limit in Hrl. destruct (time_time w1).
        destruct (Qeq_bool _ _), (PyNum.Qlt_bool _ _); cbn in Hrl;
          destruct (_ <=? _); inversion Hrl; reflexivity. }
      destruct ok; cbn [negb]; [|left; exact Hcb].
      pose proof (call_returning (circuit_breaker self2) _ Hret w2) as Hc.
      destruct (call time_time (circuit_breaker self2) _ w2) as [[r2 cb] w3].
      cbn in Hc. rewrite Hcb in Hc.
      destruct r2 as [task|e]; [|exact Hc].
      unfold await. destruct (task w3) as [[result|e] w4]; [|exact Hc].
      destruct (truthy result); [|exact Hc].
      cbn [caching_enabled set_circuit_breaker]. 
      assert (Hen : caching_enabled self2 = true).
      { unfold _check_rate_limit in Hrl. destruct (time_time w1).
        destruct (Qeq_bool _ _), (PyNum.Qlt_bool _ _); cbn in Hrl;
          destruct (_ <=? _); inversion Hrl; cbn; exact Hcache. }
      rewrite Hen. destruct (cache_set _ _ _ _ _). exact Hc.
    - cbn [truthy].
      destruct (_check_rate_limit time_time self w) as [[ok self2] w2] eqn:Hrl.
      assert (Hcb : circuit_breaker self2 = circuit_breaker self).
      { unfold _check_rate_limit in Hrl. destruct (time_time w).
        destruct (Qeq_bool _ _), (PyNum.Qlt_bool _ _); cbn in Hrl;
          destruct (_ <=? _); inversion Hrl; reflexivity. }
      destruct ok; cbn [negb]; [|left; exact Hcb].
      pose proof (call_returning (circuit_breaker self2) _ Hret w2) as Hc.
      destruct (call time_time (circuit_breaker self2) _ w2) as [[r2 cb] w3].
      cbn in Hc. rewrite Hcb in Hc.
      destruct r2 as [task|e]; [|exact Hc].
      unfold await. destruct (task w3) as [[result|e] w4]; [|exact Hc].
      destruct (truthy result); [|exact Hc].
      cbn [caching_enabled set_circuit_breaker].
      assert (Hen : caching_enabled self2 = false).
      { unfold _check_rate_limit in Hrl. destruct (time_time w).
        destruct (Qeq_bool _ _), (PyNum.Qlt_bool _ _); cbn in Hrl;
          destruct (_ <=? _); inversion Hrl; cbn; exact Hcache. }
      rewrite Hen. exact Hc. }
  split; [exact Hmain|].
  destruct Hmain as [-> | ->]; cbn; repeat split; auto; congruence.
Qed.

End World.

(** The request path run on a failing provider: the breaker has counted
    nothing, although the consultation raised. *)
Example consult_gemini_failing_provider :
  let self := mkGeminiIntegration 10 true 0 0 (new_breaker 5 60) (mkResponseCache ∅ 300) in
  let failing (_ : ConsultationRequest) : @Callable Scenario.World (option string) :=
    fun w => (inr (GeminiAPIError "Gemini CLI failed: boom"),
              Scenario.mkWorld (Scenario.clock w + 1) (S (Scenario.invocations w))) in
  let '(r, self', w') :=
    consult_gemini Scenario.time_time (fun s => s) (fun s _ => s) failing self
      (mkConsultationRequest "q" "c" false 0) (Scenario.at_time 100 0) in
  r = inr (GeminiAPIError "Failed to consult Gemini: Gemini CLI failed: boom")
  /\ circuit_breaker self' = new_breaker 5 60
  /\ Scenario.invocations w' = 1%nat.
Proof.
  vm_compute. repeat split; reflexivity.
Qed.

End ConsultFacts.

(** ** SHA-256 test vectors *)

Module Sha256Facts.

(** The digests of the empty message, of "abc" (FIPS 180-4, B.1) and of
    messages of 56 and 64 bytes, which need a second block for the
    padding. *)
Example sha256_vectors :
  Sha256.hexdigest []
  = "e3b0c44298fc1c149afbf4c8996fb92427ae41e4649b934ca495991b7852b855"%string
  /\ Sha256.hexdigest (PyStr.encode "abc")
     = "ba7816bf8f01cfea414140de5dae2223b00361a396177a9cb410ff61f20015ad"%string
  /\ Sha256.hexdigest (repeat 97 56)
     = "b35439a4ac6f0948b6d6f9e3c6af0f5f590ce20f1bde7090ef7970686ec6738a"%string
  /\ Sha256.hexdigest (repeat 97 64)
     = "ffe054fe7ae0cb6dc65c3af9b61d5209f439851db43d0ba5997337df154668eb"%string.
Proof.
  vm_compute. repeat split.
Qed.

(** Code points from 128 on take two bytes. *)
Example encode_latin1 :
  PyStr.encode (String (ascii_of_N 233) EmptyString) = [195; 169].
Proof. reflexivity. Qed.

End Sha256Facts.

(** ** The cache key *)

Module HashFacts.
Import PyStr Spec.

Lemma is_space_lower_char (c : ascii) : is_space (lower_char c) = is_space c.
Proof.
  destruct c as [[] [] [] [] [] [] [] []]; reflexivity.
Qed.

Lemma lower_char_idem (c : ascii) : lower_char (lower_char c) = lower_char c.
Proof.
  destruct c as [[] [] [] [] [] [] [] []]; reflexivity.
Qed.

Lemma lower_idem (s : string) : lower (lower s) = lower s.
Proof.
  induction s as [|c s IH]; cbn; [reflexivity|].
  now rewrite lower_char_idem, IH.
Qed.

Lemma lstrip_lower (s : string) : lstrip (lower s) = lower (lstrip s).
Proof.
  induction s as [|c s IH]; cbn; [reflexivity|].
  rewrite is_space_lower_char. destruct (is_space c); [exact IH|reflexivity].
Qed.

Lemma rstrip_cons (c : ascii) (s : string) :
  rstrip (String c s)
  = match rstrip s with
    | EmptyString => if is_space c then EmptyString else String c EmptyString
    | r => String c r
    end.
Proof. reflexivity. Qed.

Lemma rstrip_lower (s : string) : rstrip (lower s) = lower (rstrip s).
Proof.
  induction s as [|c s IH]; [reflexivity|].
  cbn [lower]. rewrite !rstrip_cons, IH, is_space_lower_char.
  destruct (rstrip s); cbn; [destruct (is_space c)|]; reflexivity.
Qed.

Lemma strip_lower (s : string) : strip (lower s) = lower (strip s).
Proof.
  unfold strip. now rewrite rstrip_lower, lstrip_lower.
Qed.

Lemma lstrip_idem (s : string) : lstrip (lstrip s) = lstrip s.
Proof.
  induction s as [|c s IH]; cbn; [reflexivity|].
  destruct (is_space c) eqn:E; [exact IH|]. cbn. now rewrite E.
Qed.

Lemma rstrip_idem (s : string) : rstrip (rstrip s) = rstrip s.
Proof.
  induction s as [|c s IH]; [reflexivity|].
  rewrite rstrip_cons.
  destruct (rstrip s) as [|c' r] eqn:E.
  - destruct (is_space c) eqn:Ec; [reflexivity|].
    rewrite rstrip_cons. cbn. now rewrite Ec.
  - rewrite rstrip_cons, IH. reflexivity.
Qed.

(** Stripping on the left leaves a right-stripped string right-stripped. *)
Lemma rstrip_lstrip_fixed (s : string) :
  rstrip s = s -> rstrip (lstrip s) = lstrip s.
Proof.
  induction s as [|c s IH]; [reflexivity|].
  intros H. cbn [lstrip]. destruct (is_space c) eqn:Ec; [|exact H].
  rewrite rstrip_cons in H.
  destruct (rstrip s) as [|c' r] eqn:E.
  - rewrite Ec in H. discriminate H.
  - apply IH. congruence.
Qed.

Lemma strip_idem (s : string) : strip (strip s) = strip s.
Proof.
  unfold strip.
  rewrite (rstrip_lstrip_fixed (rstrip s)) by apply rstrip_idem.
  apply lstrip_idem.
Qed.

Lemma normalize_idem (s : string) : normalize (normalize s) = normalize s.
Proof.
  unfold normalize. now rewrite strip_lower, strip_idem, lower_idem.
Qed.

(** The key is the digest of the two normalised texts laid end to end. *)
Lemma generate_hash_unfold (query context : string) :
  Optimized._generate_hash query context
  = prefix 16 (Sha256.hexdigest (encode (normalize query ++ normalize context)%string)).
Proof. reflexivity. Qed.

(** C6, as the code has it.  The key of a pair is the key of the
    normalised pair; and the key is taken of the two normalised texts laid
    end to end, so two pairs for which that string is the same have the
    same key. *)
Theorem generate_hash_normalized (q1 c1 q2 c2 : string) :
  Optimized._generate_hash q1 c1 = Optimized._generate_hash (normalize q1) (normalize c1)
  /\ ((normalize q1 ++ normalize c1 = normalize q2 ++ normalize c2)%string ->
      Optimized._generate_hash q1 c1 = Optimized._generate_hash q2 c2).
Proof.
  split.
  - rewrite !generate_hash_unfold, !normalize_idem. reflexivity.
  - intros Hsame. rewrite !generate_hash_unfold, Hsame. reflexivity.
Qed.

(** A pair and the same pair in other letter case and with blanks around
    it have the same key. *)
Lemma generate_hash_normalized_witness :
  Optimized._generate_hash " Test QUERY" "Context  "
  = Optimized._generate_hash "test query" "context".
Proof.
  apply (generate_hash_normalized " Test QUERY" "Context  " "test query" "context").
  vm_compute. reflexivity.
Defined.

(** C6 as stated fails: the pairs [("ab", "c")] and [("a", "bc")]
    differ in query and in context, also after normalisation, and have
    the same key. *)
Lemma generate_hash_collision :
  (normalize "ab", normalize "c") = ("ab", "c")%string
  /\ (normalize "a", normalize "bc") = ("a", "bc")%string
  /\ String.eqb "ab" "a" = false
  /\ String.eqb "c" "bc" = false
  /\ Optimized._generate_hash "ab" "c" = Optimized._generate_hash "a" "bc".
Proof.
  vm_compute. repeat split.
Qed.

End HashFacts.

(** ** The adaptive timeout *)

Module TimeoutFacts.
Import Optimized.

(** Python's [max(lo, min(x, hi))] is the clamp of [x] into [[lo, hi]]. *)
Lemma py_clamp (x lo hi : Q) :
  (PyNum.py_max lo (PyNum.py_min x hi) == PyNum.clamp x lo hi)%Q.
Proof.
  unfold PyNum.clamp, PyNum.py_max, PyNum.py_min.
  destruct (PyNum.Qlt_bool hi x) eqn:E1.
  - apply Qlt_bool_iff in E1.
    rewrite (Q.min_r x hi) by lra.
    destruct (PyNum.Qlt_bool lo hi) eqn:E2.
    + apply Qlt_bool_iff in E2. rewrite Q.max_r by lra. reflexivity.
    + apply Qlt_bool_false_iff in E2. rewrite Q.max_l by lra. reflexivity.
  - apply Qlt_bool_false_iff in E1.
    rewrite (Q.min_l x hi) by lra.
    destruct (PyNum.Qlt_bool lo x) eqn:E2.
    + apply Qlt_bool_iff in E2. rewrite Q.max_r by lra. reflexivity.
    + apply Qlt_bool_false_iff in E2. rewrite Q.max_l by lra. reflexivity.
Qed.

Lemma clamp_bounds (x lo hi : Q) :
  (lo <= hi)%Q -> (lo <= PyNum.clamp x lo hi <= hi)%Q.
Proof.
  intros Hle. unfold PyNum.clamp. split.
  - apply Q.le_max_l.
  - apply Q.max_lub; [exact Hle|apply Q.le_min_r].
Qed.

(** C8.  The timeout of a single-provider call is
    [clamp(baseTimeout * lengthFactor * patternMultiplier, 10, 120)] with
    [baseTimeout = timeout_total / 2], the length factor 1.5 above 50
    words, 0.7 below 10 words and 1 otherwise, and the multiplier of the
    category (0.6 for FAQ, 1.5 for CREATIVE); for every [timeout_total],
    query and category it lies in [[10, 120]]. *)
Theorem adaptive_timeout_clamped (timeout_total : Q) (query : string)
  (pattern : QueryPattern) :
  let words := PyStr.len (PyStr.split query) in
  let timeout := _calculate_adaptive_timeout timeout_total query pattern in
  (timeout ==
     PyNum.clamp (timeout_total / 2 * Spec.length_factor words * pattern_multipliers pattern)
       10 120)%Q
  /\ (pattern_multipliers FAQ == 6 / 10)%Q
  /\ (pattern_multipliers CREATIVE == 15 / 10)%Q
  /\ (10 <= timeout <= 120)%Q.
Proof.
  intros words timeout.
  assert (Heq : (timeout ==
     PyNum.clamp (timeout_total / 2 * Spec.length_factor words * pattern_multipliers pattern)
       10 120)%Q).
  { subst timeout. unfold _calculate_adaptive_timeout. fold words.
    rewrite py_clamp. unfold Spec.length_factor.
    destruct (50 <? words); [reflexivity|].
    destruct (words <? 10); [reflexivity|].
    unfold PyNum.clamp.
    assert (H1 : (timeout_total / 2 * pattern_multipliers pattern
                  == timeout_total / 2 * 1 * pattern_multipliers pattern)%Q) by ring.
    rewrite H1. reflexivity. }
  split; [exact Heq|].
  split; [reflexivity|]. split; [reflexivity|].
  rewrite Heq. apply clamp_bounds. lra.
Qed.

(** The two requests of the repository's tests, and the scenario of the
    spec: a short FAQ query gets less than 30 seconds. *)
Example adaptive_timeout_examples :
  (_calculate_adaptive_timeout 60 "What is AI?" FAQ == 126 / 10)%Q
  /\ (_calculate_adaptive_timeout 60
        "Write a detailed story about futuristic cities" CREATIVE == 315 / 10)%Q
  /\ (_calculate_adaptive_timeout 60 "What is dependency injection?" FAQ < 30)%Q.
Proof. repeat split; vm_compute; reflexivity. Qed.

End TimeoutFacts.

(** ** The provider statistics *)

Module StatsFacts.
Import Optimized.

Lemma update_stats_counters (s : ProviderStats) (success : bool) (response_time : Q) :
  requests (update_stats s success response_time) = requests s + 1
  /\ successes (update_stats s success response_time)
     = successes s + (if success then 1 else 0)
  /\ failures (update_stats s success response_time)
     = failures s + (if success then 0 else 1).
Proof.
  unfold update_stats; destruct success; cbn; repeat split; lia.
Qed.

Lemma initial_balanced : all_balanced initial_provider_stats.
Proof.
  intros p s. unfold initial_provider_stats.
  rewrite !lookup_insert, lookup_empty.
  repeat case_decide; intros Heq; inversion Heq; reflexivity.
Qed.

(** An update keeps every provider balanced. *)
Lemma update_preserves_balanced (provider_stats : gmap string ProviderStats)
  (provider : string) (success : bool) (response_time : Q) :
  all_balanced provider_stats ->
  all_balanced (_update_provider_stats_optimized provider_stats provider success response_time).
Proof.
  intros Hbal p s. unfold _update_provider_stats_optimized.
  rewrite lookup_insert. case_decide as Hp.
  - intros Heq. inversion Heq; subst s. clear Heq.
    pose proof (update_stats_counters (default zero_stats (provider_stats !! provider))
                  success response_time) as (Hr & Hs & Hf).
    assert (Hb : balanced (default zero_stats (provider_stats !! provider))).
    { destruct (provider_stats !! provider) as [s0|] eqn:E; cbn.
      - exact (Hbal _ _ E).
      - reflexivity. }
    unfold balanced in *. destruct success; lia.
  - intros Hs. exact (Hbal _ _ Hs).
Qed.

(** C10.  One update of the statistics adds one to the request count of
    the provider and one to exactly one of its success and failure
    counts, leaves every other provider as it is, lowers no counter, and
    keeps [requests == successes + failures] for every provider. *)
Theorem update_keeps_stats_balanced (provider_stats : gmap string ProviderStats)
  (provider : string) (success : bool) (response_time : Q) :
  all_balanced provider_stats ->
  let before := default zero_stats (provider_stats !! provider) in
  let after_all := _update_provider_stats_optimized provider_stats provider success
                     response_time in
  (exists after,
      after_all !! provider = Some after
      /\ requests after = requests before + 1
      /\ (if success
          then successes after = successes before + 1 /\ failures after = failures before
          else successes after = successes before /\ failures after = failures before + 1))
  /\ (forall p, p <> provider -> after_all !! p = provider_stats !! p)
  /\ (forall p s, provider_stats !! p = Some s ->
        exists s', after_all !! p = Some s' /\ not_below s s')
  /\ all_balanced after_all.
Proof.
  intros Hbal before after_all.
  pose proof (update_stats_counters before success response_time) as (Hr & Hs & Hf).
  assert (Hbefore : balanced before).
  { subst before. destruct (provider_stats !! provider) as [s|] eqn:E; cbn.
    - exact (Hbal _ _ E).
    - reflexivity. }
  assert (Hat : after_all !! provider = Some (update_stats before success response_time)).
  { subst after_all. unfold _update_provider_stats_optimized. apply lookup_insert_eq. }
  assert (Hother : forall p, p <> provider -> after_all !! p = provider_stats !! p).
  { intros p Hp. subst after_all. unfold _update_provider_stats_optimized.
    apply lookup_insert_ne. congruence. }
  split; [|split; [exact Hother|split]].
  - exists (update_stats before success response_time).
    split; [exact Hat|]. split; [exact Hr|].
    destruct success; split; lia.
  - intros p s Hp. destruct (decide (p = provider)) as [->|Hne].
    + exists (update_stats before success response_time). split; [exact Hat|].
      assert (before = s) as -> by (subst before; rewrite Hp; reflexivity).
      unfold not_below. destruct success; lia.
    + exists s. rewrite (Hother p Hne). split; [exact Hp|].
      unfold not_below. lia.
  - subst after_all. apply update_preserves_balanced. exact Hbal.
Qed.

(** The statistics stay balanced along every run of updates from the
    dictionary that [__init__] builds. *)
Lemma updates_keep_stats_balanced (updates : list (string * bool * Q)) :
  all_balanced
    (fold_left (fun st u => _update_provider_stats_optimized st (fst (fst u)) (snd (fst u)) (snd u))
       updates initial_provider_stats).
Proof.
  generalize initial_balanced. generalize initial_provider_stats.
  induction updates as [|[[p ok] t] rest IH]; intros st Hst; cbn.
  - exact Hst.
  - apply IH. apply update_preserves_balanced. exact Hst.
Qed.

(** The hypothesis of C10 holds for the initial dictionary; after one
    successful request of gemini its counts are 1, 1 and 0. *)
Lemma update_keeps_stats_balanced_witness :
  all_balanced initial_provider_stats
  /\ all_balanced (_update_provider_stats_optimized initial_provider_stats "gemini" true (5 # 2)).
Proof.
  split; [exact initial_balanced|].
  apply (update_keeps_stats_balanced initial_provider_stats "gemini" true (5 # 2)).
  exact initial_balanced.
Defined.

End StatsFacts.

(** ** Adaptive provider selection *)

Module SelectionFacts.
Import Optimized.

Lemma adaptive_step_score_step (provider_stats : gmap string ProviderStats)
  (pattern : QueryPattern) :
  adaptive_step provider_stats pattern = score_step (final_score provider_stats pattern).
Proof. reflexivity. Qed.

(** The loop keeps the first provider whose score is above the starting
    score and above every score before it, and not below any score after
    it; if no score is above the starting score it keeps the start. *)
Lemma best_of_loop (f : string -> Q) (l : list string) :
  forall (b : string) (s : Q),
    (fold_left (score_step f) l (b, s) = (b, s) /\ forall p, In p l -> (f p <= s)%Q)
    \/ (exists before chosen after,
          fold_left (score_step f) l (b, s) = (chosen, f chosen)
          /\ l = before ++ chosen :: after
          /\ (s < f chosen)%Q
          /\ (forall p, In p before -> (f p < f chosen)%Q)
          /\ (forall p, In p after -> (f p <= f chosen)%Q)).
Proof.
  induction l as [|x l IH]; intros b s.
  - left. split; [reflexivity|]. intros p [].
  - cbn [fold_left]. unfold score_step at 2 4. cbn [snd].
    destruct (PyNum.Qlt_bool s (f x)) eqn:E.
    + apply Qlt_bool_iff in E. right.
      destruct (IH x (f x)) as [[Hr Hall]|(before & chosen & after & Hr & Hl & Hs & Hb & Ha)].
      * exists [], x, l. repeat split; try assumption. intros p [].
      * exists (x :: before), chosen, after.
        split; [exact Hr|]. split; [cbn; rewrite Hl; reflexivity|].
        split; [lra|]. split; [|exact Ha].
        intros p [<-|Hp]; [exact Hs|apply Hb; exact Hp].
    + apply Qlt_bool_false_iff in E.
      destruct (IH b s) as [[Hr Hall]|(before & chosen & after & Hr & Hl & Hs & Hb & Ha)].
      * left. split; [exact Hr|].
        intros p [<-|Hp]; [exact E|apply Hall; exact Hp].
      * right. exists (x :: before), chosen, after.
        split; [exact Hr|]. split; [cbn; rewrite Hl; reflexivity|].
        split; [exact Hs|]. split; [|exact Ha].
        intros p [<-|Hp]; [lra|apply Hb; exact Hp].
Qed.

(** The speed factor of the code is the clamp of the spec when the
    average latency is not negative. *)
Lemma speed_factor_clamp (avg : Q) :
  (0 <= avg)%Q ->
  (PyNum.py_max (1 # 10) ((10 - PyNum.py_min avg 10) / 10) == Spec.speed_factor avg)%Q.
Proof.
  intros Hpos. unfold Spec.speed_factor, PyNum.clamp, PyNum.py_max, PyNum.py_min.
  destruct (PyNum.Qlt_bool 10 avg) eqn:E1.
  - apply Qlt_bool_iff in E1.
    assert (H0 : ((10 - 10) / 10 == 0)%Q) by reflexivity.
    assert (Hneg : ((10 - avg) / 10 < 0)%Q).
    { apply Qlt_shift_div_r; lra. }
    replace (PyNum.Qlt_bool (1 # 10) ((10 - 10) / 10)) with false by reflexivity.
    rewrite (Q.min_l ((10 - avg) / 10) 1) by lra.
    rewrite Q.max_l by lra. reflexivity.
  - apply Qlt_bool_false_iff in E1.
    assert (Hle : ((10 - avg) / 10 <= 1)%Q).
    { apply Qle_shift_div_r; lra. }
    rewrite (Q.min_l ((10 - avg) / 10) 1) by exact Hle.
    destruct (PyNum.Qlt_bool (1 # 10) ((10 - avg) / 10)) eqn:E2.
    + apply Qlt_bool_iff in E2. rewrite Q.max_r by lra. reflexivity.
    + apply Qlt_bool_false_iff in E2. rewrite Q.max_l by lra. reflexivity.
Qed.

Lemma pattern_boost_favoured (pattern : QueryPattern) (provider : string) :
  pattern_boost pattern provider = if Spec.favoured pattern provider then 12 # 10 else 1%Q.
Proof.
  unfold pattern_boost, Spec.favoured.
  destruct pattern; cbn; destruct (String.eqb provider "gemini");
    destruct (String.eqb provider "llama2"); reflexivity.
Qed.

Lemma final_score_spec (provider_stats : gmap string ProviderStats)
  (pattern : QueryPattern) (provider : string) :
  sane provider_stats ->
  (final_score provider_stats pattern provider
   == Spec.score_as_coded provider_stats pattern provider)%Q.
Proof.
  intros Hsane. unfold final_score, Spec.score_as_coded.
  rewrite pattern_boost_favoured. apply Qmult_comp; [|reflexivity].
  unfold base_score. destruct (provider_stats !! provider) as [s|] eqn:E; [|reflexivity].
  destruct (Hsane _ _ E) as (_ & _ & Havg).
  unfold Spec.success_rate. destruct (requests s =? 0); [reflexivity|].
  rewrite (speed_factor_clamp (avg_time s) Havg). reflexivity.
Qed.

Lemma final_score_nonneg (provider_stats : gmap string ProviderStats)
  (pattern : QueryPattern) (provider : string) :
  sane provider_stats ->
  (0 <= final_score provider_stats pattern provider)%Q.
Proof.
  intros Hsane. unfold final_score.
  apply Qmult_le_0_compat.
  - unfold base_score. destruct (provider_stats !! provider) as [s|] eqn:E; [|cbn; lra].
    destruct (Hsane _ _ E) as (Hr & Hs & _).
    destruct (requests s =? 0) eqn:E0; [lra|].
    apply Z.eqb_neq in E0.
    apply Qmult_le_0_compat.
    + apply Qle_shift_div_l.
      * unfold Qlt; cbn. lia.
      * unfold Qle; cbn. lia.
    + assert (Hsf : (1 # 10 <= PyNum.py_max (1 # 10)
                               ((10 - PyNum.py_min (avg_time s) 10) / 10))%Q).
      { rewrite py_max_spec. apply Q.le_max_l. }
      lra.
  - rewrite pattern_boost_favoured.
    destruct (Spec.favoured pattern provider); lra.
Qed.

(** C3, as the code has it.  With counters and latencies that are not
    negative, the score of a provider is
    [successRate * (0.7 + 0.3 * speedFactor)] with
    [successRate = successes / requests] and
    [speedFactor = clamp((10 - avg_time) / 10, 0.1, 1)] when it has
    recorded requests and 0.5 when it has none, times 1.2 for gemini on
    FAQ and DEBUG and for llama2 on CREATIVE; and of the available
    providers the one returned has the highest score, the first of them
    if several do. *)
Theorem adaptive_provider_is_first_best (provider_stats : gmap string ProviderStats)
  (available_providers : list string) (pattern : QueryPattern) :
  sane provider_stats ->
  available_providers <> [] ->
  let score := final_score provider_stats pattern in
  (forall p, (score p == Spec.score_as_coded provider_stats pattern p)%Q)
  /\ exists before chosen after,
       _get_adaptive_provider provider_stats available_providers pattern = Some chosen
       /\ available_providers = before ++ chosen :: after
       /\ (forall p, In p before -> (score p < score chosen)%Q)
       /\ (forall p, In p after -> (score p <= score chosen)%Q).
Proof.
  intros Hsane Hne score.
  split; [intros p; apply final_score_spec; exact Hsane|].
  destruct available_providers as [|first rest]; [congruence|].
  destruct rest as [|second rest].
  - exists [], first, []. cbn. repeat split; intros p [].
  - unfold _get_adaptive_provider. rewrite adaptive_step_score_step. fold score.
    set (l := first :: second :: rest).
    destruct (best_of_loop score l first 0)
      as [[Hr Hall]|(before & chosen & after & Hr & Hl & Hs & Hb & Ha)].
    + (* no score is above the start value: all are zero, the first stays *)
      exists [], first, (second :: rest).
      rewrite Hr. cbn [fst]. repeat split.
      * intros p [].
      * intros p Hp.
        pose proof (Hall p (or_intror Hp)) as H1.
        pose proof (final_score_nonneg provider_stats pattern first Hsane) as H2.
        fold (score first) in H2. lra.
    + exists before, chosen, after.
      rewrite Hr. cbn [fst]. repeat split; assumption.
Qed.

(** The hypotheses of C3 hold for the initial statistics and both
    providers: on an FAQ query gemini is chosen. *)
Lemma adaptive_provider_is_first_best_witness :
  exists before chosen after,
    _get_adaptive_provider initial_provider_stats ["llama2"; "gemini"] FAQ = Some chosen
    /\ ["llama2"; "gemini"] = before ++ chosen :: after.
Proof.
  destruct (adaptive_provider_is_first_best initial_provider_stats ["llama2"; "gemini"] FAQ)
    as (_ & before & chosen & after & H1 & H2 & _).
  - intros p s. unfold initial_provider_stats.
    rewrite !lookup_insert, lookup_empty.
    repeat case_decide; intros Heq; inversion Heq; cbn; repeat split; (lia || lra).
  - discriminate.
  - exists before, chosen, after. split; assumption.
Defined.

(** C3 as stated fails.  gemini has no recorded request, llama2 has
    eight successes in ten requests: the code scores gemini 0.5 where the
    spec's formula gives 1, and returns llama2 (0.8) where the formula
    ranks gemini first. *)
Lemma zero_history_score_is_half :
  let stats := <["llama2" := mkProviderStats 10 8 2 0 (Some 0%Q) 0 [0%Q]]> initial_provider_stats in
  (final_score stats GENERAL "gemini" == 1 # 2)%Q
  /\ (Spec.score stats GENERAL "gemini" == 1)%Q
  /\ (final_score stats GENERAL "llama2" == 8 # 10)%Q
  /\ (Spec.score stats GENERAL "llama2" == 8 # 10)%Q
  /\ _get_adaptive_provider stats ["gemini"; "llama2"] GENERAL = Some "llama2".
Proof.
  vm_compute. repeat split.
Qed.

End SelectionFacts.

(** ** The response cache *)

Module CacheFacts.
Import Optimized.

Lemma evict_fold_keeps (victims : list (string * Q)) :
  forall s : AdvancedCache,
    let s' := fold_left
                (fun s (victim : string * Q) =>
                   mkAdvancedCache (max_size s) (ttl s)
                     (delete (fst victim) (cache s)) (od_del (fst victim) (access_times s))
                     (db s))
                victims s in
    max_size s' = max_size s /\ ttl s' = ttl s /\ db s' = db s.
Proof.
  induction victims as [|v rest IH]; intros s; cbn.
  - auto.
  - destruct (IH (mkAdvancedCache (max_size s) (ttl s) (delete (fst v) (cache s))
                    (od_del (fst v) (access_times s)) (db s))) as (H1 & H2 & H3).
    cbn in *. auto.
Qed.

Lemma evict_keeps (self : AdvancedCache) :
  max_size (_evict_lru self) = max_size self
  /\ ttl (_evict_lru self) = ttl self
  /\ db (_evict_lru self) = db self.
Proof.
  unfold _evict_lru. destruct (access_times self); [auto|].
  apply evict_fold_keeps.
Qed.

(** [set] spelled out: the eviction first, then the two writes. *)
Lemma set_unfold (self : AdvancedCache) (query context : string)
  (entry : CachedResponse) (env : Env) :
  let key := _generate_hash query context in
  let stored := set_query_hash key entry in
  let self1 := if max_size self <=? Z.of_nat (size (cache self))
               then _evict_lru self else self in
  set self query context entry env
  = mkAdvancedCache (max_size self) (ttl self)
      (<[key := stored]> (cache self1))
      (od_set key (time_time env) (access_times self1))
      (if db_ok env
       then <[key := mkRow stored (timestamp entry) (hit_count entry)
                      (provider entry) (model_used entry)]> (db self)
       else db self).
Proof.
  intros key stored self1. unfold set. fold key. fold stored. fold self1.
  assert (H1 : max_size self1 = max_size self /\ ttl self1 = ttl self /\ db self1 = db self).
  { subst self1. destruct (_ <=? _); [|auto]. apply evict_keeps. }
  destruct H1 as (Hm & Httl & Hdb).
  destruct (db_ok env); cbn; rewrite Hm, Httl, Hdb; reflexivity.
Qed.

(** What [set] leaves behind: the entry under its key, with the key
    written into it. *)
Lemma set_stores (self : AdvancedCache) (query context : string)
  (entry : CachedResponse) (env : Env) :
  let key := _generate_hash query context in
  let self' := set self query context entry env in
  cache self' !! key = Some (set_query_hash key entry)
  /\ ttl self' = ttl self.
Proof.
  intros key self'. subst self'. rewrite set_unfold. cbn.
  split; [apply lookup_insert_eq|reflexivity].
Qed.

Lemma set_keeps_consistent (self : AdvancedCache) (query context : string)
  (entry : CachedResponse) (env : Env) :
  db_consistent self -> db_consistent (set self query context entry env).
Proof.
  intros Hc key row. rewrite set_unfold. cbn [db].
  destruct (db_ok env); [|apply Hc].
  rewrite lookup_insert. case_decide.
  - intros Heq. inversion Heq. reflexivity.
  - apply Hc.
Qed.

Lemma new_cache_consistent (max_size ttl_hours : Z) :
  db_consistent (new_cache max_size ttl_hours).
Proof.
  intros key row. cbn. rewrite lookup_empty. discriminate.
Qed.





(** [clear_expired] leaves no entry older than the TTL in memory and,
    when it reaches the database, none there. *)
Lemma clear_expired_spec (self : AdvancedCache) (env : Env) :
  db_consistent self ->
  let self' := clear_expired self env in
  let cutoff := now_memory env - ttl self in
  (forall key e, cache self' !! key = Some e -> cutoff <= timestamp e)
  /\ (db_ok env = true ->
      forall key row, db self' !! key = Some row -> cutoff <= row_timestamp row)
  /\ db_consistent self'.
Proof.
  intros Hc self' cutoff. subst self'. unfold clear_expired. fold cutoff. cbn [cache db].
  split.
  { intros key e He. apply map_lookup_filter_Some in He. destruct He as [_ He]. exact He. }
  split.
  { intros Hok key row Hrow. rewrite Hok in Hrow.
    apply map_lookup_filter_Some in Hrow. destruct Hrow as [_ Hrow]. exact Hrow. }
  unfold db_consistent. cbn [db]. intros key row.
  destruct (db_ok env); [|apply Hc].
  intros Hrow. apply map_lookup_filter_Some in Hrow. destruct Hrow as [Hrow _].
  exact (Hc _ _ Hrow).
Qed.

(** The cache of the tests swept one hour after the entry was created:
    memory and database are empty under its key. *)
Lemma clear_expired_spec_witness :
  cache (clear_expired Scenario.test_cache (Scenario.cache_env 4601)) !! "b62e4fd905099d3a"
  = None.
Proof.
  destruct (clear_expired_spec Scenario.test_cache (Scenario.cache_env 4601)) as (Hmem & _).
  - apply set_keeps_consistent, new_cache_consistent.
  - destruct (cache (clear_expired Scenario.test_cache (Scenario.cache_env 4601))
                !! "b62e4fd905099d3a") as [e|] eqn:E; [|reflexivity].
    exfalso. pose proof (Hmem _ _ E) as Hle.
    assert (He : timestamp e = 1000 * 1000000).
    { apply map_lookup_filter_Some in E. destruct E as [E _].
      vm_compute in E. inversion E. reflexivity. }
    rewrite He in Hle. vm_compute in Hle. apply Hle. reflexivity.
Defined.


Lemma set_query_hash_same (entry : CachedResponse) :
  set_query_hash (query_hash entry) entry = entry.
Proof. destruct entry; reflexivity. Qed.

(** C5, as the code has it.  [set(query, context, entry)] followed by
    [get(query, context)] while the age of the entry is below the TTL
    returns the entry with its hit count one higher and its [query_hash]
    set to the key of the pair, which [set] writes into the entry it
    stores; an entry that already carries the key comes back with nothing
    but the hit count changed. *)
Theorem set_then_get_returns_entry (self : AdvancedCache) (query context : string)
  (entry : CachedResponse) (env0 env : Env) :
  now_memory env - timestamp entry < ttl self ->
  let key := _generate_hash query context in
  let stored := set_query_hash key entry in
  let self1 := set self query context entry env0 in
  let result := fst (get self1 query context env) in
  cache self1 !! key = Some stored
  /\ result = Some (set_hit_count (hit_count entry + 1) stored)
  /\ (query_hash entry = key ->
      result = Some (set_hit_count (hit_count entry + 1) entry)).
Proof.
  intros Hlive key stored self1 result.
  destruct (set_stores self query context entry env0) as [Hstored Httl].
  fold key stored self1 in Hstored, Httl.
  assert (Hres : result = Some (set_hit_count (hit_count entry + 1) stored)).
  { subst result. unfold get. fold key. rewrite Hstored, Httl.
    replace (now_memory env - timestamp stored <? ttl self) with true
      by (symmetry; apply Z.ltb_lt; exact Hlive).
    reflexivity. }
  split; [exact Hstored|]. split; [exact Hres|].
  intros Hkey. rewrite Hres. subst stored. rewrite <- Hkey.
  rewrite set_query_hash_same. reflexivity.
Qed.

(** The hypothesis of C5 holds for the entry of the tests read five
    seconds after it was created. *)
Lemma set_then_get_returns_entry_witness :
  fst (get Scenario.test_cache "test query" "test context" (Scenario.cache_env 1005))
  = Some (set_hit_count 1 (set_query_hash "b62e4fd905099d3a" Scenario.test_entry)).
Proof.
  destruct (set_then_get_returns_entry (new_cache 100 1) "test query" "test context"
              Scenario.test_entry (Scenario.cache_env 1000) (Scenario.cache_env 1005))
    as (_ & H & _).
  - vm_compute. reflexivity.
  - exact H.
Defined.

(** C5 as stated fails on the entry of the tests: what [get] returns
    differs from the entry handed to [set] in the hit count and in
    [query_hash], which was empty and is now the key. *)
Lemma set_then_get_changes_query_hash :
  fst (get Scenario.test_cache "test query" "test context" (Scenario.cache_env 1005))
  = Some (mkCachedResponse "Test response" "gemini" "gemini-pro" (1000 * 1000000) 1
            "b62e4fd905099d3a" 0)
  /\ set_hit_count (hit_count Scenario.test_entry + 1) Scenario.test_entry
     = mkCachedResponse "Test response" "gemini" "gemini-pro" (1000 * 1000000) 1 "" 0.
Proof.
  vm_compute. split; reflexivity.
Qed.

End CacheFacts.

(** ** The memory tier: eviction and capacity *)

Module EvictionFacts.
Import Optimized MemoryTier.

Lemma od_del_keys (k : string) (d : list (string * Q)) :
  keys (od_del k d) = List.filter (fun x => negb (String.eqb k x)) (keys d).
Proof.
  unfold keys, od_del. induction d as [|[k' v] d IH]; cbn; [reflexivity|].
  destruct (String.eqb k k'); cbn; now rewrite IH.
Qed.

Lemma od_del_in (k x : string) (d : list (string * Q)) :
  In x (keys (od_del k d)) <-> In x (keys d) /\ x <> k.
Proof.
  rewrite od_del_keys, filter_In, negb_true_iff. split.
  - intros [Hin Hne]. split; [exact Hin|]. intros ->. rewrite String.eqb_refl in Hne. discriminate.
  - intros [Hin Hne]. split; [exact Hin|]. apply String.eqb_neq. congruence.
Qed.

Lemma od_del_nodup (k : string) (d : list (string * Q)) :
  List.NoDup (keys d) -> List.NoDup (keys (od_del k d)).
Proof.
  intros H. rewrite od_del_keys. apply List.NoDup_filter. exact H.
Qed.

Lemma od_del_entries (k x : string) (t : Q) (d : list (string * Q)) :
  In (x, t) (od_del k d) <-> In (x, t) d /\ x <> k.
Proof.
  unfold od_del. rewrite filter_In, negb_true_iff. cbn. split.
  - intros [Hin Hne]. split; [exact Hin|]. intros ->. rewrite String.eqb_refl in Hne. discriminate.
  - intros [Hin Hne]. split; [exact Hin|]. apply String.eqb_neq. congruence.
Qed.

Lemma od_set_in (k x : string) (v : Q) (d : list (string * Q)) :
  In x (keys (od_set k v d)) <-> x = k \/ In x (keys d).
Proof.
  unfold keys. induction d as [|[k' v'] d IH]; cbn.
  - split; [intros [H|[]]; auto|intros [H|[]]; auto].
  - destruct (String.eqb k k') eqn:E; cbn.
    + apply String.eqb_eq in E. subst k'. intuition congruence.
    + rewrite IH. intuition congruence.
Qed.

Lemma od_set_nodup (k : string) (v : Q) (d : list (string * Q)) :
  List.NoDup (keys d) -> List.NoDup (keys (od_set k v d)).
Proof.
  unfold keys. induction d as [|[k' v'] d IH]; cbn; intros H.
  - constructor; [intros []|constructor].
  - inversion H as [|x xs Hnot Hrest]; subst.
    destruct (String.eqb k k') eqn:E; cbn.
    + apply String.eqb_eq in E. subst k'. constructor; assumption.
    + constructor; [|apply IH; exact Hrest].
      intros Hin. apply (od_set_in k k' v d) in Hin. destruct Hin as [->|Hin].
      * rewrite String.eqb_refl in E. discriminate.
      * apply Hnot. exact Hin.
Qed.

(** In sync, memory holds as many entries as [access_times] has keys. *)
Lemma sync_size (self : AdvancedCache) :
  in_sync self -> size (cache self) = length (access_times self).
Proof.
  intros [Hnd Hdom].
  rewrite <- (size_dom (D := gset string)).
  assert (Heq : dom (cache self) = list_to_set (keys (access_times self))).
  { apply set_eq. intros x. rewrite elem_of_dom, elem_of_list_to_set, list_elem_of_In.
    apply Hdom. }
  rewrite Heq, size_list_to_set.
  - unfold keys. apply length_map.
  - apply NoDup_ListNoDup. exact Hnd.
Qed.

(** Deleting from both dictionaries, key by key. *)
Lemma fold_delete_in (ks : list string) :
  forall (c : gmap string CachedResponse) (x : string),
    In x ks -> fold_left (fun c k => delete k c) ks c !! x = None.
Proof.
  induction ks as [|k ks IH]; intros c x Hin; [destruct Hin|].
  cbn [fold_left]. destruct (in_dec string_dec x ks) as [Hrest|Hrest].
  - apply IH. exact Hrest.
  - destruct Hin as [->|Hin]; [|contradiction].
    clear IH. revert c. induction ks as [|k' ks IH]; intros c; cbn [fold_left].
    + apply lookup_delete_eq.
    + rewrite delete_delete. apply IH. intros Hin. apply Hrest. right. exact Hin.
Qed.

Lemma fold_delete_notin (ks : list string) :
  forall (c : gmap string CachedResponse) (x : string),
    ~ In x ks -> fold_left (fun c k => delete k c) ks c !! x = c !! x.
Proof.
  induction ks as [|k ks IH]; intros c x Hnot; [reflexivity|].
  cbn [fold_left]. rewrite IH by (intros H; apply Hnot; right; exact H).
  apply lookup_delete_ne. intros ->. apply Hnot. left. reflexivity.
Qed.

Lemma fold_delete_size (ks : list string) :
  forall c : gmap string CachedResponse,
    List.NoDup ks ->
    (forall k, In k ks -> is_Some (c !! k)) ->
    (size (fold_left (fun c k => delete k c) ks c) + length ks = size c)%nat.
Proof.
  induction ks as [|k ks IH]; intros c Hnd Hin; cbn [fold_left length]; [lia|].
  inversion Hnd as [|x xs Hnot Hrest]; subst.
  rewrite Nat.add_succ_r, IH.
  - destruct (Hin k (or_introl eq_refl)) as [e He].
    pose proof (map_size_delete k c) as Hs. rewrite He in Hs.
    assert (size c <> 0)%nat.
    { intros H0. apply map_size_empty_inv in H0. subst c. rewrite lookup_empty in He. discriminate. }
    lia.
  - exact Hrest.
  - intros k' Hk'. rewrite lookup_delete_ne; [apply Hin; right; exact Hk'|].
    intros ->. contradiction.
Qed.

Lemma fold_od_del_entries (ks : list string) :
  forall (d : list (string * Q)) (x : string) (t : Q),
    In (x, t) (fold_left (fun a k => od_del k a) ks d) <-> In (x, t) d /\ ~ In x ks.
Proof.
  induction ks as [|k ks IH]; intros d x t; cbn [fold_left].
  - cbn. tauto.
  - rewrite IH, od_del_entries. cbn. intuition congruence.
Qed.

Lemma fold_od_del_in (ks : list string) :
  forall (d : list (string * Q)) (x : string),
    In x (keys (fold_left (fun a k => od_del k a) ks d)) <-> In x (keys d) /\ ~ In x ks.
Proof.
  induction ks as [|k ks IH]; intros d x; cbn [fold_left].
  - cbn. tauto.
  - rewrite IH, od_del_in. cbn. intuition congruence.
Qed.

Lemma fold_od_del_nodup (ks : list string) :
  forall d : list (string * Q),
    List.NoDup (keys d) -> List.NoDup (keys (fold_left (fun a k => od_del k a) ks d)).
Proof.
  induction ks as [|k ks IH]; intros d H; cbn [fold_left]; [exact H|].
  apply IH, od_del_nodup, H.
Qed.

(** The loop of [_evict_lru] deletes the keys of the victims from both
    dictionaries and touches nothing else. *)
Lemma evict_loop_spec (victims : list (string * Q)) :
  forall s : AdvancedCache,
    fold_left
      (fun s (victim : string * Q) =>
         mkAdvancedCache (max_size s) (ttl s)
           (delete (fst victim) (cache s)) (od_del (fst victim) (access_times s)) (db s))
      victims s
    = mkAdvancedCache (max_size s) (ttl s)
        (fold_left (fun c k => delete k c) (keys victims) (cache s))
        (fold_left (fun a k => od_del k a) (keys victims) (access_times s))
        (db s).
Proof.
  induction victims as [|v rest IH]; intros s; cbn [fold_left keys map].
  - destruct s; reflexivity.
  - rewrite IH. reflexivity.
Qed.

(** Deleting any keys from both dictionaries keeps them in sync. *)
Lemma delete_keys_sync (ks : list string) (self : AdvancedCache) :
  in_sync self ->
  in_sync (mkAdvancedCache (max_size self) (ttl self)
             (fold_left (fun c k => delete k c) ks (cache self))
             (fold_left (fun a k => od_del k a) ks (access_times self))
             (db self)).
Proof.
  intros [Hnd Hdom]. split; cbn [cache access_times].
  - apply fold_od_del_nodup. exact Hnd.
  - intros x. rewrite fold_od_del_in. destruct (in_dec string_dec x ks) as [Hin|Hnot].
    + rewrite (fold_delete_in ks _ x Hin). split; [intros [e He]; discriminate|tauto].
    + rewrite (fold_delete_notin ks _ x Hnot), Hdom. tauto.
Qed.

(** [sorted(...)] is a stable insertion sort: a permutation of the items,
    in ascending order of access time. *)

Lemma insert_sorted_perm (x : string * Q) (l : list (string * Q)) :
  Permutation (insert_sorted x l) (x :: l).
Proof.
  induction l as [|y l IH]; cbn; [reflexivity|].
  destruct (Qle_bool (snd x) (snd y)); [reflexivity|].
  rewrite IH. apply perm_swap.
Qed.

Lemma sorted_items_perm (d : list (string * Q)) : Permutation (sorted_items d) d.
Proof.
  unfold sorted_items. induction d as [|x d IH]; cbn; [reflexivity|].
  rewrite insert_sorted_perm, IH. reflexivity.
Qed.

Lemma insert_sorted_sorted (x : string * Q) (l : list (string * Q)) :
  StronglySorted older l -> StronglySorted older (insert_sorted x l).
Proof.
  induction l as [|y l IH]; cbn; intros Hs.
  - constructor; constructor.
  - inversion Hs as [|y' l' Hl Hall]; subst.
    destruct (Qle_bool (snd x) (snd y)) eqn:E.
    + apply Qle_bool_iff in E. constructor; [exact Hs|].
      constructor; [exact E|].
      eapply Forall_impl; [exact Hall|]. intros z Hz. unfold older in *. lra.
    + assert (Hyx : (snd y <= snd x)%Q).
      { destruct (Qlt_le_dec (snd y) (snd x)) as [H|H]; [lra|].
        apply Qle_bool_iff in H. congruence. }
      constructor; [apply IH; exact Hl|].
      rewrite (insert_sorted_perm x l).
      constructor; [exact Hyx|exact Hall].
Qed.

Lemma sorted_items_sorted (d : list (string * Q)) : StronglySorted older (sorted_items d).
Proof.
  unfold sorted_items. induction d as [|x d IH]; cbn; [constructor|].
  apply insert_sorted_sorted, IH.
Qed.

Lemma sorted_split (l1 l2 : list (string * Q)) :
  StronglySorted older (l1 ++ l2) ->
  forall a b, In a l1 -> In b l2 -> older a b.
Proof.
  induction l1 as [|x l1 IH]; cbn; intros Hs a b Ha Hb; [destruct Ha|].
  inversion Hs as [|x' l' Hl Hall]; subst.
  destruct Ha as [<-|Ha].
  - rewrite Forall_forall in Hall. apply Hall. apply list_elem_of_In, in_or_app. right. exact Hb.
  - apply (IH Hl a b Ha Hb).
Qed.

Lemma nodup_keys_functional (d : list (string * Q)) (k : string) (t t' : Q) :
  List.NoDup (keys d) -> In (k, t) d -> In (k, t') d -> t = t'.
Proof.
  unfold keys. induction d as [|[k0 t0] d IH]; cbn; intros Hnd H1 H2; [destruct H1|].
  inversion Hnd as [|x xs Hnot Hrest]; subst.
  destruct H1 as [H1|H1], H2 as [H2|H2].
  - congruence.
  - inversion H1; subst. exfalso. apply Hnot. apply in_map_iff. exists (k, t'). auto.
  - inversion H2; subst. exfalso. apply Hnot. apply in_map_iff. exists (k, t). auto.
  - apply (IH Hrest H1 H2).
Qed.

Lemma key_has_entry (d : list (string * Q)) (k : string) :
  In k (keys d) -> exists t, In (k, t) d.
Proof.
  unfold keys. intros H. apply in_map_iff in H. destruct H as ([k' t] & Hk & Hin).
  cbn in Hk. subst k'. exists t. exact Hin.
Qed.

Lemma entry_has_key (d : list (string * Q)) (k : string) (t : Q) :
  In (k, t) d -> In k (keys d).
Proof.
  unfold keys. intros H. apply in_map_iff. exists (k, t). auto.
Qed.

(** The victims of an eviction: distinct keys, all of them in memory. *)
Lemma victims_facts (self : AdvancedCache) (count : nat) :
  in_sync self ->
  let victims := firstn count (sorted_items (access_times self)) in
  List.NoDup (keys victims)
  /\ (forall x, In x (keys victims) -> is_Some (cache self !! x))
  /\ (forall v, In v victims -> In v (access_times self)).
Proof.
  intros [Hnd Hdom] victims.
  pose proof (sorted_items_perm (access_times self)) as Hperm.
  assert (Hsub : forall v, In v victims -> In v (access_times self)).
  { intros v Hv. apply (Permutation_in _ Hperm).
    rewrite <- (firstn_skipn count (sorted_items (access_times self))).
    apply in_or_app. left. exact Hv. }
  split; [|split; [|exact Hsub]].
  - assert (Hall : List.NoDup (keys (sorted_items (access_times self)))).
    { apply (Permutation_NoDup (l := keys (access_times self))); [|exact Hnd].
      unfold keys. apply Permutation_map. symmetry. exact Hperm. }
    rewrite <- (firstn_skipn count (sorted_items (access_times self))) in Hall.
    unfold keys in Hall. rewrite map_app in Hall.
    apply NoDup_app_remove_r in Hall. exact Hall.
  - intros x Hx. apply Hdom. destruct (key_has_entry _ _ Hx) as [t Ht].
    apply (entry_has_key _ x t). apply Hsub. exact Ht.
Qed.

Lemma evict_unfold (self : AdvancedCache) :
  access_times self <> [] ->
  let count := Z.to_nat (Z.max 1 (Z.of_nat (size (cache self)) / 10)) in
  let victims := firstn count (sorted_items (access_times self)) in
  _evict_lru self
  = mkAdvancedCache (max_size self) (ttl self)
      (fold_left (fun c k => delete k c) (keys victims) (cache self))
      (fold_left (fun a k => od_del k a) (keys victims) (access_times self))
      (db self).
Proof.
  intros Hne. cbv zeta. unfold _evict_lru.
  destruct (access_times self) as [|a rest] eqn:E; [congruence|].
  rewrite evict_loop_spec, E. reflexivity.
Qed.

Lemma evict_sync (self : AdvancedCache) : in_sync self -> in_sync (_evict_lru self).
Proof.
  intros Hs. destruct (access_times self) as [|a rest] eqn:E.
  - unfold _evict_lru. rewrite E. exact Hs.
  - rewrite evict_unfold by (rewrite E; discriminate).
    apply delete_keys_sync. exact Hs.
Qed.

(** The number of entries an eviction removes. *)
Lemma evict_size (self : AdvancedCache) :
  in_sync self ->
  access_times self <> [] ->
  Z.of_nat (size (cache (_evict_lru self)))
  = Z.of_nat (size (cache self)) - Z.max 1 (Z.of_nat (size (cache self)) / 10).
Proof.
  intros Hs Hne. rewrite (evict_unfold self Hne). cbn [cache].
  set (count := Z.to_nat (Z.max 1 (Z.of_nat (size (cache self)) / 10))).
  set (victims := firstn count (sorted_items (access_times self))).
  destruct (victims_facts self count Hs) as (Hnd & Hpresent & _). fold victims in Hnd, Hpresent.
  pose proof (fold_delete_size (keys victims) (cache self) Hnd Hpresent) as Hsize.
  assert (Hlen : length (keys victims) = Nat.min count (size (cache self))).
  { unfold keys, victims. rewrite length_map, length_firstn.
    rewrite (Permutation_length (sorted_items_perm (access_times self))).
    rewrite (sync_size self Hs). reflexivity. }
  assert (Hpos : (0 < size (cache self))%nat).
  { rewrite (sync_size self Hs). destruct (access_times self); [congruence|cbn; lia]. }
  assert (Hdiv : Z.of_nat (size (cache self)) / 10 <= Z.of_nat (size (cache self))).
  { apply Z.div_le_upper_bound; lia. }
  subst count. lia.
Qed.

(** [_evict_lru] with something to evict: it removes
    [max(1, len(cache) // 10)] entries, the retained entries are unchanged,
    and no entry it removes was accessed later than an entry it keeps. *)
Theorem evict_lru_least_recent (self : AdvancedCache) :
  in_sync self ->
  access_times self <> [] ->
  let self' := _evict_lru self in
  Z.of_nat (size (cache self'))
  = Z.of_nat (size (cache self)) - Z.max 1 (Z.of_nat (size (cache self)) / 10)
  /\ (forall k e, cache self' !! k = Some e -> cache self !! k = Some e)
  /\ (forall k t k' t',
        In (k, t) (access_times self) -> In (k', t') (access_times self) ->
        cache self' !! k = None -> is_Some (cache self' !! k') ->
        (t <= t')%Q)
  /\ db self' = db self.
Proof.
  intros Hs Hne self'.
  split; [apply evict_size; assumption|].
  subst self'. rewrite (evict_unfold self Hne). cbn [cache db].
  set (count := Z.to_nat (Z.max 1 (Z.of_nat (size (cache self)) / 10))).
  set (victims := firstn count (sorted_items (access_times self))).
  destruct (victims_facts self count Hs) as (Hnd & Hpresent & Hsub). fold victims in Hnd, Hpresent, Hsub.
  split; [|split; [|reflexivity]].
  - intros k e He. destruct (in_dec string_dec k (keys victims)) as [Hin|Hnot].
    + rewrite (fold_delete_in _ _ k Hin) in He. discriminate.
    + rewrite (fold_delete_notin _ _ k Hnot) in He. exact He.
  - intros k t k' t' Hk Hk' Hgone Hkept.
    destruct Hs as [Hnodup Hdom].
    assert (Hvictim : In (k, t) victims).
    { destruct (in_dec string_dec k (keys victims)) as [Hin|Hnot].
      - destruct (key_has_entry _ _ Hin) as [t0 Ht0].
        rewrite (nodup_keys_functional _ k t t0 Hnodup Hk (Hsub _ Ht0)). exact Ht0.
      - rewrite (fold_delete_notin _ _ k Hnot) in Hgone.
        assert (Hsome : is_Some (cache self !! k)) by (apply Hdom; eapply entry_has_key; exact Hk).
        destruct Hsome as [e He]. congruence. }
    assert (Hrest : In (k', t') (skipn count (sorted_items (access_times self)))).
    { assert (Hin : In (k', t') (sorted_items (access_times self))).
      { apply (Permutation_in _ (Permutation_sym (sorted_items_perm _))). exact Hk'. }
      rewrite <- (firstn_skipn count (sorted_items (access_times self))) in Hin.
      apply in_app_or in Hin. destruct Hin as [Hin|Hin]; [|exact Hin].
      exfalso. fold victims in Hin.
      rewrite (fold_delete_in _ _ k' (entry_has_key _ _ _ Hin)) in Hkept.
      destruct Hkept as [e He]. discriminate. }
    apply (sorted_split victims (skipn count (sorted_items (access_times self)))
             ltac:(unfold victims; rewrite firstn_skipn; apply sorted_items_sorted)
             (k, t) (k', t') Hvictim Hrest).
Qed.

(** Writing an entry and its access time keeps the dictionaries in sync. *)
Lemma insert_sync (self : AdvancedCache) (key : string) (e : CachedResponse) (t : Q)
  (rows : gmap string Row) :
  in_sync self ->
  in_sync (mkAdvancedCache (max_size self) (ttl self)
             (<[key := e]> (cache self)) (od_set key t (access_times self)) rows).
Proof.
  intros [Hnd Hdom]. split; cbn [cache access_times].
  - apply od_set_nodup. exact Hnd.
  - intros x. rewrite od_set_in, lookup_insert. case_decide as Hk.
    + subst x. split; [intros _; left; reflexivity|intros _; eexists; reflexivity].
    + rewrite Hdom. intuition congruence.
Qed.

Lemma delete_sync (self : AdvancedCache) (key : string) :
  in_sync self ->
  in_sync (mkAdvancedCache (max_size self) (ttl self)
             (delete key (cache self)) (od_del key (access_times self)) (db self)).
Proof.
  intros Hs. apply (delete_keys_sync [key] self Hs).
Qed.

Lemma new_cache_sync (max_size ttl_hours : Z) : in_sync (new_cache max_size ttl_hours).
Proof.
  split; cbn.
  - constructor.
  - intros k. rewrite lookup_empty. split; [intros [e He]; discriminate|intros []].
Qed.

Lemma set_sync (self : AdvancedCache) (query context : string)
  (entry : CachedResponse) (env : Env) :
  in_sync self -> in_sync (set self query context entry env).
Proof.
  intros Hs. rewrite CacheFacts.set_unfold.
  set (self1 := if max_size self <=? Z.of_nat (size (cache self))
                then _evict_lru self else self).
  assert (Hs1 : in_sync self1).
  { subst self1. destruct (_ <=? _); [apply evict_sync|]; exact Hs. }
  destruct Hs1 as [Hnd Hdom]. split; cbn [cache access_times].
  - apply od_set_nodup. exact Hnd.
  - intros x. rewrite od_set_in, lookup_insert. case_decide as Hk.
    + subst x. split; [intros _; left; reflexivity|intros _; eexists; reflexivity].
    + rewrite Hdom. intuition congruence.
Qed.

Lemma get_db_sync (self : AdvancedCache) (key : string) (env : Env) :
  in_sync self -> in_sync (snd (get_db self key env)).
Proof.
  intros Hs. unfold get_db. destruct (negb (db_ok env)); [exact Hs|].
  destruct (db self !! key) as [row|]; [|exact Hs].
  destruct (_ <? _); cbn [snd].
  - apply insert_sync. exact Hs.
  - destruct Hs as [Hnd Hdom]. split; assumption.
Qed.

Lemma get_sync (self : AdvancedCache) (query context : string) (env : Env) :
  in_sync self -> in_sync (snd (get self query context env)).
Proof.
  intros Hs. unfold get. destruct (cache self !! _) as [entry|].
  - destruct (_ <? _); cbn [snd].
    + apply insert_sync. exact Hs.
    + apply get_db_sync. apply delete_sync. exact Hs.
  - apply get_db_sync. exact Hs.
Qed.

Lemma filter_keys (f : string -> bool) (d : list (string * Q)) :
  keys (List.filter (fun p => f (fst p)) d) = List.filter f (keys d).
Proof.
  unfold keys. induction d as [|[k v] d IH]; cbn; [reflexivity|].
  destruct (f k); cbn; now rewrite IH.
Qed.

Lemma clear_expired_sync (self : AdvancedCache) (env : Env) :
  in_sync self -> in_sync (clear_expired self env).
Proof.
  intros [Hnd Hdom]. unfold clear_expired. split; cbn [cache access_times].
  - rewrite (filter_keys (fun k => negb match cache self !! k with
                                        | Some entry => timestamp entry <? now_memory env - ttl self
                                        | None => false
                                        end)).
    apply List.NoDup_filter. exact Hnd.
  - intros x.
    rewrite (filter_keys (fun k => negb match cache self !! k with
                                        | Some entry => timestamp entry <? now_memory env - ttl self
                                        | None => false
                                        end)).
    rewrite filter_In, <- Hdom. split.
    + intros [e He]. apply map_lookup_filter_Some in He. destruct He as [He Hlive].
      cbn in Hlive. rewrite He. split; [eexists; reflexivity|].
      apply negb_true_iff, Z.ltb_ge. exact Hlive.
    + intros [[e He] Hlive]. rewrite He in Hlive.
      apply negb_true_iff, Z.ltb_ge in Hlive.
      exists e. apply map_lookup_filter_Some. split; [exact He|exact Hlive].
Qed.

(** [cache] and [access_times] keep the same keys through every method:
    [get], [set], [_evict_lru] and [clear_expired]. *)
Theorem memory_dictionaries_stay_in_sync (self : AdvancedCache)
  (query context : string) (entry : CachedResponse) (env : Env) :
  in_sync self ->
  in_sync (snd (get self query context env))
  /\ in_sync (set self query context entry env)
  /\ in_sync (_evict_lru self)
  /\ in_sync (clear_expired self env).
Proof.
  intros Hs. split; [apply get_sync; exact Hs|].
  split; [apply set_sync; exact Hs|].
  split; [apply evict_sync; exact Hs|apply clear_expired_sync; exact Hs].
Qed.

(** [set] keeps memory within its capacity: with at most
    [max(1, max_size)] entries before, there are at most that many after,
    the new entry among them. *)
Theorem set_within_capacity (self : AdvancedCache) (query context : string)
  (entry : CachedResponse) (env : Env) :
  in_sync self ->
  Z.of_nat (size (cache self)) <= capacity self ->
  let self' := set self query context entry env in
  Z.of_nat (size (cache self')) <= capacity self'
  /\ capacity self' = capacity self
  /\ is_Some (cache self' !! _generate_hash query context).
Proof.
  intros Hs Hcap self'. subst self'. rewrite CacheFacts.set_unfold.
  unfold capacity in *. cbn [cache max_size].
  split; [|split; [reflexivity|rewrite lookup_insert_eq; eexists; reflexivity]].
  set (self1 := if max_size self <=? Z.of_nat (size (cache self))
                then _evict_lru self else self).
  assert (Hroom : Z.of_nat (size (cache self1)) + 1 <= Z.max 1 (max_size self)).
  { subst self1. destruct (max_size self <=? Z.of_nat (size (cache self))) eqn:E.
    - apply Z.leb_le in E.
      destruct (access_times self) as [|a rest] eqn:Eat.
      + unfold _evict_lru. rewrite Eat.
        rewrite (sync_size self Hs), Eat. cbn. lia.
      + rewrite (evict_size self Hs) by (rewrite Eat; discriminate). lia.
    - apply Z.leb_gt in E. lia. }
  pose proof (map_size_insert (_generate_hash query context)
                (set_query_hash (_generate_hash query context) entry) (cache self1)) as Hins.
  destruct (cache self1 !! _generate_hash query context); unfold id in Hins; lia.
Qed.

(** The cache of the tests has its dictionaries in sync. *)
Lemma test_cache_sync : in_sync Scenario.test_cache.
Proof.
  apply set_sync, new_cache_sync.
Qed.

Lemma memory_dictionaries_stay_in_sync_witness :
  in_sync (snd (get Scenario.test_cache "test query" "test context" (Scenario.cache_env 1005))).
Proof.
  pose proof (memory_dictionaries_stay_in_sync Scenario.test_cache "test query" "test context"
                Scenario.test_entry (Scenario.cache_env 1005) test_cache_sync) as H.
  destruct H as [H _]. exact H.
Defined.

(** A cache for one entry that holds one entry: the second [set] evicts
    the first entry. *)
Lemma set_within_capacity_witness :
  let one := set (new_cache 1 1) "a" "" Scenario.test_entry (Scenario.cache_env 1000) in
  let two := set one "b" "" Scenario.test_entry (Scenario.cache_env 1001) in
  Z.of_nat (size (cache two)) <= capacity two.
Proof.
  intros one two.
  assert (Hs : in_sync one) by apply set_sync, new_cache_sync.
  assert (Hcap : Z.of_nat (size (cache one)) <= capacity one) by (vm_compute; discriminate).
  pose proof (set_within_capacity one "b" "" Scenario.test_entry (Scenario.cache_env 1001)
                Hs Hcap) as H.
  cbv zeta in H. destruct H as (H & _). exact H.
Defined.

(** The cache of the tests holds one entry; an eviction removes it. *)
Lemma evict_lru_least_recent_witness :
  Z.of_nat (size (cache (_evict_lru Scenario.test_cache))) = 0.
Proof.
  destruct (evict_lru_least_recent Scenario.test_cache) as (H & _).
  - exact test_cache_sync.
  - vm_compute. discriminate.
  - rewrite H. vm_compute. reflexivity.
Defined.

End EvictionFacts.

(** ** gemini_integration.py: the response cache and the request path *)

Module ResponseCacheFacts.
Import Gemini.

Section World.

Context {W : Type}.
Variable time_time : W -> Q * W.
Variable md5_hexdigest : string -> string.

Lemma response_cache_get_hit (self : ResponseCache)
  (request : ConsultationRequest) (w : W) (response : string) :
  fst (fst (cache_get time_time md5_hexdigest self request w)) = Some response ->
  exists timestamp,
    cache self !! _hash_request md5_hexdigest request = Some (response, timestamp)
    /\ (reading time_time w - timestamp < ttl self)%Q
    /\ snd (fst (cache_get time_time md5_hexdigest self request w)) = self.
Proof.
  unfold cache_get, reading.
  destruct (cache self !! _hash_request md5_hexdigest request) as [[r timestamp]|] eqn:E;
    [|discriminate].
  destruct (time_time w) as [now w1]. cbn [fst snd].
  destruct (PyNum.Qlt_bool (now - timestamp) (ttl self)) eqn:Hlive; cbn [fst snd];
    [|discriminate].
  intros Hr. inversion Hr; subst. exists timestamp. apply Qlt_bool_iff in Hlive. auto.
Qed.

(** [ResponseCache]: [set] followed by [get] for a request with the same
    query and context, read less than [ttl] after the entry was written,
    returns the response and leaves the cache as it is. *)
Theorem response_cache_round_trip (self : ResponseCache)
  (request : ConsultationRequest) (response : string) (w w' : W) :
  (reading time_time w' - reading time_time w < ttl self)%Q ->
  let stored := fst (cache_set time_time md5_hexdigest self request response w) in
  cache_get time_time md5_hexdigest stored request w'
  = (Some response, stored, snd (time_time w')).
Proof.
  intros Hlive. cbv zeta. unfold cache_set, cache_get, reading in *.
  destruct (time_time w) as [t0 w0]. cbn [fst snd cache ttl] in *.
  rewrite lookup_insert_eq.
  destruct (time_time w') as [t1 w1]. cbn [fst snd] in *.
  apply Qlt_bool_iff in Hlive. rewrite Hlive. reflexivity.
Qed.

(** [ResponseCache.get] never returns an entry whose age has reached
    [ttl]: what it returns was stored under the key with an age below
    [ttl]; an entry that has reached it is deleted, and nothing else in the
    cache changes. *)
Theorem response_cache_get_expiry (self : ResponseCache)
  (request : ConsultationRequest) (w : W) :
  let key := _hash_request md5_hexdigest request in
  let result := fst (fst (cache_get time_time md5_hexdigest self request w)) in
  let self' := snd (fst (cache_get time_time md5_hexdigest self request w)) in
  (forall response, result = Some response ->
     exists timestamp,
       cache self !! key = Some (response, timestamp)
       /\ (reading time_time w - timestamp < ttl self)%Q
       /\ self' = self)
  /\ (forall response timestamp,
        cache self !! key = Some (response, timestamp) ->
        (ttl self <= reading time_time w - timestamp)%Q ->
        result = None /\ cache self' !! key = None)
  /\ (cache self !! key = None -> result = None /\ self' = self)
  /\ (forall other, other <> key -> cache self' !! other = cache self !! other).
Proof.
  cbv zeta. unfold cache_get, reading.
  destruct (cache self !! _hash_request md5_hexdigest request) as [[response timestamp]|] eqn:E.
  - destruct (time_time w) as [now w1]. cbn [fst snd].
    destruct (PyNum.Qlt_bool (now - timestamp) (ttl self)) eqn:Hlive; cbn [fst snd].
    + apply Qlt_bool_iff in Hlive.
      split; [|split; [|split]].
      * intros r Hr. inversion Hr; subst r. exists timestamp. auto.
      * intros r t Hrt Hexp. inversion Hrt; subst. lra.
      * discriminate.
      * reflexivity.
    + apply Qlt_bool_false_iff in Hlive.
      split; [|split; [|split]].
      * discriminate.
      * intros r t Hrt Hexp. split; [reflexivity|]. cbn. apply lookup_delete_eq.
      * discriminate.
      * intros other Hne. cbn. apply lookup_delete_ne. congruence.
  - cbn [fst snd]. split; [|split; [|split]].
    + discriminate.
    + discriminate.
    + auto.
    + reflexivity.
Qed.

(** The key of [ResponseCache] is taken of ["query:context"] only: two
    requests for which that string is the same share one entry, whatever
    their flags, so the response cached for one is returned for the
    other. *)
Theorem response_cache_shared_entry (self : ResponseCache)
  (r1 r2 : ConsultationRequest) (response : string) (w w' : W) :
  (query r1 ++ ":" ++ context r1 = query r2 ++ ":" ++ context r2)%string ->
  (reading time_time w' - reading time_time w < ttl self)%Q ->
  fst (fst (cache_get time_time md5_hexdigest
              (fst (cache_set time_time md5_hexdigest self r1 response w)) r2 w'))
  = Some response.
Proof.
  intros Hsame Hlive. unfold cache_set, cache_get, _hash_request, reading in *.
  rewrite <- Hsame.
  destruct (time_time w) as [t0 w0]. cbn [fst snd cache ttl] in *.
  rewrite lookup_insert_eq.
  destruct (time_time w') as [t1 w1]. cbn [fst snd] in *.
  apply Qlt_bool_iff in Hlive. rewrite Hlive. reflexivity.
Qed.

(** [ResponseCache.clear_expired] removes exactly the entries whose age
    has reached [ttl]: an entry is in the cache afterwards if and only if
    it was there before with an age below [ttl]. *)
Theorem response_cache_sweep_exact (self : ResponseCache) (w : W)
  (key response : string) (timestamp : Q) :
  cache (fst (ResponseCacheSweep.clear_expired time_time self w)) !! key
    = Some (response, timestamp)
  <-> cache self !! key = Some (response, timestamp)
      /\ (reading time_time w - timestamp < ttl self)%Q.
Proof.
  unfold ResponseCacheSweep.clear_expired, reading.
  destruct (time_time w) as [now w1]. cbn [fst snd cache].
  rewrite map_lookup_filter_Some. unfold ResponseCacheSweep.expired. cbn [snd].
  split; intros [H1 H2]; (split; [exact H1|]).
  - apply Qnot_le_lt. intros Hle. apply Qle_bool_iff in Hle. congruence.
  - destruct (Qle_bool (ttl self) (now - timestamp)) eqn:E; [|reflexivity].
    apply Qle_bool_iff in E. lra.
Qed.

End World.

(** A response cached at second 100 with a TTL of 300 seconds, read at
    second 200. *)
Lemma response_cache_round_trip_witness :
  cache_get Scenario.time_time (fun s => s)
    (fst (cache_set Scenario.time_time (fun s => s) (mkResponseCache ∅ 300)
            (mkConsultationRequest "q" "c" false 0) "answer" (Scenario.at_time 100 0)))
    (mkConsultationRequest "q" "c" false 0) (Scenario.at_time 200 0)
  = (Some "answer"%string,
     fst (cache_set Scenario.time_time (fun s => s) (mkResponseCache ∅ 300)
            (mkConsultationRequest "q" "c" false 0) "answer" (Scenario.at_time 100 0)),
     Scenario.at_time 200 0).
Proof.
  pose proof (response_cache_round_trip Scenario.time_time (fun s => s) (mkResponseCache ∅ 300)
                (mkConsultationRequest "q" "c" false 0) "answer"
                (Scenario.at_time 100 0) (Scenario.at_time 200 0)) as H.
  apply H. vm_compute. reflexivity.
Defined.

(** The requests [("a:b", "c")] and [("a", "b:c")], the second with the
    uncertainty flag set, share the entry. *)
Lemma response_cache_shared_entry_witness :
  fst (fst (cache_get Scenario.time_time (fun s => s)
              (fst (cache_set Scenario.time_time (fun s => s) (mkResponseCache ∅ 300)
                      (mkConsultationRequest "a:b" "c" false 0) "answer"
                      (Scenario.at_time 100 0)))
              (mkConsultationRequest "a" "b:c" true (1 # 2)) (Scenario.at_time 200 0)))
  = Some "answer"%string.
Proof.
  pose proof (response_cache_shared_entry Scenario.time_time (fun s => s) (mkResponseCache ∅ 300)
                (mkConsultationRequest "a:b" "c" false 0)
                (mkConsultationRequest "a" "b:c" true (1 # 2)) "answer"
                (Scenario.at_time 100 0) (Scenario.at_time 200 0)) as H.
  apply H; vm_compute; reflexivity.
Defined.

End ResponseCacheFacts.

Module RequestPathFacts.
Import Gemini.

Section World.

Context {W : Type}.
Variable time_time : W -> Q * W.
Variable md5_hexdigest : string -> string.
Variable _format_response : string -> ConsultationRequest -> string.

Lemma set_response_cache_same (self : GeminiIntegration) :
  set_response_cache (response_cache self) self = self.
Proof. destruct self; reflexivity. Qed.

Lemma truthy_nonempty (s : string) : s <> ""%string -> truthy (Some s) = Some s.
Proof. destruct s; [congruence | reflexivity]. Qed.

Lemma truthy_some (r : option string) (s : string) :
  truthy r = Some s -> r = Some s /\ s <> ""%string.
Proof.
  destruct r as [[|c r]|]; cbn; intros H; inversion H; subst; split; congruence.
Qed.

Lemma consult_cache_hit (_make_gemini_request : ConsultationRequest -> Callable (option string))
  (self : GeminiIntegration) (request : ConsultationRequest) (w : W)
  (response : string) (timestamp : Q) :
  caching_enabled self = true ->
  cache (response_cache self) !! _hash_request md5_hexdigest request
    = Some (response, timestamp) ->
  response <> ""%string ->
  (reading time_time w - timestamp < ttl (response_cache self))%Q ->
  consult_gemini time_time md5_hexdigest _format_response _make_gemini_request self request w
  = (inl response, self, snd (time_time w)).
Proof.
  intros Hen Hkey Hne Hlive. unfold consult_gemini, cache_get, reading in *.
  rewrite Hen, Hkey. destruct (time_time w) as [now w1]. cbn [fst snd] in *.
  apply Qlt_bool_iff in Hlive. rewrite Hlive.
  rewrite truthy_nonempty by exact Hne. rewrite set_response_cache_same. reflexivity.
Qed.

(** Whatever the provider raises, [consult_gemini] raises one of four
    things: a [RateLimitError], a [CircuitBreakerOpenError], an
    [AuthenticationError], or a [GeminiAPIError] whose message starts with
    ["Failed to consult Gemini: "]. *)
Theorem consult_gemini_raises_four_classes
  (_make_gemini_request : ConsultationRequest -> Callable (option string))
  (self : GeminiIntegration) (request : ConsultationRequest) (w : W) :
  match fst (fst (consult_gemini time_time md5_hexdigest _format_response
                    _make_gemini_request self request w)) with
  | inl _ => True
  | inr (RateLimitError _) | inr (CircuitBreakerOpenError _)
  | inr (AuthenticationError _) => True
  | inr (GeminiAPIError msg) => exists cause, msg = ("Failed to consult Gemini: " ++ cause)%string
  | inr _ => False
  end.
Proof.
  assert (Hh : forall e, match handle e with
                         | RateLimitError _ | CircuitBreakerOpenError _
                         | AuthenticationError _ => True
                         | GeminiAPIError msg =>
                             exists cause, msg = ("Failed to consult Gemini: " ++ cause)%string
                         | _ => False
                         end).
  { intros [m|m|m|m|m|m]; cbn [handle str_exn]; eauto. }
  unfold consult_gemini.
  destruct (if caching_enabled self then _ else _) as [[cached self1] w1].
  destruct (truthy cached); [exact I|].
  destruct (_check_rate_limit time_time self1 w1) as [[ok self2] w2].
  destruct ok; cbn [negb]; [|exact I].
  destruct (call time_time (circuit_breaker self2) (_make_request _make_gemini_request request) w2)
    as [[r cb] w3].
  destruct r as [task|e]; [|apply Hh].
  destruct (await task w3) as [[result|e] w4]; [|apply Hh].
  destruct (truthy result).
  - destruct (caching_enabled _); [|exact I].
    destruct (cache_set _ _ _ _ _ _); exact I.
  - apply (Hh (GeminiAPIError "Empty response from Gemini API")).
Qed.

(** With caching enabled, a non-empty response that [consult_gemini] has
    returned is in the cache afterwards, and the same request made again
    while the entry is younger than [ttl] gets that response back without
    the provider, the rate counters or the breaker being involved. *)
Theorem consult_gemini_answer_is_cached
  (_make_gemini_request : ConsultationRequest -> Callable (option string))
  (self self' : GeminiIntegration) (request : ConsultationRequest) (w w' : W)
  (text : string) :
  caching_enabled self = true ->
  text <> ""%string ->
  consult_gemini time_time md5_hexdigest _format_response _make_gemini_request self request w
  = (inl text, self', w') ->
  exists timestamp,
    cache (response_cache self') !! _hash_request md5_hexdigest request = Some (text, timestamp)
    /\ forall (again : ConsultationRequest -> Callable (option string)) (w2 : W),
         (reading time_time w2 - timestamp < ttl (response_cache self'))%Q ->
         consult_gemini time_time md5_hexdigest _format_response again self' request w2
         = (inl text, self', snd (time_time w2)).
Proof.
  intros Hen Hne Hrun.
  assert (Hgoal : caching_enabled self' = true
                  /\ exists timestamp,
                       cache (response_cache self') !! _hash_request md5_hexdigest request
                       = Some (text, timestamp)).
  { revert Hrun. unfold consult_gemini. rewrite Hen.
    destruct (cache_get time_time md5_hexdigest (response_cache self) request w)
      as [[cached rc] w1] eqn:Hget.
    destruct (truthy cached) as [hit|] eqn:Hhit.
    - intros Hrun. inversion Hrun; subst. apply truthy_some in Hhit as [-> _].
      pose proof (ResponseCacheFacts.response_cache_get_hit time_time md5_hexdigest
                    (response_cache self) request w text) as Hspec.
      rewrite Hget in Hspec. cbn [fst snd] in Hspec.
      destruct (Hspec eq_refl) as (ts & Hk & _ & ->).
      split; [exact Hen|]. exists ts. cbn. exact Hk.
    - destruct (_check_rate_limit time_time (set_response_cache rc self) w1)
        as [[ok self2] w2] eqn:Hrate.
      assert (Hen2 : caching_enabled self2 = true).
      { revert Hrate. unfold _check_rate_limit.
        destruct (time_time w1) as [t wt].
        repeat match goal with |- context [if ?c then _ else _] => destruct c end;
          intros Hr; inversion Hr; subst; cbn; exact Hen. }
      destruct ok; cbn [negb]; [|discriminate].
      destruct (call time_time (circuit_breaker self2)
                  (_make_request _make_gemini_request request) w2) as [[r cb] w3].
      destruct r as [task|e]; [|discriminate].
      destruct (await task w3) as [[result|e] w4]; [|discriminate].
      destruct (truthy result) as [answer|]; [|discriminate].
      cbn [caching_enabled set_circuit_breaker]. rewrite Hen2.
      unfold cache_set. destruct (time_time w4) as [now w5].
      intros Hrun. inversion Hrun; subst. cbn.
      split; [exact Hen2|]. eexists. apply lookup_insert_eq. }
  destruct Hgoal as (Hen' & ts & Hk). exists ts. split; [exact Hk|].
  intros again w2 Hlive. apply (consult_cache_hit again self' request w2 text ts); assumption.
Qed.

(** The rate limit is checked before the breaker: a request that an open
    breaker turns away has been counted against the limit, though the
    provider was not asked. *)
Theorem breaker_rejection_is_counted
  (_make_gemini_request : ConsultationRequest -> Callable (option string))
  (self : GeminiIntegration) (request : ConsultationRequest) (w : W) (last : Q) :
  caching_enabled self = false
  \/ cache (response_cache self) !! _hash_request md5_hexdigest request = None ->
  ~ (last_request_time self == 0)%Q ->
  (reading time_time w - last_request_time self <= 60)%Q ->
  request_count self < requests_per_minute self ->
  state (circuit_breaker self) = OPEN ->
  last_failure_time (circuit_breaker self) = Some last ->
  (reading time_time (snd (time_time w)) - last <= recovery_timeout (circuit_breaker self))%Q ->
  consult_gemini time_time md5_hexdigest _format_response _make_gemini_request self request w
  = (inr (CircuitBreakerOpenError open_msg),
     set_rate (last_request_time self) (request_count self + 1) self,
     snd (time_time (snd (time_time w)))).
Proof.
  intros Hen Hstarted Hwindow Hbudget Hopen Hlast Hrecovery.
  unfold consult_gemini.
  assert (Hmiss : (if caching_enabled self
                   then let '(r, rc, w') :=
                          cache_get time_time md5_hexdigest (response_cache self) request w in
                        (r, set_response_cache rc self, w')
                   else (None, self, w)) = (None, self, w)).
  { destruct Hen as [Hen|Hen].
    - rewrite Hen. reflexivity.
    - unfold cache_get. rewrite Hen. rewrite set_response_cache_same.
      destruct (caching_enabled self); reflexivity. }
  rewrite Hmiss. clear Hmiss Hen. cbn [truthy].
  unfold _check_rate_limit, reading in *.
  destruct (time_time w) as [now w1]. cbn [fst snd] in *.
  destruct (Qeq_bool (last_request_time self) 0) eqn:E0.
  { apply Qeq_bool_iff in E0. contradiction. }
  destruct (PyNum.Qlt_bool 60 (now - last_request_time self)) eqn:E60.
  { apply Qlt_bool_iff in E60. lra. }
  destruct (requests_per_minute self <=? request_count self) eqn:Emax.
  { apply Z.leb_le in Emax. lia. }
  cbn [negb]. unfold call, gate. cbn [circuit_breaker set_rate].
  rewrite Hopen, Hlast. destruct (time_time w1) as [now2 w2]. cbn [fst snd] in *.
  destruct (PyNum.Qlt_bool (recovery_timeout (circuit_breaker self)) (now2 - last)) eqn:Erec.
  { apply Qlt_bool_iff in Erec. lra. }
  cbn [handle]. destruct self; reflexivity.
Qed.

End World.

(** The default client asked at second 100: the answer is cached, and the
    question asked again gets it from there. *)
Lemma consult_gemini_answer_is_cached_witness :
  let first := consult_gemini Scenario.time_time (fun s => s) GeminiScenario.format
                 GeminiScenario.answers GeminiScenario.client GeminiScenario.question
                 (Scenario.at_time 100 0) in
  let self' := snd (fst first) in
  exists timestamp,
    cache (response_cache self') !! _hash_request (fun s => s) GeminiScenario.question
      = Some ("Gemini: 4"%string, timestamp)
    /\ forall again w2,
         (reading Scenario.time_time w2 - timestamp < ttl (response_cache self'))%Q ->
         consult_gemini Scenario.time_time (fun s => s) GeminiScenario.format again self'
           GeminiScenario.question w2
         = (inl "Gemini: 4"%string, self', snd (Scenario.time_time w2)).
Proof.
  cbv zeta.
  refine (consult_gemini_answer_is_cached Scenario.time_time (fun s => s)
            GeminiScenario.format GeminiScenario.answers GeminiScenario.client _
            GeminiScenario.question (Scenario.at_time 100 0)
            (snd (consult_gemini Scenario.time_time (fun s => s) GeminiScenario.format
                    GeminiScenario.answers GeminiScenario.client GeminiScenario.question
                    (Scenario.at_time 100 0)))
            "Gemini: 4" _ _ _).
  - reflexivity.
  - discriminate.
  - vm_compute. reflexivity.
Defined.

(** The client with an open breaker (last failure at second 100), three
    requests counted in the window begun at second 90, asked at second
    120. *)
Lemma breaker_rejection_is_counted_witness :
  fst (consult_gemini Scenario.time_time (fun s => s) GeminiScenario.format
         GeminiScenario.answers (set_rate 90 3 GeminiScenario.tripped)
         GeminiScenario.question (Scenario.at_time 120 0))
  = (inr (CircuitBreakerOpenError open_msg), set_rate 90 4 GeminiScenario.tripped).
Proof.
  pose proof (breaker_rejection_is_counted Scenario.time_time (fun s => s)
                GeminiScenario.format GeminiScenario.answers
                (set_rate 90 3 GeminiScenario.tripped)
                GeminiScenario.question (Scenario.at_time 120 0) 100%Q) as H.
  rewrite H.
  - reflexivity.
  - right. vm_compute. reflexivity.
  - vm_compute. discriminate.
  - vm_compute. discriminate.
  - vm_compute. reflexivity.
  - reflexivity.
  - reflexivity.
  - vm_compute. discriminate.
Defined.

End RequestPathFacts.

(** ** gemini_integration.py: the statistics of the models and the choice
    among them *)

Module ModelPoolFacts.
Import ModelPool.

Lemma insert_desc_head (x : string * Q) (l : list (string * Q)) :
  hd_error (insert_desc x l)
  = match l with
    | [] => Some x
    | y :: _ => if Qle_bool (snd y) (snd x) then Some x else Some y
    end.
Proof. destruct l as [|y l]; cbn; [reflexivity|]. destruct (Qle_bool _ _); reflexivity. Qed.

(** The head of the sorted list is the first entry of the greatest score. *)
Lemma sort_desc_head (x : string * Q) (l : list (string * Q)) :
  exists before m s after,
    x :: l = before ++ (m, s) :: after
    /\ (forall p, In p before -> (snd p < s)%Q)
    /\ (forall p, In p after -> (snd p <= s)%Q)
    /\ hd_error (sort_desc (x :: l)) = Some (m, s).
Proof.
  revert x. induction l as [|y l IH]; intros x.
  - exists [], (fst x), (snd x), []. destruct x as [m s]. cbn.
    split; [reflexivity|]. split; [tauto|]. split; [tauto|reflexivity].
  - destruct (IH y) as (before & m & s & after & Hsplit & Hbefore & Hafter & Hhead).
    change (sort_desc (x :: y :: l)) with (insert_desc x (sort_desc (y :: l))).
    rewrite insert_desc_head.
    destruct (sort_desc (y :: l)) as [|z rest] eqn:Hs; [discriminate|].
    cbn in Hhead. inversion Hhead; subst z. cbn [snd].
    destruct (Qle_bool s (snd x)) eqn:Hle.
    + apply Qle_bool_iff in Hle.
      exists [], (fst x), (snd x), (y :: l). destruct x as [mx sx]. cbn [fst snd] in *.
      split; [reflexivity|]. split; [cbn; tauto|]. split; [|reflexivity].
      intros p Hp. rewrite Hsplit in Hp. apply in_app_or in Hp.
      destruct Hp as [Hp|[Hp|Hp]].
      * apply Hbefore in Hp. lra.
      * subst p. exact Hle.
      * apply Hafter in Hp. lra.
    + assert (Hlt : (snd x < s)%Q).
      { apply Qnot_le_lt. intros H. apply Qle_bool_iff in H. congruence. }
      exists (x :: before), m, s, after.
      split; [cbn; rewrite Hsplit; reflexivity|].
      split; [|split; [exact Hafter|reflexivity]].
      intros p [Hp|Hp]; [subst p; exact Hlt|apply Hbefore; exact Hp].
Qed.

Section World.

Context {W : Type}.
Variable time_time : W -> Q * W.

Lemma model_scores_names (self : Pool) (models : list string) (w : W) :
  map fst (fst (model_scores time_time self models w)) = models.
Proof.
  revert w. induction models as [|m models IH]; intros w; cbn; [reflexivity|].
  destruct (model_score time_time self m w) as [entry w1] eqn:E.
  specialize (IH w1). destruct (model_scores time_time self models w1) as [entries w2].
  cbn in *. rewrite IH. f_equal.
  unfold model_score in E.
  destruct (match last_failure _ with Some _ => _ | None => _ end) as [r wr] in E.
  inversion E. reflexivity.
Qed.

Lemma best_model_spec (self : Pool) (w : W) :
  exists before m s after,
    fst (model_scores time_time self (all_models self) w) = before ++ (m, s) :: after
    /\ (forall p, In p before -> (snd p < s)%Q)
    /\ (forall p, In p after -> (snd p <= s)%Q)
    /\ _get_best_available_model time_time self w
       = (inl m, snd (model_scores time_time self (all_models self) w)).
Proof.
  unfold _get_best_available_model.
  pose proof (model_scores_names self (all_models self) w) as Hnames.
  destruct (model_scores time_time self (all_models self) w) as [scores w1]. cbn [fst snd] in *.
  destruct scores as [|x l]; [discriminate|].
  destruct (sort_desc_head x l) as (before & m & s & after & Hsplit & Hb & Ha & Hhead).
  exists before, m, s, after. repeat (split; [assumption|]).
  destruct (sort_desc (x :: l)) as [|[m' s'] rest]; [discriminate|].
  cbn in Hhead. inversion Hhead. reflexivity.
Qed.

(** [_get_best_available_model] never raises: it returns a model of
    [[primary_model] + fallback_models], one whose score is the greatest,
    and the first of those in that order (the sort is stable). *)
Theorem best_model_is_first_of_greatest_score (self : Pool) (w : W) :
  exists before m s after,
    fst (model_scores time_time self (all_models self) w) = before ++ (m, s) :: after
    /\ (forall p, In p before -> (snd p < s)%Q)
    /\ (forall p, In p after -> (snd p <= s)%Q)
    /\ In m (all_models self)
    /\ _get_best_available_model time_time self w
       = (inl m, snd (model_scores time_time self (all_models self) w)).
Proof.
  destruct (best_model_spec self w) as (before & m & s & after & Hsplit & Hb & Ha & Hbest).
  exists before, m, s, after. repeat (split; [assumption|]).
  split; [|exact Hbest].
  rewrite <- (model_scores_names self (all_models self) w), Hsplit.
  rewrite map_app. apply in_or_app. right. left. reflexivity.
Qed.

Lemma initialized_lookup (models : list string) (mp : gmap string Stats) (m : string) :
  In m models ->
  fold_left (fun mp model => <[model := initial_stats]> mp) models mp !! m
  = Some initial_stats.
Proof.
  revert mp. induction models as [|x models IH]; intros mp; [intros []|].
  intros [->|Hin]; cbn.
  - destruct (in_dec string_dec m models) as [Hin|Hnot]; [apply IH; exact Hin|].
    clear IH. revert mp. induction models as [|y models IH]; intros mp; cbn.
    + apply lookup_insert_eq.
    + assert (Hy : y <> m) by (intros ->; apply Hnot; left; reflexivity).
      rewrite insert_insert_ne by congruence.
      apply IH. intros H; apply Hnot; right; exact H.
  - apply IH. exact Hin.
Qed.

Lemma fresh_scores (self : Pool) (models : list string) (w : W) :
  (forall m, In m models -> model_performance self !! m = Some initial_stats) ->
  model_scores time_time self models w
  = (map (fun m => (m, (1 * (8 # 10) + PyNum.py_max 0 ((10 - 0) / 10) * (2 # 10))%Q)) models, w).
Proof.
  revert w. induction models as [|m models IH]; intros w Hall; cbn; [reflexivity|].
  unfold model_score. rewrite (Hall m) by (left; reflexivity). cbn.
  rewrite IH by (intros m' Hm'; apply Hall; right; exact Hm'). reflexivity.
Qed.

(** A client that has just been set up selects the primary model: every
    model has the same score, and the sort keeps their order. *)
Theorem fresh_pool_selects_primary (model : string) (fallbacks : list string)
  (attempts : Z) (backoff : Q) (w : W) :
  _get_best_available_model time_time (new_pool model fallbacks attempts backoff) w
  = (inl model, w).
Proof.
  set (self := new_pool model fallbacks attempts backoff).
  assert (Hfresh : model_scores time_time self (all_models self) w
                   = (map (fun m => (m, (1 * (8 # 10)
                                         + PyNum.py_max 0 ((10 - 0) / 10) * (2 # 10))%Q))
                          (all_models self), w)).
  { apply fresh_scores. intros m Hm. unfold self, new_pool, _initialize_model_stats.
    cbn [model_performance set_model_performance]. apply initialized_lookup. exact Hm. }
  destruct (best_model_spec self w) as (before & m & s & after & Hsplit & Hb & _ & Hbest).
  rewrite Hbest, Hfresh. rewrite Hfresh in Hsplit. cbn [fst snd] in *.
  unfold all_models in Hsplit.
  destruct before as [|p before]; cbn [map app] in Hsplit.
  - inversion Hsplit. reflexivity.
  - exfalso. inversion Hsplit as [[Hp Hrest]].
    assert (Hin : In (m, s) (before ++ (m, s) :: after)).
    { apply in_or_app. right. left. reflexivity. }
    rewrite <- Hrest in Hin.
    apply in_map_iff in Hin. destruct Hin as (m' & Hm' & _). inversion Hm'; subst s.
    specialize (Hb p (or_introl eq_refl)). rewrite <- Hp in Hb. cbn [snd] in Hb.
    apply Qlt_irrefl in Hb. exact Hb.
Qed.

Lemma run_updates_invariant (updates : list (bool * Q)) :
  forall (self : Pool) (model : string) (w : W) (stats : Stats) (n k : Z) (avg sum : Q),
  model_performance self !! model = Some stats ->
  success_count stats = Some n -> failure_count stats = Some k ->
  avg_response_time stats = Some avg ->
  0 <= n -> (avg * inject_Z n == sum)%Q ->
  exists self' w' stats' avg',
    run_updates time_time self model updates w = (None, self', w')
    /\ model_performance self' !! model = Some stats'
    /\ success_count stats' = Some (n + Z.of_nat (length (successes updates)))
    /\ failure_count stats' = Some (k + Z.of_nat (length (failures updates)))
    /\ avg_response_time stats' = Some avg'
    /\ (avg' * inject_Z (n + Z.of_nat (length (successes updates)))
        == sum + total (successes updates))%Q
    /\ (forall other, other <> model ->
          model_performance self' !! other = model_performance self !! other)
    /\ primary_model self' = primary_model self
    /\ fallback_models self' = fallback_models self.
Proof.
  induction updates as [|[success rt] updates IH];
    intros self model w stats n k avg sum Hm Hn Hk Havg Hpos Hmean.
  - exists self, w, stats, avg. cbn.
    rewrite !Z.add_0_r. repeat (split; [first [reflexivity | assumption]|]).
    split; [rewrite Hmean; ring|]. auto.
  - cbn [run_updates]. unfold _update_model_stats. cbv zeta. rewrite Hm. cbn [default].
    unfold id.
    destruct success.
    + rewrite Hn. cbn [default]. destruct (time_time w) as [now w1].
      cbn [avg_response_time success_count failure_count last_success last_failure].
      rewrite Havg. cbn [default].
      destruct (n + 1 =? 0) eqn:E0; [apply Z.eqb_eq in E0; lia|].
      replace (n + 1 - 1) with n by lia.
      match goal with
      | |- context [run_updates _ ?s _ _ _] =>
          edestruct (IH s model w1) as
            (self' & w' & stats' & avg' & Hrun & Hm' & Hn' & Hk' & Havg' & Hmean'
             & Hother & Hp & Hf)
      end.
      * cbn [model_performance set_model_performance]. apply lookup_insert_eq.
      * reflexivity.
      * cbn. exact Hk.
      * reflexivity.
      * assert (0 <= n + 1) by lia. eassumption.
      * instantiate (1 := (sum + rt)%Q).
        assert (Hnz : ~ (inject_Z (n + 1) == 0)%Q).
        { unfold Qeq, inject_Z. cbn. lia. }
        rewrite <- Hmean. field. exact Hnz.
      * exists self', w', stats', avg'. split; [exact Hrun|]. split; [exact Hm'|].
        cbn [successes failures List.filter fst snd negb map length total fold_right] in *.
        replace (n + Z.of_nat (S (length (map snd (List.filter fst updates)))))
          with (n + 1 + Z.of_nat (length (successes updates)))
          by (unfold successes; lia).
        split; [exact Hn'|]. split; [exact Hk'|]. split; [exact Havg'|].
        split; [rewrite Hmean'; unfold successes, total; ring|].
        split; [|split; [exact Hp | exact Hf]].
        intros other Hne. rewrite Hother by exact Hne.
        cbn [model_performance set_model_performance]. apply lookup_insert_ne. congruence.
    + rewrite Hk. cbn [default]. destruct (time_time w) as [now w1].
      match goal with
      | |- context [run_updates _ ?s _ _ _] =>
          edestruct (IH s model w1) as
            (self' & w' & stats' & avg' & Hrun & Hm' & Hn' & Hk' & Havg' & Hmean'
             & Hother & Hp & Hf)
      end.
      * cbn [model_performance set_model_performance]. apply lookup_insert_eq.
      * cbn. exact Hn.
      * reflexivity.
      * cbn. exact Havg.
      * exact Hpos.
      * exact Hmean.
      * exists self', w', stats', avg'. split; [exact Hrun|]. split; [exact Hm'|].
        cbn [successes failures List.filter fst snd negb map length total fold_right] in *.
        split; [exact Hn'|].
        replace (k + Z.of_nat (S (length (map snd (List.filter (fun u => negb (fst u)) updates)))))
          with (k + 1 + Z.of_nat (length (failures updates)))
          by (unfold failures; lia).
        split; [exact Hk'|]. split; [exact Havg'|]. split; [exact Hmean'|].
        split; [|split; [exact Hp | exact Hf]].
        intros other Hne. rewrite Hother by exact Hne.
        cbn [model_performance set_model_performance]. apply lookup_insert_ne. congruence.
Qed.

(** Starting from the statistics of [_initialize_model_stats], any run of
    [_update_model_stats] on a model goes through without raising and
    leaves the counts of its successes and failures and, as
    [avg_response_time], the mean of the response times of the successes
    (times the count, their sum); the other models are not touched. *)
Theorem model_stats_are_counts_and_mean (self : Pool) (model : string)
  (updates : list (bool * Q)) (w : W) :
  model_performance self !! model = Some initial_stats ->
  exists self' w' stats avg,
    run_updates time_time self model updates w = (None, self', w')
    /\ model_performance self' !! model = Some stats
    /\ success_count stats = Some (Z.of_nat (length (successes updates)))
    /\ failure_count stats = Some (Z.of_nat (length (failures updates)))
    /\ avg_response_time stats = Some avg
    /\ (avg * inject_Z (Z.of_nat (length (successes updates))) == total (successes updates))%Q
    /\ (forall other, other <> model ->
          model_performance self' !! other = model_performance self !! other).
Proof.
  intros Hinit.
  destruct (run_updates_invariant updates self model w initial_stats 0 0 0%Q 0%Q Hinit
              eq_refl eq_refl eq_refl (Z.le_refl 0) (Qmult_0_l _))
    as (self' & w' & stats & avg & Hrun & Hm & Hn & Hk & Havg & Hmean & Hother & _).
  exists self', w', stats, avg. cbn [Z.add] in *.
  repeat (split; [assumption|]).
  split; [rewrite Hmean; ring | exact Hother].
Qed.

End World.

(** The primary model of the default pool after a success in two seconds,
    a failure, and a success in four seconds. *)
Lemma model_stats_are_counts_and_mean_witness :
  exists self' w' stats avg,
    run_updates Scenario.time_time PoolScenario.pool "gemini-2.5-pro"
      [(true, 2%Q); (false, 5%Q); (true, 4%Q)] (Scenario.at_time 100 0) = (None, self', w')
    /\ model_performance self' !! "gemini-2.5-pro"%string = Some stats
    /\ success_count stats = Some 2
    /\ failure_count stats = Some 1
    /\ avg_response_time stats = Some avg
    /\ (avg * 2 == 6)%Q.
Proof.
  destruct (model_stats_are_counts_and_mean Scenario.time_time PoolScenario.pool
              "gemini-2.5-pro" [(true, 2%Q); (false, 5%Q); (true, 4%Q)]
              (Scenario.at_time 100 0))
    as (self' & w' & stats & avg & Hrun & Hm & Hs & Hf & Havg & Hmean & _).
  - vm_compute. reflexivity.
  - exists self', w', stats, avg. repeat (split; [assumption|]). exact Hmean.
Defined.

End ModelPoolFacts.

(** ** gemini_integration.py: the retry loop of [_make_gemini_request] *)

Module GeminiRequestFacts.
Import ModelPool GeminiRequest.

Lemma only_touches_refl (models : list string) (self : Pool) : only_touches models self self.
Proof. unfold only_touches. auto. Qed.

Lemma only_touches_trans (models : list string) (a b c : Pool) :
  only_touches models a b -> only_touches models b c -> only_touches models a c.
Proof.
  unfold only_touches. intros (H1 & H2 & H3 & H4 & H5) (G1 & G2 & G3 & G4 & G5).
  repeat (split; [congruence|]). intros m Hm. rewrite G5, H5; auto.
Qed.

Lemma only_touches_mono (models models' : list string) (a b : Pool) :
  (forall m, In m models -> In m models') ->
  only_touches models a b -> only_touches models' a b.
Proof.
  unfold only_touches. intros Hsub (H1 & H2 & H3 & H4 & H5).
  repeat (split; [assumption|]). intros m Hm. apply H5. auto.
Qed.

Lemma seen_spec (model : string) (seen : list string) :
  existsb (String.eqb model) seen = true <-> In model seen.
Proof.
  rewrite existsb_exists. split.
  - intros (x & Hx & Heq). apply String.eqb_eq in Heq. subst. exact Hx.
  - intros H. exists model. split; [exact H | apply String.eqb_refl].
Qed.

Lemma dedupe_from (models seen : list string) :
  let result :=
    fold_left (fun seen model => if existsb (String.eqb model) seen then seen
                                 else seen ++ [model]) models seen in
  (exists more, result = seen ++ more)
  /\ (forall x, In x result <-> In x seen \/ In x models)
  /\ (List.NoDup seen -> List.NoDup result).
Proof.
  cbv zeta. revert seen. induction models as [|m models IH]; intros seen; cbn.
  - split; [exists []; rewrite app_nil_r; reflexivity|]. split; [tauto|auto].
  - destruct (existsb (String.eqb m) seen) eqn:E.
    + apply seen_spec in E. destruct (IH seen) as (Hmore & Hin & Hnd).
      split; [exact Hmore|]. split; [|exact Hnd].
      intros x. rewrite Hin. intuition (subst; auto).
    + assert (Hnot : ~ In m seen).
      { intros H. apply seen_spec in H. congruence. }
      destruct (IH (seen ++ [m])) as ((more & Hmore) & Hin & Hnd).
      split; [exists (m :: more); rewrite Hmore, <- app_assoc; reflexivity|].
      split.
      * intros x. rewrite Hin, in_app_iff. cbn. tauto.
      * intros Hs. apply Hnd.
        apply (Permutation_NoDup (l := m :: seen)); [apply Permutation_cons_append|].
        constructor; assumption.
Qed.

Lemma dedupe_in (models : list string) (x : string) : In x (dedupe models) <-> In x models.
Proof.
  destruct (dedupe_from models []) as (_ & Hin & _). unfold dedupe. rewrite Hin.
  cbn. tauto.
Qed.

Lemma dedupe_nodup (models : list string) : List.NoDup (dedupe models).
Proof.
  destruct (dedupe_from models []) as (_ & _ & Hnd). apply Hnd. constructor.
Qed.

Lemma dedupe_head (model : string) (models : list string) :
  exists rest, dedupe (model :: models) = model :: rest.
Proof.
  unfold dedupe. cbn. destruct (dedupe_from models [model]) as ((more & Hmore) & _).
  exists more. exact Hmore.
Qed.

Lemma range_empty (n : Z) : n <= 0 -> range n = [].
Proof. intros H. unfold range. replace (Z.to_nat n) with 0%nat by lia. reflexivity. Qed.

Section World.

Context {W : Type}.
Variable time_time : W -> Q * W.
Variable sleep : Q -> W -> W.
Variable _construct_prompt : Gemini.ConsultationRequest -> string.

Lemma update_touches (self : Pool) (model : string) (success : bool) (rt : Q) (w : W) :
  only_touches [model] self (snd (fst (_update_model_stats time_time self model success rt w))).
Proof.
  assert (Hne : forall m, ~ In m [model] -> model <> m).
  { intros m Hm ->. apply Hm. left. reflexivity. }
  unfold _update_model_stats, only_touches. destruct success.
  - destruct (time_time w) as [now w1].
    destruct (_ =? 0).
    + destruct (model_performance self !! model); cbn; repeat (split; [reflexivity|]);
        intros m Hm; [apply lookup_insert_ne; auto | reflexivity].
    + cbn. repeat (split; [reflexivity|]). intros m Hm. apply lookup_insert_ne; auto.
  - destruct (time_time w) as [now w1]. cbn. repeat (split; [reflexivity|]).
    intros m Hm. apply lookup_insert_ne; auto.
Qed.

Lemma update_failure (self : Pool) (model : string) (rt : Q) (w : W) :
  exists self',
    _update_model_stats time_time self model false rt w = (None, self', snd (time_time w))
    /\ failures_of self' model = failures_of self model + 1
    /\ successes_of self' model = successes_of self model.
Proof.
  unfold _update_model_stats. destruct (time_time w) as [now w1]. eexists.
  split; [reflexivity|]. unfold failures_of, successes_of. cbn.
  rewrite lookup_insert_eq. cbn. split; reflexivity.
Qed.

Lemma update_success (self : Pool) (model : string) (rt : Q) (w : W) :
  0 <= successes_of self model ->
  exists self',
    _update_model_stats time_time self model true rt w = (None, self', snd (time_time w))
    /\ successes_of self' model = successes_of self model + 1
    /\ failures_of self' model = failures_of self model.
Proof.
  unfold successes_of, failures_of, _update_model_stats. intros Hpos.
  destruct (time_time w) as [now w1].
  destruct (_ =? 0) eqn:E; [apply Z.eqb_eq in E; lia|].
  eexists. split; [reflexivity|]. cbn. rewrite lookup_insert_eq. cbn. split; reflexivity.
Qed.

Lemma on_exception_spec (self : Pool) (model : string) (start : Q) (n : Z) (b : Q)
  (attempt : Z) (e : Gemini.Exn) (w : W) :
  exists self' w',
    on_exception time_time sleep self model start n b attempt e w
    = (if attempt =? n - 1 then Break else Continue, self', Some e, w')
    /\ only_touches [model] self self'
    /\ failures_of self' model = failures_of self model + 1
    /\ successes_of self' model = successes_of self model.
Proof.
  unfold on_exception. destruct (time_time w) as [now w1].
  pose proof (update_touches self model false (now - start)%Q w1) as Ht.
  destruct (update_failure self model (now - start)%Q w1) as (self' & Hup & Hf & Hs).
  rewrite Hup in *. cbn [fst snd] in Ht.
  destruct (attempt =? n - 1); eauto 10.
Qed.

Section Provider.

Variable cli : string -> string -> @Gemini.Callable W (option string).

Lemma attempt_once_touches (self : Pool) (model : string) (start : Q) (n : Z) (b : Q)
  (request : Gemini.ConsultationRequest) (attempt : Z) (le : option Gemini.Exn) (w : W) :
  only_touches [model] self
    (snd (fst (fst (attempt_once time_time sleep _construct_prompt cli self model start n b
                      request attempt le w)))).
Proof.
  unfold attempt_once.
  destruct (cli (_construct_prompt request) model w) as [[result|e] w1].
  - destruct (time_time w1) as [now w2].
    pose proof (update_touches self model true (now - start)%Q w2) as Ht.
    destruct (_update_model_stats time_time self model true (now - start)%Q w2)
      as [[[raised|] self1] w3]; cbn [fst snd] in Ht.
    + destruct (on_exception_spec self1 model start n b attempt raised w3)
        as (self' & w' & Heq & Ht' & _). rewrite Heq. cbn [fst snd].
      eapply only_touches_trans; eassumption.
    + destruct (Gemini.truthy result); exact Ht.
  - destruct (on_exception_spec self model start n b attempt e w1)
      as (self' & w' & Heq & Ht' & _). rewrite Heq. exact Ht'.
Qed.

Lemma try_attempts_touches (attempts : list Z) :
  forall (self : Pool) (model : string) (start : Q) (n : Z) (b : Q)
    (request : Gemini.ConsultationRequest) (le : option Gemini.Exn) (w : W),
  only_touches [model] self
    (snd (fst (fst (try_attempts time_time sleep _construct_prompt cli self model start n b
                      request attempts le w)))).
Proof.
  induction attempts as [|attempt rest IH]; intros self model start n b request le w; cbn.
  - apply only_touches_refl.
  - pose proof (attempt_once_touches self model start n b request attempt le w) as Ht.
    destruct (attempt_once time_time sleep _construct_prompt cli self model start n b request
                attempt le w) as [[[step self1] le1] w1]. cbn [fst snd] in Ht.
    destruct step; cbn [fst snd]; try exact Ht.
    eapply only_touches_trans; [exact Ht | apply IH].
Qed.

Lemma try_models_touches (models : list string) :
  forall (self : Pool) (request : Gemini.ConsultationRequest) (le : option Gemini.Exn) (w : W),
  only_touches models self
    (snd (fst (fst (try_models time_time sleep _construct_prompt cli self request models le w)))).
Proof.
  induction models as [|model rest IH]; intros self request le w; cbn.
  - apply only_touches_refl.
  - destruct (time_time w) as [start w1].
    pose proof (try_attempts_touches (range (max_attempts self)) self model start
                  (max_attempts self) (backoff_factor self) request le w1) as Ht.
    destruct (try_attempts time_time sleep _construct_prompt cli self model start
                (max_attempts self) (backoff_factor self) request
                (range (max_attempts self)) le w1) as [[[step self1] le1] w2].
    cbn [fst snd] in Ht.
    assert (Ht' : only_touches (model :: rest) self self1).
    { eapply only_touches_mono; [|exact Ht]. intros m [<-|[]]. left. reflexivity. }
    destruct step; cbn [fst snd]; try exact Ht'.
    eapply only_touches_trans; [exact Ht'|].
    eapply only_touches_mono; [|apply IH]. intros m Hm. right. exact Hm.
Qed.

Lemma make_request_touches (self : Pool) (request : Gemini.ConsultationRequest) (w : W)
  (best : string) (w1 : W) :
  _get_best_available_model time_time self w = (inl best, w1) ->
  only_touches (dedupe (best :: fallback_models self)) self
    (snd (fst (_make_gemini_request time_time sleep _construct_prompt cli self request w))).
Proof.
  intros Hbest. unfold _make_gemini_request. rewrite Hbest.
  pose proof (try_models_touches (dedupe (best :: fallback_models self)) self request None w1)
    as Ht.
  destruct (try_models time_time sleep _construct_prompt cli self request
              (dedupe (best :: fallback_models self)) None w1) as [[[step self1] le1] w2].
  cbn [fst snd] in Ht.
  destruct step; try destruct le1; exact Ht.
Qed.

(** The models tried are the best one and the fallbacks: when the best
    model is not the primary one, the primary model is not called in this
    request, and its statistics stay as they are, whatever the provider
    does. *)
Theorem request_skips_primary_unless_best (self : Pool)
  (request : Gemini.ConsultationRequest) (w : W) (best : string) (w1 : W) :
  ~ In (primary_model self) (fallback_models self) ->
  _get_best_available_model time_time self w = (inl best, w1) ->
  best <> primary_model self ->
  ~ In (primary_model self) (dedupe (best :: fallback_models self))
  /\ model_performance
       (snd (fst (_make_gemini_request time_time sleep _construct_prompt cli self request w)))
     !! primary_model self
     = model_performance self !! primary_model self.
Proof.
  intros Hnot Hbest Hne.
  assert (Hout : ~ In (primary_model self) (dedupe (best :: fallback_models self))).
  { rewrite dedupe_in. intros [H|H]; [congruence | exact (Hnot H)]. }
  split; [exact Hout|].
  destruct (make_request_touches self request w best w1 Hbest) as (_ & _ & _ & _ & H).
  apply H. exact Hout.
Qed.

Lemma attempts_all_fail (model : string) (e : Gemini.Exn) (start : Q) (n : Z) (b : Q)
  (request : Gemini.ConsultationRequest) :
  (forall prompt w, exists w', cli prompt model w = (inr e, w')) ->
  forall (k i : nat) (self : Pool) (le : option Gemini.Exn) (w : W),
  n = Z.of_nat (i + k) -> (1 <= k)%nat ->
  exists self' w',
    try_attempts time_time sleep _construct_prompt cli self model start n b request
      (map Z.of_nat (seq i k)) le w
    = (Continue, self', Some e, w')
    /\ only_touches [model] self self'
    /\ failures_of self' model = failures_of self model + Z.of_nat k.
Proof.
  intros Hfail. induction k as [|k IH]; intros i self le w Hn Hk; [lia|].
  cbn [seq map try_attempts]. unfold attempt_once.
  destruct (Hfail (_construct_prompt request) w) as (w1 & Hcli). rewrite Hcli.
  destruct (on_exception_spec self model start n b (Z.of_nat i) e w1)
    as (self1 & w2 & Heq & Ht & Hf & _).
  rewrite Heq. destruct (Z.of_nat i =? n - 1) eqn:Elast.
  - apply Z.eqb_eq in Elast. assert (k = 0%nat) by lia. subst k.
    exists self1, w2. split; [reflexivity|]. split; [exact Ht|]. rewrite Hf. lia.
  - apply Z.eqb_neq in Elast.
    destruct (IH (S i) self1 (Some e) w2)
      as (self' & w' & Hrun & Ht' & Hf'); [lia | lia |].
    exists self', w'. split; [exact Hrun|].
    split; [eapply only_touches_trans; eassumption|]. rewrite Hf', Hf. lia.
Qed.

Lemma models_all_fail (err : string -> Gemini.Exn) (request : Gemini.ConsultationRequest) :
  (forall prompt model w, exists w', cli prompt model w = (inr (err model), w')) ->
  forall (models : list string) (self : Pool) (le : option Gemini.Exn) (w : W),
  1 <= max_attempts self -> List.NoDup models ->
  exists self' w',
    try_models time_time sleep _construct_prompt cli self request models le w
    = (Continue, self', fold_left (fun _ m => Some (err m)) models le, w')
    /\ only_touches models self self'
    /\ forall m, In m models ->
         failures_of self' m = failures_of self m + max_attempts self.
Proof.
  intros Hfail. induction models as [|model rest IH]; intros self le w Hn Hnd.
  - exists self, w. cbn. split; [reflexivity|]. split; [apply only_touches_refl|].
    intros m [].
  - cbn [try_models fold_left]. destruct (time_time w) as [start w1]. cbv zeta.
    inversion Hnd as [|x l Hnotin Hnd']; subst.
    destruct (attempts_all_fail model (err model) start (max_attempts self)
                (backoff_factor self) request (fun p w => Hfail p model w)
                (Z.to_nat (max_attempts self)) 0%nat self le w1)
      as (self1 & w2 & Hrun & Ht & Hf); [lia | lia |].
    unfold range. rewrite Hrun.
    destruct Ht as (H1 & H2 & H3 & H4 & H5).
    destruct (IH self1 (Some (err model)) w2) as (self' & w' & Hrun' & Ht' & Hf');
      [lia | exact Hnd' |].
    exists self', w'. split; [exact Hrun'|]. split.
    + eapply only_touches_trans.
      * eapply only_touches_mono; [|exact (conj H1 (conj H2 (conj H3 (conj H4 H5))))].
        intros m [<-|[]]. left. reflexivity.
      * eapply only_touches_mono; [|exact Ht']. intros m Hm. right. exact Hm.
    + intros m [<-|Hm].
      * destruct Ht' as (_ & _ & _ & _ & Hkeep).
        unfold failures_of in *. rewrite (Hkeep model Hnotin). rewrite Hf. lia.
      * rewrite (Hf' m Hm). rewrite H3. f_equal.
        unfold failures_of. rewrite H5; [reflexivity|].
        intros [<-|[]]. exact (Hnotin Hm).
Qed.

(** When every call of the provider raises (for a model [m], [err m]) and
    at least one attempt is configured, [_make_gemini_request] raises the
    error of the last model tried, after [max_attempts] failures have been
    recorded for each model tried and nothing for any other. *)
Theorem request_all_models_fail (err : string -> Gemini.Exn) (self : Pool)
  (request : Gemini.ConsultationRequest) (w : W) (best : string) (w1 : W) :
  (forall prompt model w, exists w', cli prompt model w = (inr (err model), w')) ->
  1 <= max_attempts self ->
  _get_best_available_model time_time self w = (inl best, w1) ->
  let models_to_try := dedupe (best :: fallback_models self) in
  exists self' w',
    _make_gemini_request time_time sleep _construct_prompt cli self request w
    = (inr (err (List.last models_to_try best)), self', w')
    /\ (forall m, In m models_to_try ->
          failures_of self' m = failures_of self m + max_attempts self)
    /\ (forall m, ~ In m models_to_try ->
          model_performance self' !! m = model_performance self !! m).
Proof.
  intros Hfail Hn Hbest models_to_try. unfold _make_gemini_request. rewrite Hbest.
  fold models_to_try.
  destruct (models_all_fail err request Hfail models_to_try self None w1 Hn
              (dedupe_nodup _)) as (self' & w' & Hrun & Ht & Hf).
  rewrite Hrun. exists self', w'.
  assert (Hlast : forall models le d,
            fold_left (fun _ m => Some (err m)) models le
            = match models with [] => le | _ => Some (err (List.last models d)) end).
  { induction models as [|m models IH]; intros le d; [reflexivity|].
    cbn [fold_left]. rewrite (IH (Some (err m)) d).
    destruct models; reflexivity. }
  destruct (dedupe_head best (fallback_models self)) as (rest & Hhead).
  fold models_to_try in Hhead.
  rewrite (Hlast models_to_try None best). rewrite Hhead. rewrite <- Hhead.
  split; [reflexivity|]. split; [exact Hf|].
  destruct Ht as (_ & _ & _ & _ & H). exact H.
Qed.

(** When the provider answers the best model's first call with a
    non-empty text, [_make_gemini_request] returns that text; one success
    is recorded for the best model, and no other model is touched. *)
Theorem request_first_answer (self : Pool) (request : Gemini.ConsultationRequest) (w : W)
  (best : string) (w1 : W) (text : string) :
  (forall prompt w, exists w', cli prompt best w = (inl (Some text), w')) ->
  text <> ""%string ->
  1 <= max_attempts self ->
  0 <= successes_of self best ->
  _get_best_available_model time_time self w = (inl best, w1) ->
  exists self' w',
    _make_gemini_request time_time sleep _construct_prompt cli self request w
    = (inl text, self', w')
    /\ successes_of self' best = successes_of self best + 1
    /\ failures_of self' best = failures_of self best
    /\ (forall m, m <> best -> model_performance self' !! m = model_performance self !! m).
Proof.
  intros Hans Htext Hn Hpos Hbest. unfold _make_gemini_request. rewrite Hbest.
  destruct (dedupe_head best (fallback_models self)) as (rest & ->).
  cbn [try_models]. destruct (time_time w1) as [start w2]. cbv zeta.
  unfold range. destruct (Z.to_nat (max_attempts self)) as [|k] eqn:Ek; [lia|].
  cbn [seq map try_attempts]. unfold attempt_once.
  destruct (Hans (_construct_prompt request) w2) as (w3 & ->).
  destruct (time_time w3) as [now w4].
  pose proof (update_touches self best true (now - start)%Q w4) as Ht.
  destruct (update_success self best (now - start)%Q w4 Hpos) as (self' & Hup & Hs & Hf).
  rewrite Hup in *. cbn [fst snd] in Ht.
  assert (Htruthy : Gemini.truthy (Some text) = Some text).
  { destruct text; [congruence | reflexivity]. }
  rewrite Htruthy. exists self', (snd (time_time w4)).
  split; [reflexivity|]. split; [exact Hs|]. split; [exact Hf|].
  destruct Ht as (_ & _ & _ & _ & H). intros m Hm. apply H.
  intros [<-|[]]. congruence.
Qed.

End Provider.

Lemma models_without_attempts (request : Gemini.ConsultationRequest) (models : list string) :
  forall (self : Pool) (le : option Gemini.Exn) (w : W),
  max_attempts self <= 0 ->
  exists w', forall cli,
    try_models time_time sleep _construct_prompt cli self request models le w
    = (Continue, self, le, w').
Proof.
  induction models as [|model rest IH]; intros self le w Hn.
  - exists w. reflexivity.
  - cbn [try_models]. destruct (time_time w) as [start w1]. cbv zeta.
    rewrite range_empty by exact Hn. cbn [try_attempts].
    destruct (IH self le w1 Hn) as (w' & H). exists w'. exact H.
Qed.

(** With [max_attempts] at zero or below, the provider is never called:
    whatever it is, [_make_gemini_request] raises ["All models failed to
    provide a response"] and records nothing. *)
Theorem request_without_attempts (self : Pool) (request : Gemini.ConsultationRequest) (w : W) :
  max_attempts self <= 0 ->
  exists w', forall cli,
    _make_gemini_request time_time sleep _construct_prompt cli self request w
    = (inr (Gemini.GeminiAPIError "All models failed to provide a response"), self, w').
Proof.
  intros Hn. unfold _make_gemini_request.
  destruct (ModelPoolFacts.best_model_spec time_time self w)
    as (before & best & s & after & _ & _ & _ & Hbest).
  rewrite Hbest.
  destruct (models_without_attempts request (dedupe (best :: fallback_models self)) self None
              (snd (model_scores time_time self (all_models self) w)) Hn) as (w' & H).
  exists w'. intros cli. rewrite H. reflexivity.
Qed.

End World.

(** The primary model has just failed, so a fallback is the best model:
    a request leaves the statistics of the primary model alone. *)
Lemma request_skips_primary_unless_best_witness :
  model_performance
    (snd (fst (_make_gemini_request Scenario.time_time PoolScenario.sleep PoolScenario.prompt
                 PoolScenario.failing PoolScenario.after_failure GeminiScenario.question
                 (Scenario.at_time 60 0))))
  !! "gemini-2.5-pro"%string
  = model_performance PoolScenario.after_failure !! "gemini-2.5-pro"%string.
Proof.
  destruct (request_skips_primary_unless_best Scenario.time_time PoolScenario.sleep
              PoolScenario.prompt PoolScenario.failing PoolScenario.after_failure
              GeminiScenario.question (Scenario.at_time 60 0) "gemini-2.5-flash"
              (Scenario.at_time 60 0)) as (_ & H).
  - vm_compute. intros [H|[H|[]]]; discriminate.
  - vm_compute. reflexivity.
  - discriminate.
  - exact H.
Defined.

(** The default pool, every call failing with the name of the model: the
    error of the last fallback is raised. *)
Lemma request_all_models_fail_witness :
  exists self' w',
    _make_gemini_request Scenario.time_time PoolScenario.sleep PoolScenario.prompt
      PoolScenario.failing PoolScenario.pool GeminiScenario.question (Scenario.at_time 100 0)
    = (inr (Gemini.GeminiAPIError "gemini-2.0-flash-exp"), self', w')
    /\ failures_of self' "gemini-2.5-pro" = 3
    /\ failures_of self' "gemini-2.5-flash" = 3
    /\ failures_of self' "gemini-2.0-flash-exp" = 3.
Proof.
  destruct (request_all_models_fail Scenario.time_time PoolScenario.sleep PoolScenario.prompt
              PoolScenario.failing Gemini.GeminiAPIError PoolScenario.pool
              GeminiScenario.question (Scenario.at_time 100 0) "gemini-2.5-pro"
              (Scenario.at_time 100 0)) as (self' & w' & Hrun & Hf & _).
  - intros prompt model w. eexists. reflexivity.
  - vm_compute. discriminate.
  - vm_compute. reflexivity.
  - exists self', w'. split; [exact Hrun|].
    split; [|split]; (rewrite Hf; [reflexivity | vm_compute; tauto]).
Defined.

(** The default pool and a provider that answers. *)
Lemma request_first_answer_witness :
  exists self' w',
    _make_gemini_request Scenario.time_time PoolScenario.sleep PoolScenario.prompt
      PoolScenario.answering PoolScenario.pool GeminiScenario.question (Scenario.at_time 100 0)
    = (inl "4"%string, self', w')
    /\ successes_of self' "gemini-2.5-pro" = 1.
Proof.
  destruct (request_first_answer Scenario.time_time PoolScenario.sleep PoolScenario.prompt
              PoolScenario.answering PoolScenario.pool GeminiScenario.question
              (Scenario.at_time 100 0) "gemini-2.5-pro" (Scenario.at_time 100 0) "4")
    as (self' & w' & Hrun & Hs & _).
  - intros prompt w. eexists. reflexivity.
  - discriminate.
  - vm_compute. discriminate.
  - vm_compute. discriminate.
  - vm_compute. reflexivity.
  - exists self', w'. split; [exact Hrun|]. rewrite Hs. reflexivity.
Defined.

(** A pool configured with no attempt at all. *)
Lemma request_without_attempts_witness :
  exists w', forall cli,
    _make_gemini_request Scenario.time_time PoolScenario.sleep PoolScenario.prompt cli
      (new_pool "gemini-2.5-pro" [] 0 2) GeminiScenario.question (Scenario.at_time 100 0)
    = (inr (Gemini.GeminiAPIError "All models failed to provide a response"),
       new_pool "gemini-2.5-pro" [] 0 2, w').
Proof.
  apply (request_without_attempts Scenario.time_time PoolScenario.sleep PoolScenario.prompt
           (new_pool "gemini-2.5-pro" [] 0 2) GeminiScenario.question (Scenario.at_time 100 0)).
  vm_compute. discriminate.
Defined.

End GeminiRequestFacts.

(** ** gemini_integration.py: [_call_gemini_cli_with_model] *)

Module GeminiCliFacts.
Import GeminiCli.

Section World.

Context {W : Type}.
Variable time_time : W -> Q * W.
Variable sleep : Q -> W -> W.
Variable _construct_prompt : Gemini.ConsultationRequest -> string.
Variable getenv : string -> W -> option string.

Lemma reraise_class (e : Gemini.Exn) :
  match reraise e with
  | Gemini.AuthenticationError _ | Gemini.RateLimitError _ | Gemini.GeminiAPIError _ => True
  | _ => False
  end.
Proof. destruct e; exact I. Qed.

(** [_call_gemini_cli_with_model] returns a text only when the process
    ends with code 0, and then never [None] and never an empty text: the
    text has no white space around it.  Whatever goes wrong, it raises one
    of [AuthenticationError], [RateLimitError] and [GeminiAPIError]. *)
Theorem cli_returns_text_or_module_error (run : list string -> string -> Z -> W -> Outcome * W)
  (decode : list Z -> string + Gemini.Exn) (timeout_seconds : Z) (prompt model : string)
  (w : W) :
  match fst (_call_gemini_cli_with_model getenv run decode timeout_seconds prompt model w) with
  | inl (Some response) =>
      response <> ""%string /\ PyStr.strip response = response
      /\ exists key stdout stderr,
           fst (run ["gemini"; "--model"; model; "--prompt"; prompt]%string key
                  timeout_seconds w) = Exited 0 stdout stderr
  | inl None => False
  | inr (Gemini.AuthenticationError _) | inr (Gemini.RateLimitError _)
  | inr (Gemini.GeminiAPIError _) => True
  | inr _ => False
  end.
Proof.
  unfold _call_gemini_cli_with_model.
  destruct (Gemini.truthy (getenv "GOOGLE_API_KEY" w)) as [key|]; [|exact I].
  destruct (run _ key timeout_seconds w) as [[| |e|returncode stdout stderr] w1] eqn:Hrun;
    cbn [fst]; try exact I.
  - apply reraise_class.
  - destruct (returncode =? 0) eqn:Ecode.
    + apply Z.eqb_eq in Ecode. subst returncode.
      destruct (decode stdout) as [text|e]; [|apply reraise_class].
      destruct (PyStr.strip text) as [|c rest] eqn:Hstrip; cbn [fst]; [exact I|].
      split; [discriminate|]. split.
      * rewrite <- Hstrip. apply HashFacts.strip_idem.
      * exists key, stdout, stderr. rewrite Hrun. reflexivity.
    + destruct (decode stderr) as [text|e]; [|apply reraise_class].
      destruct (_ || _); [exact I|]. destruct (_ || _); exact I.
Qed.

Lemma attempt_once_ext (cli1 cli2 : string -> string -> @Gemini.Callable W (option string)) :
  (forall prompt model w, cli1 prompt model w = cli2 prompt model w) ->
  forall self model start n b request attempt le w,
  GeminiRequest.attempt_once time_time sleep _construct_prompt cli1 self model start n b
    request attempt le w
  = GeminiRequest.attempt_once time_time sleep _construct_prompt cli2 self model start n b
      request attempt le w.
Proof. intros Hext *. unfold GeminiRequest.attempt_once. rewrite Hext. reflexivity. Qed.

Lemma try_attempts_ext (cli1 cli2 : string -> string -> @Gemini.Callable W (option string)) :
  (forall prompt model w, cli1 prompt model w = cli2 prompt model w) ->
  forall attempts self model start n b request le w,
  GeminiRequest.try_attempts time_time sleep _construct_prompt cli1 self model start n b
    request attempts le w
  = GeminiRequest.try_attempts time_time sleep _construct_prompt cli2 self model start n b
      request attempts le w.
Proof.
  intros Hext. induction attempts as [|attempt rest IH]; intros; cbn; [reflexivity|].
  rewrite (attempt_once_ext cli1 cli2 Hext).
  destruct (GeminiRequest.attempt_once _ _ _ cli2 _ _ _ _ _ _ _ _ _) as [[[step self1] le1] w1].
  destruct step; try reflexivity. apply IH.
Qed.

Lemma try_models_ext (cli1 cli2 : string -> string -> @Gemini.Callable W (option string)) :
  (forall prompt model w, cli1 prompt model w = cli2 prompt model w) ->
  forall models self request le w,
  GeminiRequest.try_models time_time sleep _construct_prompt cli1 self request models le w
  = GeminiRequest.try_models time_time sleep _construct_prompt cli2 self request models le w.
Proof.
  intros Hext. induction models as [|model rest IH]; intros; cbn; [reflexivity|].
  destruct (time_time w) as [start w1].
  rewrite (try_attempts_ext cli1 cli2 Hext).
  destruct (GeminiRequest.try_attempts _ _ _ cli2 _ _ _ _ _ _ _ _ _) as [[[step self1] le1] w2].
  destruct step; try reflexivity. apply IH.
Qed.

(** Without [GOOGLE_API_KEY] in the environment no process is started,
    yet the missing key is treated like any failure of a model:
    [_make_gemini_request] goes through every model to try and every
    attempt, records [max_attempts] failures for each of them, and then
    raises the [AuthenticationError]. *)
Theorem missing_api_key_fails_every_model (timeout_seconds : Z) (self : ModelPool.Pool)
  (request : Gemini.ConsultationRequest) (w : W) (best : string) (w1 : W) :
  (forall w, Gemini.truthy (getenv "GOOGLE_API_KEY" w) = None) ->
  1 <= ModelPool.max_attempts self ->
  ModelPool._get_best_available_model time_time self w = (inl best, w1) ->
  exists self' w',
    (forall run decode,
       GeminiRequest._make_gemini_request time_time sleep _construct_prompt
         (_call_gemini_cli_with_model getenv run decode timeout_seconds) self request w
       = (inr (Gemini.AuthenticationError
                 "GOOGLE_API_KEY environment variable is required but not set"),
          self', w'))
    /\ forall m, In m (GeminiRequest.dedupe (best :: ModelPool.fallback_models self)) ->
         GeminiRequest.failures_of self' m
         = GeminiRequest.failures_of self m + ModelPool.max_attempts self.
Proof.
  intros Hkey Hn Hbest.
  set (err := Gemini.AuthenticationError
                "GOOGLE_API_KEY environment variable is required but not set").
  set (models_to_try := GeminiRequest.dedupe (best :: ModelPool.fallback_models self)).
  set (cli0 := fun (prompt model : string) (w : W) =>
                 (@inr (option string) Gemini.Exn err, w)).
  destruct (GeminiRequestFacts.models_all_fail time_time sleep _construct_prompt cli0
              (fun _ => err) request
              (fun prompt model w => ex_intro _ w eq_refl)
              models_to_try self None w1 Hn (GeminiRequestFacts.dedupe_nodup _))
    as (self' & w' & Hrun & _ & Hf).
  exists self', w'. split; [|exact Hf].
  intros run decode. unfold GeminiRequest._make_gemini_request. rewrite Hbest.
  fold models_to_try.
  rewrite (try_models_ext (_call_gemini_cli_with_model getenv run decode timeout_seconds) cli0).
  - rewrite Hrun.
    destruct (GeminiRequestFacts.dedupe_head best (ModelPool.fallback_models self))
      as (rest & Hhead).
    fold models_to_try in Hhead. rewrite Hhead. cbn [fold_left].
    assert (Hconst : forall l, fold_left (fun (_ : option Gemini.Exn) (_ : string) => Some err)
                                 l (Some err) = Some err).
    { induction l as [|x l IH]; [reflexivity | exact IH]. }
    rewrite Hconst. reflexivity.
  - intros prompt model w0. unfold _call_gemini_cli_with_model, cli0. rewrite Hkey.
    reflexivity.
Qed.

End World.

(** The default pool in an environment without the key. *)
Lemma missing_api_key_fails_every_model_witness :
  exists self' w',
    (forall run decode,
       GeminiRequest._make_gemini_request Scenario.time_time PoolScenario.sleep
         PoolScenario.prompt
         (_call_gemini_cli_with_model (fun _ _ => None) run decode 30)
         PoolScenario.pool GeminiScenario.question (Scenario.at_time 100 0)
       = (inr (Gemini.AuthenticationError
                 "GOOGLE_API_KEY environment variable is required but not set"),
          self', w'))
    /\ GeminiRequest.failures_of self' "gemini-2.5-flash" = 3.
Proof.
  destruct (missing_api_key_fails_every_model Scenario.time_time PoolScenario.sleep
              PoolScenario.prompt (fun _ _ => None) 30 PoolScenario.pool
              GeminiScenario.question (Scenario.at_time 100 0) "gemini-2.5-pro"
              (Scenario.at_time 100 0)) as (self' & w' & Hrun & Hf).
  - reflexivity.
  - vm_compute. discriminate.
  - vm_compute. reflexivity.
  - exists self', w'. split; [exact Hrun|]. rewrite Hf; [reflexivity|].
    vm_compute. tauto.
Defined.

End GeminiCliFacts.

(** ** src/optimized-ai-system.py: [QueryPatternAnalyzer.classify_query] *)

Module PatternFacts.
Import Optimized PatternAnalyzer.

Lemma pattern_eqb_eq (a b : QueryPattern) : pattern_eqb a b = true <-> a = b.
Proof. destruct a, b; cbn; split; intros H; try reflexivity; discriminate. Qed.

Lemma split_from_some (s w : string) : PyStr.split_from (Some w) s <> [].
Proof.
  revert w. induction s as [|c s IH]; intros w; cbn; [discriminate|].
  destruct (PyStr.is_space c); [discriminate | apply IH].
Qed.

Lemma split_nonblank (s : string) : blank s = false -> PyStr.split s <> [].
Proof.
  unfold PyStr.split. induction s as [|c s IH]; cbn; [discriminate|].
  destruct (PyStr.is_space c); cbn; [exact IH | intros _; apply split_from_some].
Qed.

Lemma blank_lower (s : string) : blank (PyStr.lower s) = blank s.
Proof.
  induction s as [|c s IH]; cbn; [reflexivity|].
  rewrite HashFacts.is_space_lower_char, IH. reflexivity.
Qed.

Lemma contains_nonblank (c : ascii) (p s : string) :
  PyStr.is_space c = false -> PyIn.contains (String c p) s = true -> blank s = false.
Proof.
  intros Hc. induction s as [|b s IH]; cbn; [discriminate|].
  intros H. apply orb_true_iff in H. destruct H as [H|H].
  - apply andb_true_iff in H. destruct H as [H _]. apply Ascii.eqb_eq in H. subst b.
    rewrite Hc. reflexivity.
  - rewrite (IH H). apply andb_false_r.
Qed.

Lemma proper_spec (pats : list (QueryPattern * list string)) :
  proper pats = true ->
  forall pattern keywords keyword,
    In (pattern, keywords) pats -> In keyword keywords ->
    pattern <> GENERAL
    /\ exists c rest, keyword = String c rest /\ PyStr.is_space c = false.
Proof.
  unfold proper. rewrite forallb_forall. intros H pattern keywords keyword Hp Hk.
  specialize (H _ Hp). cbn [fst snd] in H. apply andb_true_iff in H. destruct H as [H1 H2].
  split.
  - intros ->. discriminate.
  - rewrite forallb_forall in H2. specialize (H2 _ Hk).
    destruct keyword as [|c rest]; [discriminate|].
    exists c, rest. split; [reflexivity|]. now apply negb_true_iff.
Qed.

Lemma mentions_nonblank (pats : list (QueryPattern * list string)) (text : string) :
  proper pats = true -> mentions pats text -> blank text = false.
Proof.
  intros Hproper (pattern & keywords & keyword & Hp & Hk & Hin).
  destruct (proper_spec pats Hproper pattern keywords keyword Hp Hk) as (_ & c & rest & -> & Hc).
  eapply contains_nonblank; eassumption.
Qed.

(** What holds of every entry of the scores. *)
Lemma dd_add_in (pattern : QueryPattern) (weight : Q) (d : list (QueryPattern * Q))
  (p : QueryPattern) (v : Q) :
  In (p, v) (dd_add pattern weight d) ->
  In (p, v) d
  \/ (p = pattern /\ (v = 0 + weight)%Q)
  \/ (p = pattern /\ exists v0, In (p, v0) d /\ v = (v0 + weight)%Q).
Proof.
  induction d as [|[p' v'] d IH]; cbn.
  - intros [H|[]]. inversion H. auto.
  - destruct (pattern_eqb pattern p') eqn:E.
    + apply pattern_eqb_eq in E. subst p'. intros [H|H].
      * inversion H; subst. right. right. split; [reflexivity|]. exists v'. auto.
      * auto.
    + intros [H|H]; [auto|]. destruct (IH H) as [H'|[H'|(Hp & v0 & Hv0 & Hv)]]; auto.
      right. right. split; [exact Hp|]. exists v0. auto.
Qed.

Lemma dd_add_nonempty (pattern : QueryPattern) (weight : Q) (d : list (QueryPattern * Q)) :
  dd_add pattern weight d <> [].
Proof. destruct d as [|[p v] d]; cbn; [discriminate|]. destruct (pattern_eqb _ _); discriminate. Qed.

Section Scores.

Variable pats : list (QueryPattern * list string).
Variable query_lower : string.
Hypothesis Hproper : proper pats = true.


Lemma score_keyword_sound (pattern : QueryPattern) (keywords : list string) (keyword : string)
  (d : list (QueryPattern * Q)) :
  In (pattern, keywords) pats -> In keyword keywords -> sound pats query_lower d ->
  sound pats query_lower (score_keyword query_lower pattern d keyword).
Proof.
  intros Hp Hk Hd. unfold score_keyword.
  destruct (PyIn.contains keyword query_lower) eqn:Hc; [|exact Hd].
  destruct (proper_spec pats Hproper pattern keywords keyword Hp Hk) as (_ & c & rest & Hkw & _).
  assert (Hw : (0 < inject_Z (Z.of_nat (String.length keyword)) / 10)%Q).
  { subst keyword. cbn [String.length]. apply Qlt_shift_div_l; [reflexivity|].
    rewrite Qmult_0_l. unfold Qlt, inject_Z. cbn. lia. }
  set (weight := if PyIn.startswith query_lower keyword
                 then (inject_Z (Z.of_nat (String.length keyword)) / 10 * (15 # 10))%Q
                 else (inject_Z (Z.of_nat (String.length keyword)) / 10)%Q).
  assert (Hweight : (0 < weight)%Q).
  { unfold weight. destruct (PyIn.startswith query_lower keyword); [|exact Hw].
    apply Qmult_lt_0_compat; [exact Hw | reflexivity]. }
  assert (Hm : mentions_for pats pattern query_lower).
  { exists keywords, keyword. auto. }
  intros p v Hin. apply dd_add_in in Hin.
  destruct Hin as [Hin|[(-> & ->)|(-> & v0 & Hv0 & ->)]].
  - apply Hd. exact Hin.
  - split; [lra | exact Hm].
  - destruct (Hd _ _ Hv0) as [Hpos _]. split; [lra | exact Hm].
Qed.

Lemma score_keywords_sound (pattern : QueryPattern) (keywords rest : list string) :
  In (pattern, keywords) pats -> (forall k, In k rest -> In k keywords) ->
  forall d, sound pats query_lower d ->
  sound pats query_lower (fold_left (score_keyword query_lower pattern) rest d).
Proof.
  intros Hp. induction rest as [|k rest IH]; intros Hsub d Hd; cbn; [exact Hd|].
  apply IH; [intros k' Hk'; apply Hsub; right; exact Hk'|].
  eapply score_keyword_sound; [exact Hp | apply Hsub; left; reflexivity | exact Hd].
Qed.

Lemma score_keywords_grow (pattern : QueryPattern) (rest : list string)
  (d : list (QueryPattern * Q)) :
  d <> [] \/ (exists k, In k rest /\ PyIn.contains k query_lower = true) ->
  fold_left (score_keyword query_lower pattern) rest d <> [].
Proof.
  revert d. induction rest as [|k rest IH]; intros d H; cbn.
  - destruct H as [H|(k & [] & _)]. exact H.
  - apply IH. unfold score_keyword.
    destruct (PyIn.contains k query_lower) eqn:Hc.
    + left. apply dd_add_nonempty.
    + destruct H as [H|(k' & [<-|Hk'] & Hc')]; [left; exact H | congruence |].
      right. exists k'. auto.
Qed.

Lemma score_keywords_none (pattern : QueryPattern) (rest : list string) :
  (forall k, In k rest -> PyIn.contains k query_lower = false) ->
  fold_left (score_keyword query_lower pattern) rest [] = [].
Proof.
  induction rest as [|k rest IH]; intros H; cbn; [reflexivity|].
  unfold score_keyword at 2. rewrite (H k) by (left; reflexivity).
  apply IH. intros k' Hk'. apply H. right. exact Hk'.
Qed.

Lemma fold_patterns_sound (entries : list (QueryPattern * list string)) :
  (forall e, In e entries -> In e pats) ->
  forall d, sound pats query_lower d ->
  sound pats query_lower (fold_left
           (fun pattern_scores (entry : QueryPattern * list string) =>
              fold_left (score_keyword query_lower (fst entry)) (snd entry) pattern_scores)
           entries d).
Proof.
  induction entries as [|[p kws] entries IH]; intros Hsub d Hd; cbn; [exact Hd|].
  apply IH; [intros e He; apply Hsub; right; exact He|].
  apply (score_keywords_sound p kws kws); [apply Hsub; left; reflexivity | auto | exact Hd].
Qed.

Lemma fold_patterns_grow (entries : list (QueryPattern * list string))
  (d : list (QueryPattern * Q)) :
  d <> [] \/ mentions entries query_lower ->
  fold_left
    (fun pattern_scores (entry : QueryPattern * list string) =>
       fold_left (score_keyword query_lower (fst entry)) (snd entry) pattern_scores)
    entries d <> [].
Proof.
  revert d. induction entries as [|[p kws] entries IH]; intros d H; cbn.
  - destruct H as [H|(p & kws & k & [] & _)]. exact H.
  - apply IH.
    destruct H as [H|(p' & kws' & k & [Heq|Hin] & Hk & Hc)].
    + left. apply score_keywords_grow. left. exact H.
    + inversion Heq; subst. left. apply score_keywords_grow. right. exists k. auto.
    + right. exists p', kws', k. auto.
Qed.

Lemma fold_patterns_none (entries : list (QueryPattern * list string)) :
  ~ mentions entries query_lower ->
  fold_left
    (fun pattern_scores (entry : QueryPattern * list string) =>
       fold_left (score_keyword query_lower (fst entry)) (snd entry) pattern_scores)
    entries [] = [].
Proof.
  induction entries as [|[p kws] entries IH]; intros H; cbn; [reflexivity|].
  rewrite score_keywords_none.
  - apply IH. intros (p' & kws' & k & Hin & Hk & Hc). apply H.
    exists p', kws', k. split; [right; exact Hin | auto].
  - intros k Hk. destruct (PyIn.contains k query_lower) eqn:Hc; [|reflexivity].
    exfalso. apply H. exists p, kws, k. split; [left; reflexivity | auto].
Qed.

Lemma score_patterns_sound : sound pats query_lower (score_patterns pats query_lower).
Proof. apply fold_patterns_sound; [auto | intros p v []]. Qed.

Lemma score_patterns_empty_iff :
  score_patterns pats query_lower = [] <-> ~ mentions pats query_lower.
Proof.
  split.
  - intros Hempty Hm. apply (fold_patterns_grow pats []); [right; exact Hm | exact Hempty].
  - apply fold_patterns_none.
Qed.

End Scores.

Lemma max_item_in (items : list (QueryPattern * Q)) :
  forall best, In (max_item best items) (best :: items).
Proof.
  unfold max_item. induction items as [|item items IH]; intros best; cbn; [auto|].
  destruct (PyNum.Qlt_bool (snd best) (snd item)).
  - destruct (IH item) as [H|H]; [right; left; exact H | right; right; exact H].
  - destruct (IH best) as [H|H]; [left; exact H | right; right; exact H].
Qed.

Lemma classify_query_spec (pats : list (QueryPattern * list string)) (query : string) :
  proper pats = true ->
  exists pattern confidence,
    classify_query pats query = inl (pattern, confidence)
    /\ (0 < confidence)%Q /\ (confidence <= 1)%Q
    /\ (~ mentions pats (PyStr.lower query) -> pattern = GENERAL /\ confidence = (5 # 10)%Q)
    /\ (mentions pats (PyStr.lower query) -> mentions_for pats pattern (PyStr.lower query)).
Proof.
  intros Hproper. unfold classify_query.
  pose proof (score_patterns_sound pats (PyStr.lower query) Hproper) as Hsound.
  pose proof (score_patterns_empty_iff pats (PyStr.lower query)) as Hempty.
  destruct (score_patterns pats (PyStr.lower query)) as [|first others].
  - exists GENERAL, (5 # 10)%Q. split; [reflexivity|].
    split; [reflexivity|]. split; [discriminate|].
    split; [auto|]. intros Hm. exfalso. apply (proj1 Hempty); auto.
  - assert (Hm : mentions pats (PyStr.lower query)).
    { destruct (Hsound (fst first) (snd first)) as (_ & kws & k & H);
        [left; destruct first; reflexivity|].
      exists (fst first), kws, k. exact H. }
    pose proof (max_item_in others first) as Hbest.
    destruct (max_item first others) as [p v]. cbn [fst snd].
    destruct (Hsound p v Hbest) as [Hpos Hfor].
    assert (Hwords : PyStr.len (PyStr.split query) <> 0).
    { unfold PyStr.len.
      assert (PyStr.split query <> []).
      { apply split_nonblank. rewrite <- blank_lower.
        eapply mentions_nonblank; eassumption. }
      destruct (PyStr.split query); [congruence | cbn; lia]. }
    apply Z.eqb_neq in Hwords. rewrite Hwords.
    exists p, (PyNum.py_min (v / inject_Z (PyStr.len (PyStr.split query))) 1).
    split; [reflexivity|].
    assert (Hq : (0 < v / inject_Z (PyStr.len (PyStr.split query)))%Q).
    { apply Z.eqb_neq in Hwords.
      apply Qlt_shift_div_l; [|rewrite Qmult_0_l; exact Hpos].
      unfold Qlt, inject_Z, PyStr.len in *. cbn. lia. }
    unfold PyNum.py_min.
    destruct (PyNum.Qlt_bool 1 _) eqn:E.
    + split; [reflexivity|]. split; [apply Qle_refl|]. split; [intros H; contradiction|auto].
    + apply Qlt_bool_false_iff in E.
      split; [exact Hq|]. split; [exact E|]. split; [intros H; contradiction|auto].
Qed.

Lemma patterns_proper : proper patterns = true.
Proof. vm_compute. reflexivity. Qed.

(** [classify_query] never raises (when a keyword has matched, the query
    has a word, so the division is defined) and the confidence it returns
    lies in (0, 1]. *)
Theorem classify_query_confidence_in_range (query : string) :
  exists pattern confidence,
    classify_query patterns query = inl (pattern, confidence)
    /\ (0 < confidence)%Q /\ (confidence <= 1)%Q.
Proof.
  destruct (classify_query_spec patterns query patterns_proper)
    as (pattern & confidence & Heq & Hpos & Hle & _).
  exists pattern, confidence. auto.
Qed.

(** [classify_query] answers [(GENERAL, 0.5)] exactly when no keyword of
    any pattern occurs in the lowered query; otherwise the pattern it
    returns is one with a keyword in the query, never [GENERAL]. *)
Theorem classify_query_general_iff_no_keyword (query : string) :
  (~ mentions patterns (PyStr.lower query)
   -> classify_query patterns query = inl (GENERAL, (5 # 10)%Q))
  /\ (mentions patterns (PyStr.lower query)
      -> exists pattern confidence,
           classify_query patterns query = inl (pattern, confidence)
           /\ pattern <> GENERAL
           /\ mentions_for patterns pattern (PyStr.lower query)).
Proof.
  destruct (classify_query_spec patterns query patterns_proper)
    as (pattern & confidence & Heq & _ & _ & Hnone & Hsome).
  split.
  - intros H. destruct (Hnone H) as [-> ->]. exact Heq.
  - intros H. exists pattern, confidence. split; [exact Heq|].
    specialize (Hsome H). split; [|exact Hsome].
    destruct Hsome as (kws & k & Hp & Hk & _).
    destruct (proper_spec patterns patterns_proper pattern kws k Hp Hk) as [Hne _].
    exact Hne.
Qed.

End PatternFacts.

(** ** src/optimized-ai-system.py: [PerformanceMonitor] *)

Module MonitorFacts.
Import Monitor.

Lemma deque_append_window (maxlen : nat) (l : list Q) (x : Q) :
  (1 <= maxlen)%nat ->
  deque_append maxlen (skipn (List.length l - maxlen) l) x
  = skipn (List.length (l ++ [x]) - maxlen) (l ++ [x]).
Proof.
  intros Hmax. unfold deque_append.
  rewrite !length_app, length_skipn. cbn [List.length].
  destruct (Nat.le_gt_cases (List.length l) maxlen) as [Hle|Hgt].
  - replace (List.length l - maxlen)%nat with 0%nat by lia. cbn [skipn].
    f_equal. lia.
  - rewrite skipn_app.
    replace (List.length l - (List.length l - maxlen) + 1 - maxlen)%nat with 1%nat by lia.
    replace (List.length l + 1 - maxlen)%nat with (1 + (List.length l - maxlen))%nat by lia.
    rewrite length_skipn.
    replace (1 - (List.length l - (List.length l - maxlen)))%nat with 0%nat by lia.
    rewrite skipn_app.
    replace (1 + (List.length l - maxlen) - List.length l)%nat with 0%nat by lia.
    cbn [skipn]. f_equal. rewrite <- skipn_skipn. reflexivity.
Qed.

Lemma ended_app (a b : list Event) : ended (a ++ b) = ended a ++ ended b.
Proof. unfold ended. apply flat_map_app. Qed.

Lemma errors_app (a b : list Event) : errors (a ++ b) = errors a + errors b.
Proof. unfold errors, PyStr.len. rewrite List.filter_app, length_app. lia. Qed.

Lemma hits_app (a b : list Event) : hits (a ++ b) = hits a + hits b.
Proof. unfold hits, PyStr.len. rewrite List.filter_app, length_app. lia. Qed.

Lemma started_app (a b : list Event) : started (a ++ b) = started a + started b.
Proof. unfold started, PyStr.len. rewrite List.filter_app, length_app. lia. Qed.

Lemma hits_bound (events : list Event) : 0 <= hits events <= PyStr.len (ended events).
Proof.
  unfold hits, ended, PyStr.len. induction events as [|[|t s [|]] events IH]; cbn in *; lia.
Qed.

Lemma errors_bound (events : list Event) : 0 <= errors events <= PyStr.len (ended events).
Proof.
  unfold errors, ended, PyStr.len. induction events as [|[|t [|] h] events IH]; cbn in *; lia.
Qed.

Section World.

Context {W : Type}.
Variable time_time : W -> Q * W.
Variable request_name : Q -> string.

Lemma run_invariant (events : list Event) :
  forall (history : list Event) (self : PerformanceMonitor) (request_id : string) (w : W),
  invariant history self ->
  invariant (history ++ events) (fst (run time_time request_name events self request_id w)).
Proof.
  induction events as [|e events IH]; intros history self request_id w Hinv.
  - rewrite app_nil_r. exact Hinv.
  - replace (history ++ e :: events) with ((history ++ [e]) ++ events)
      by (rewrite <- app_assoc; reflexivity).
    destruct Hinv as (Hcount & Hhits & Hmiss & Herr & Hconc & Htimes & Havg).
    destruct e as [|t success hit]; cbn [run].
    + unfold start_request. destruct (time_time w) as [now w1].
      apply IH. unfold invariant. cbn [metrics request_times request_count cache_hits
        cache_misses error_count concurrent_requests avg_response_time].
      rewrite ended_app, errors_app, hits_app, started_app. cbn [ended flat_map].
      rewrite app_nil_r.
      change (errors [Start]) with 0. change (hits [Start]) with 0.
      change (started [Start]) with 1.
      rewrite !Z.add_0_r. repeat (split; [assumption|]). split; [lia|]. auto.
    + apply IH. unfold invariant, end_request.
      cbn [metrics request_times request_count cache_hits cache_misses error_count
           concurrent_requests avg_response_time].
      rewrite ended_app, errors_app, hits_app, started_app.
      change (ended [End t success hit]) with [t].
      change (started [End t success hit]) with 0.
      rewrite Htimes, deque_append_window by lia.
      assert (Hlen : PyStr.len (ended history ++ [t]) = PyStr.len (ended history) + 1).
      { unfold PyStr.len. rewrite length_app. cbn. lia. }
      split; [lia|].
      split; [destruct hit; cbn; unfold hits, PyStr.len in *; cbn; lia|].
      split; [destruct hit; cbn; unfold hits, PyStr.len in *; cbn; lia|].
      split; [destruct success; cbn; unfold errors, PyStr.len in *; cbn; lia|].
      split; [lia|]. split; [reflexivity|].
      intros _.
      destruct (skipn _ (ended history ++ [t])) eqn:E; [|reflexivity].
      exfalso. apply (f_equal (@List.length Q)) in E. rewrite length_skipn, length_app in E.
      cbn in E. lia.
Qed.

Lemma new_monitor_invariant : invariant [] new_monitor.
Proof.
  unfold invariant, new_monitor, hits, errors, started, ended, PyStr.len. cbn.
  repeat split; try reflexivity; try lia; try congruence.
Qed.

(** Whatever calls are made on a monitor, its counters agree: every ended
    request is either a cache hit or a cache miss, the errors are among
    the requests, and the number of concurrent requests is never negative
    and never above the number of requests started. *)
Theorem monitor_counters_agree (events : list Event) (w : W) :
  let m := metrics (fst (run time_time request_name events new_monitor "" w)) in
  request_count m = PyStr.len (ended events)
  /\ request_count m = cache_hits m + cache_misses m
  /\ 0 <= cache_hits m /\ 0 <= cache_misses m
  /\ 0 <= error_count m <= request_count m
  /\ 0 <= concurrent_requests m <= started events.
Proof.
  cbv zeta.
  destruct (run_invariant events [] new_monitor "" w new_monitor_invariant)
    as (Hcount & Hhits & Hmiss & Herr & Hconc & _).
  cbn [app] in *. pose proof (hits_bound events). pose proof (errors_bound events).
  lia.
Qed.

(** The monitor keeps the response times of the last 1000 ended requests,
    and once a request has ended [avg_response_time] is their mean. *)
Theorem monitor_average_over_last_thousand (events : list Event) (w : W) :
  let self := fst (run time_time request_name events new_monitor "" w) in
  request_times self
  = skipn (List.length (ended events) - 1000) (ended events)
  /\ (List.length (request_times self) <= 1000)%nat
  /\ (ended events <> [] ->
      avg_response_time (metrics self)
      = (PyNum.py_sum (request_times self) / inject_Z (PyStr.len (request_times self)))%Q
      /\ request_times self <> []).
Proof.
  cbv zeta.
  destruct (run_invariant events [] new_monitor "" w new_monitor_invariant)
    as (_ & _ & _ & _ & _ & Htimes & Havg).
  cbn [app] in *. split; [exact Htimes|]. split.
  - rewrite Htimes, length_skipn. lia.
  - intros Hne. split; [apply Havg; exact Hne|].
    rewrite Htimes. intros E. apply (f_equal (@List.length Q)) in E.
    rewrite length_skipn in E. cbn in E.
    destruct (ended events); [congruence | cbn in E; lia].
Qed.

(** The two rates that [get_system_metrics] reports are percentages:
    both lie in [0, 100], and the divisions are defined even before the
    first request. *)
Theorem monitor_rates_are_percentages (events : list Event) (w : W) :
  let self := fst (run time_time request_name events new_monitor "" w) in
  (0 <= cache_hit_rate self <= 100)%Q /\ (0 <= error_rate self <= 100)%Q.
Proof.
  cbv zeta.
  destruct (run_invariant events [] new_monitor "" w new_monitor_invariant)
    as (Hcount & Hhits & Hmiss & Herr & _).
  cbn [app] in *. pose proof (hits_bound events) as Hh. pose proof (errors_bound events) as He.
  assert (Hrate : forall a b : Z, 0 <= a <= b ->
            (0 <= inject_Z a / inject_Z (Z.max b 1) * 100 <= 100)%Q).
  { intros a b Hab.
    assert (Hpos : (0 < inject_Z (Z.max b 1))%Q) by (unfold Qlt, inject_Z; cbn; lia).
    assert (H0 : (0 <= inject_Z a / inject_Z (Z.max b 1))%Q).
    { apply Qle_shift_div_l; [exact Hpos|]. rewrite Qmult_0_l.
      unfold Qle, inject_Z. cbn. lia. }
    assert (H1 : (inject_Z a / inject_Z (Z.max b 1) <= 1)%Q).
    { apply Qle_shift_div_r; [exact Hpos|]. rewrite Qmult_1_l.
      unfold Qle, inject_Z. cbn. lia. }
    split; lra. }
  unfold cache_hit_rate, error_rate. split; apply Hrate; lia.
Qed.

End World.

End MonitorFacts.

(** ** src/optimized-ai-system.py: [_adaptive_provider_selection] *)

Module ProviderSelectionFacts.
Import Optimized ProviderSelection.

Lemma available_spec (availability : list (string * bool)) (p : string) :
  In p (available availability) <-> In (p, true) availability.
Proof.
  unfold available. rewrite in_map_iff. split.
  - intros ([p' b] & Hp & Hin). apply List.filter_In in Hin. destruct Hin as [Hin Hb].
    cbn in *. subst. exact Hin.
  - intros Hin. exists (p, true). split; [reflexivity|].
    apply List.filter_In. split; [exact Hin | reflexivity].
Qed.

Lemma existsb_eqb (x : string) (l : list string) :
  existsb (String.eqb x) l = true <-> In x l.
Proof.
  rewrite existsb_exists. split.
  - intros (y & Hy & Heq). apply String.eqb_eq in Heq. subst. exact Hy.
  - intros H. exists x. split; [exact H | apply String.eqb_refl].
Qed.

Lemma adaptive_provider_member (provider_stats : gmap string ProviderStats)
  (providers : list string) (pattern : QueryPattern) :
  providers <> [] ->
  exists p, _get_adaptive_provider provider_stats providers pattern = Some p /\ In p providers.
Proof.
  destruct providers as [|first [|second rest]]; [congruence| |]; intros _.
  - exists first. split; [reflexivity | left; reflexivity].
  - unfold _get_adaptive_provider. eexists. split; [reflexivity|].
    rewrite SelectionFacts.adaptive_step_score_step.
    destruct (SelectionFacts.best_of_loop (final_score provider_stats pattern)
                (first :: second :: rest) first 0%Q)
      as [[Hr _]|(before & chosen & after & Hr & Hl & _)]; rewrite Hr; cbn [fst].
    + left. reflexivity.
    + rewrite Hl. apply in_or_app. right. left. reflexivity.
Qed.

(** The loop keeps the same provider under two scores that agree on the
    providers it runs over. *)
Lemma score_loop_ext (f g : string -> Q) (l : list string) :
  (forall p, In p l -> (f p == g p)%Q) ->
  forall (b : string) (s s' : Q), (s == s')%Q ->
  fst (fold_left (score_step f) l (b, s)) = fst (fold_left (score_step g) l (b, s'))
  /\ (snd (fold_left (score_step f) l (b, s)) == snd (fold_left (score_step g) l (b, s')))%Q.
Proof.
  induction l as [|x l IH]; intros Hfg b s s' Hs; [cbn; auto|].
  cbn [fold_left]. unfold score_step at 2 4 6 8. cbn [snd].
  assert (Hx : (f x == g x)%Q) by (apply Hfg; left; reflexivity).
  assert (Hl : forall p, In p l -> (f p == g p)%Q) by (intros p Hp; apply Hfg; right; exact Hp).
  destruct (PyNum.Qlt_bool s (f x)) eqn:E1; destruct (PyNum.Qlt_bool s' (g x)) eqn:E2.
  - apply IH; assumption.
  - apply Qlt_bool_iff in E1. apply Qlt_bool_false_iff in E2. lra.
  - apply Qlt_bool_false_iff in E1. apply Qlt_bool_iff in E2. lra.
  - apply IH; assumption.
Qed.

Lemma boost_is_one (pattern : QueryPattern) (providers : list string) (p : string) :
  preferred_provider pattern = "auto"%string \/ ~ In (preferred_provider pattern) providers ->
  In p providers -> pattern_boost pattern p = 1%Q.
Proof.
  intros Hpref Hp. unfold pattern_boost.
  assert (Hne : preferred_provider pattern <> "auto"%string ->
                String.eqb p (preferred_provider pattern) = false).
  { intros Hauto. apply String.eqb_neq. intros ->. destruct Hpref; contradiction. }
  destruct pattern; cbn in *; try reflexivity; rewrite Hne by discriminate; reflexivity.
Qed.

Lemma adaptive_without_boost (provider_stats : gmap string ProviderStats)
  (providers : list string) (pattern : QueryPattern) :
  providers <> [] ->
  preferred_provider pattern = "auto"%string \/ ~ In (preferred_provider pattern) providers ->
  _get_adaptive_provider provider_stats providers pattern
  = Some (best_by_base_score provider_stats providers).
Proof.
  intros Hne Hpref. unfold best_by_base_score.
  destruct providers as [|first [|second rest]]; [congruence| |].
  - cbn. unfold score_step. destruct (PyNum.Qlt_bool _ _); reflexivity.
  - unfold _get_adaptive_provider. f_equal. cbn [hd].
    rewrite SelectionFacts.adaptive_step_score_step.
    apply score_loop_ext; [|reflexivity].
    intros p Hp. unfold final_score. rewrite (boost_is_one pattern _ p Hpref Hp). ring.
Qed.

(** Every provider that [_adaptive_provider_selection] returns is marked
    available, and it returns none only when none is available; when it
    raises, some provider was available. *)
Theorem selection_returns_available_providers (provider_stats : gmap string ProviderStats)
  (strategy : option string) (compare_responses : bool) (pattern_type : QueryPattern)
  (availability : list (string * bool)) :
  match _adaptive_provider_selection provider_stats strategy compare_responses pattern_type
          availability with
  | inl selected =>
      (forall p, In p selected -> In (p, true) availability)
      /\ (selected = [] <-> forall p, ~ In (p, true) availability)
  | inr _ => exists p, In (p, true) availability
  end.
Proof.
  unfold _adaptive_provider_selection.
  pose proof (available_spec availability) as Hav.
  destruct (available availability) as [|first rest] eqn:E.
  - split; [intros p []|]. split; [|reflexivity].
    intros _ p Hp. apply Hav in Hp. exact Hp.
  - assert (Hall : (forall p, In p (first :: rest) -> In (p, true) availability)
                   /\ (first :: rest = [] <-> forall p, ~ In (p, true) availability)).
    { split; [intros p Hp; apply Hav; exact Hp|]. split; [discriminate|].
      intros H. exfalso. apply (H first). apply Hav. left. reflexivity. }
    destruct (compare_responses && _); [exact Hall|].
    destruct (negb _ && existsb _ _) eqn:Epref.
    + apply andb_true_iff in Epref. destruct Epref as [_ Hin]. apply existsb_eqb in Hin.
      split.
      * intros p [<-|[]]. apply Hav. exact Hin.
      * split; [discriminate|]. intros H. exfalso. apply (H first). apply Hav. left. reflexivity.
    + destruct (String.eqb _ "both"); [exact Hall|].
      assert (Hraise : exists p, In (p, true) availability).
      { exists first. apply Hav. left. reflexivity. }
      destruct (adaptive_provider_member provider_stats (first :: rest) pattern_type)
        as (p & Hp & Hin); [discriminate|].
      destruct (match strategy with Some s => String.eqb s "adaptive" | None => false end);
        [|exact Hraise].
      rewrite Hp. split.
      * intros q [<-|[]]. apply Hav. exact Hin.
      * split; [discriminate|]. intros H. exfalso. apply (H first). apply Hav.
        left. reflexivity.
Qed.

(** Under the strategy ["adaptive"] the selection never raises, and the
    boost that [_get_adaptive_provider] gives a provider for the pattern
    never decides it: what is selected is all available providers, or the
    provider preferred for the pattern, or the provider that is best by
    [base_score] alone. *)
Theorem selection_never_decided_by_pattern_boost (provider_stats : gmap string ProviderStats)
  (compare_responses : bool) (pattern_type : QueryPattern)
  (availability : list (string * bool)) :
  match _adaptive_provider_selection provider_stats (Some "adaptive"%string) compare_responses
          pattern_type availability with
  | inl selected =>
      selected = available availability
      \/ (selected = [preferred_provider pattern_type]
          /\ In (preferred_provider pattern_type) (available availability))
      \/ selected = [best_by_base_score provider_stats (available availability)]
  | inr _ => False
  end.
Proof.
  unfold _adaptive_provider_selection.
  destruct (available availability) as [|first rest] eqn:E; [left; reflexivity|].
  destruct (compare_responses && _); [left; reflexivity|].
  destruct (negb _ && existsb _ _) eqn:Epref.
  - right. left. split; [reflexivity|].
    apply andb_true_iff in Epref. destruct Epref as [_ Hin]. apply existsb_eqb in Hin.
    exact Hin.
  - destruct (String.eqb _ "both"); [left; reflexivity|].
    cbn [String.eqb Ascii.eqb Bool.eqb andb].
    rewrite adaptive_without_boost; [right; right; reflexivity | discriminate |].
    apply andb_false_iff in Epref. destruct Epref as [Hauto|Hin].
    + left. apply negb_false_iff in Hauto. apply String.eqb_eq in Hauto. exact Hauto.
    + right. intros H. apply existsb_eqb in H. congruence.
Qed.

(** With any strategy but ["adaptive"] (the configuration names
    ["performance"] and ["round_robin"]), a request that is not a
    comparison and whose pattern has no available preferred provider makes
    [_adaptive_provider_selection] raise: the method it falls back to does
    not exist in the class. *)
Theorem selection_needs_adaptive_strategy (provider_stats : gmap string ProviderStats)
  (strategy : option string) (pattern_type : QueryPattern)
  (availability : list (string * bool)) (p : string) :
  strategy <> Some "adaptive"%string ->
  pattern_type <> ANALYSIS ->
  preferred_provider pattern_type = "auto"%string
  \/ ~ In (preferred_provider pattern_type, true) availability ->
  In (p, true) availability ->
  _adaptive_provider_selection provider_stats strategy false pattern_type availability
  = inr (Gemini.OtherException no_such_method).
Proof.
  intros Hstrategy Hpattern Hpref Hp. unfold _adaptive_provider_selection.
  apply available_spec in Hp.
  destruct (available availability) as [|first rest] eqn:E; [destruct Hp|].
  cbn [andb].
  assert (H1 : negb (String.eqb (preferred_provider pattern_type) "auto")
               && existsb (String.eqb (preferred_provider pattern_type)) (first :: rest)
               = false).
  { apply andb_false_iff. destruct Hpref as [Hauto|Hnot].
    - left. rewrite Hauto. reflexivity.
    - right. destruct (existsb _ _) eqn:Ex; [|reflexivity].
      exfalso. apply Hnot. apply available_spec. rewrite E. apply existsb_eqb. exact Ex. }
  rewrite H1.
  assert (H2 : String.eqb (preferred_provider pattern_type) "both" = false).
  { destruct pattern_type; try reflexivity. congruence. }
  rewrite H2.
  assert (H3 : match strategy with Some s => String.eqb s "adaptive" | None => false end
               = false).
  { destruct strategy as [s|]; [|reflexivity]. apply String.eqb_neq. congruence. }
  rewrite H3. reflexivity.
Qed.

(** Both providers available, the strategy ["performance"], a general
    question. *)
Lemma selection_needs_adaptive_strategy_witness :
  _adaptive_provider_selection initial_provider_stats (Some "performance"%string) false GENERAL
    [("gemini"%string, true); ("llama2"%string, true)]
  = inr (Gemini.OtherException no_such_method).
Proof.
  apply (selection_needs_adaptive_strategy initial_provider_stats (Some "performance"%string)
           GENERAL [("gemini"%string, true); ("llama2"%string, true)] "gemini").
  - discriminate.
  - discriminate.
  - left. reflexivity.
  - left. reflexivity.
Defined.

End ProviderSelectionFacts.

(** ** src/optimized-ai-system.py: the consultations of the providers *)

Module ConsultationFacts.
Import Optimized Consultations.

Lemma requests_after_update (provider_stats : gmap string ProviderStats)
  (name : string) (ok : bool) (response_time : Q) (p : string) :
  requests_of (_update_provider_stats_optimized provider_stats name ok response_time) p
  = requests_of provider_stats p + (if String.eqb name p then 1 else 0).
Proof.
  unfold requests_of, _update_provider_stats_optimized.
  destruct (String.eqb name p) eqn:E.
  - apply String.eqb_eq in E. subst p. rewrite lookup_insert_eq. reflexivity.
  - apply String.eqb_neq in E. rewrite lookup_insert_ne by exact E. lia.
Qed.

Lemma responses_of_app (a b : list Response) (p : string) :
  responses_of (a ++ b) p = responses_of a p + responses_of b p.
Proof. unfold responses_of, PyStr.len. rewrite List.filter_app, length_app. lia. Qed.

Lemma responses_of_cons (r : Response) (l : list Response) (p : string) :
  responses_of (r :: l) p = (if String.eqb (provider_of r) p then 1 else 0) + responses_of l p.
Proof.
  unfold responses_of, PyStr.len. cbn [List.filter].
  destruct (String.eqb (provider_of r) p); cbn [List.length]; lia.
Qed.

Section World.

Context {W : Type}.
Variable time_time : W -> Q * W.
Variable consult_gemini : Gemini.ConsultationRequest -> Q -> W -> Awaited * W.
Variable consult_llama2 : Gemini.ConsultationRequest -> Q -> W -> Awaited * W.
Variable primary_model : string.
Variable default_model : string.
Variable timeout_message : Q -> string.
Variable timeout_total : Q.

Lemma consult_optimized_spec (name : string)
  (ask : Gemini.ConsultationRequest -> Q -> W -> Awaited * W) (model : string)
  (provider_stats : gmap string ProviderStats) (request : Request) (w : W) :
  exists response_time,
    provider_of (fst (fst (consult_optimized time_time timeout_message timeout_total name ask
                             model provider_stats request w))) = name
    /\ snd (fst (consult_optimized time_time timeout_message timeout_total name ask model
                   provider_stats request w))
       = _update_provider_stats_optimized provider_stats name
           (success (fst (fst (consult_optimized time_time timeout_message timeout_total name
                                 ask model provider_stats request w))))
           response_time.
Proof.
  unfold consult_optimized. destruct (time_time w) as [start w1].
  destruct (ask _ _ w1) as [awaited w2]. destruct (time_time w2) as [now w3].
  exists (now - start)%Q.
  destruct awaited as [response| |e]; [destruct (Gemini.truthy response)| |];
    cbn; split; reflexivity.
Qed.

Lemma sequential_loop_spec (request : Request) (providers : list string) :
  forall (acc : list Response) (provider_stats : gmap string ProviderStats) (w : W),
  exists new rest,
    fst (fst (sequential_loop time_time consult_gemini consult_llama2 primary_model
                default_model timeout_message timeout_total providers acc provider_stats
                request w)) = acc ++ new
    /\ known providers = map provider_of new ++ rest
    /\ (rest <> [] ->
        compare_responses request = false
        /\ exists init r, new = init ++ [r] /\ success r = true)
    /\ (compare_responses request = false ->
        forall r, In r (removelast new) -> success r = false)
    /\ forall p,
         requests_of
           (snd (fst (sequential_loop time_time consult_gemini consult_llama2 primary_model
                        default_model timeout_message timeout_total providers acc
                        provider_stats request w))) p
         = requests_of provider_stats p + responses_of new p.
Proof.
  induction providers as [|provider providers IH]; intros acc provider_stats w.
  - exists [], []. cbn. rewrite app_nil_r. split; [reflexivity|]. split; [reflexivity|].
    split; [congruence|]. split; [intros _ r []|]. intros p. unfold responses_of, PyStr.len. cbn. lia.
  - cbn [sequential_loop known List.filter].
    assert (Hstep : forall (name : string)
                      (ask : Gemini.ConsultationRequest -> Q -> W -> Awaited * W)
                      (model : string),
              provider = name ->
              exists new rest,
                fst (fst (let '(response, provider_stats1, w1) :=
                            consult_optimized time_time timeout_message timeout_total name ask
                              model provider_stats request w in
                          if success response && negb (compare_responses request)
                          then (acc ++ [response], provider_stats1, w1)
                          else sequential_loop time_time consult_gemini consult_llama2
                                 primary_model default_model timeout_message timeout_total
                                 providers (acc ++ [response]) provider_stats1 request w1))
                = acc ++ new
                /\ provider :: known providers = map provider_of new ++ rest
                /\ (rest <> [] ->
                    compare_responses request = false
                    /\ exists init r, new = init ++ [r] /\ success r = true)
                /\ (compare_responses request = false ->
                    forall r, In r (removelast new) -> success r = false)
                /\ forall p,
                     requests_of
                       (snd (fst (let '(response, provider_stats1, w1) :=
                                    consult_optimized time_time timeout_message timeout_total
                                      name ask model provider_stats request w in
                                  if success response && negb (compare_responses request)
                                  then (acc ++ [response], provider_stats1, w1)
                                  else sequential_loop time_time consult_gemini consult_llama2
                                         primary_model default_model timeout_message
                                         timeout_total providers (acc ++ [response])
                                         provider_stats1 request w1))) p
                     = requests_of provider_stats p + responses_of new p).
    { intros name ask model Hname.
      destruct (consult_optimized_spec name ask model provider_stats request w)
        as (rt & Hprov & Hstats).
      destruct (consult_optimized time_time timeout_message timeout_total name ask model
                  provider_stats request w) as [[response stats1] w1].
      cbn [fst snd] in Hprov, Hstats.
      destruct (success response && negb (compare_responses request)) eqn:Estop.
      - apply andb_true_iff in Estop. destruct Estop as [Hok Hcmp].
        apply negb_true_iff in Hcmp.
        exists [response], (known providers). cbn [fst snd map app].
        split; [reflexivity|]. split; [rewrite Hprov, Hname; reflexivity|].
        split; [intros _; split; [exact Hcmp|]; exists [], response; auto|].
        split; [intros _ r []|].
        intros p. rewrite Hstats, requests_after_update, responses_of_cons, Hprov.
        unfold responses_of, PyStr.len. cbn. lia.
      - destruct (IH (acc ++ [response]) stats1 w1)
          as (new & rest & Hres & Hknown & Hrest & Hinit & Hreq).
        exists (response :: new), rest.
        split; [rewrite Hres, <- app_assoc; reflexivity|].
        split; [cbn [map app]; rewrite Hprov, Hname, Hknown; reflexivity|].
        split.
        + intros Hne. destruct (Hrest Hne) as (Hcmp & init & r & Hnew & Hok).
          split; [exact Hcmp|]. exists (response :: init), r. rewrite Hnew. auto.
        + split.
          * intros Hcmp r Hr.
            assert (Hfail : success response = false).
            { rewrite Hcmp in Estop. cbn in Estop. rewrite andb_true_r in Estop. exact Estop. }
            destruct new as [|r' new']; [destruct Hr|].
            change (removelast (response :: r' :: new'))
              with (response :: removelast (r' :: new')) in Hr.
            destruct Hr as [<-|Hr]; [exact Hfail | apply (Hinit Hcmp); exact Hr].
          * intros p. rewrite Hreq, Hstats, requests_after_update, responses_of_cons, Hprov.
            lia. }
    destruct (String.eqb provider "gemini") eqn:Eg.
    + apply String.eqb_eq in Eg. cbn [orb].
      apply (Hstep "gemini"%string consult_gemini primary_model Eg).
    + destruct (String.eqb provider "llama2") eqn:El.
      * apply String.eqb_eq in El. cbn [orb].
        apply (Hstep "llama2"%string consult_llama2 default_model El).
      * cbn [orb]. apply IH.
Qed.

(** [_execute_sequential_consultations] asks the providers it knows
    ("gemini" and "llama2") in the order given and skips the others.  It
    leaves providers unasked only when the request is not a comparison and
    the last response is a success; without comparison every response
    before the last is a failure. *)
Theorem sequential_consultations_stop_at_first_success
  (provider_stats : gmap string ProviderStats) (request : Request) (providers : list string)
  (w : W) :
  let responses :=
    fst (fst (_execute_sequential_consultations time_time consult_gemini consult_llama2
                primary_model default_model timeout_message timeout_total provider_stats
                request providers w)) in
  exists unasked,
    known providers = map provider_of responses ++ unasked
    /\ (unasked <> [] ->
        compare_responses request = false
        /\ exists failed r, responses = failed ++ [r] /\ success r = true)
    /\ (compare_responses request = false ->
        forall r, In r (removelast responses) -> success r = false).
Proof.
  cbv zeta. unfold _execute_sequential_consultations.
  destruct (sequential_loop_spec request providers [] provider_stats w)
    as (new & rest & Hres & Hknown & Hrest & Hinit & _).
  cbn [app] in Hres. rewrite Hres. exists rest. auto.
Qed.

(** Every response of a sequential run has been recorded: for each
    provider, the number of requests in [provider_stats] grows by the
    number of responses of that provider. *)
Theorem sequential_consultations_are_recorded
  (provider_stats : gmap string ProviderStats) (request : Request) (providers : list string)
  (w : W) (provider : string) :
  let result :=
    _execute_sequential_consultations time_time consult_gemini consult_llama2
      primary_model default_model timeout_message timeout_total provider_stats
      request providers w in
  requests_of (snd (fst result)) provider
  = requests_of provider_stats provider + responses_of (fst (fst result)) provider.
Proof.
  cbv zeta. unfold _execute_sequential_consultations.
  destruct (sequential_loop_spec request providers [] provider_stats w)
    as (new & rest & Hres & _ & _ & _ & Hreq).
  cbn [app] in Hres. rewrite Hres. apply Hreq.
Qed.

End World.

End ConsultationFacts.

(** ** src/optimized-ai-system.py: the analytics of the queries *)

Module AnalyticsFacts.
Import Optimized Analytics.

Lemma eqb_refl (p : QueryPattern) : pattern_eqb p p = true.
Proof. destruct p; reflexivity. Qed.

Lemma eqb_sym (p q : QueryPattern) : pattern_eqb p q = pattern_eqb q p.
Proof. destruct p, q; reflexivity. Qed.

Lemma stats_set_in (pattern : QueryPattern) (s : PatternStats)
  (d : list (QueryPattern * PatternStats)) (p : QueryPattern) (s' : PatternStats) :
  In (p, s') (stats_set pattern s d) -> s' = s \/ In (p, s') d.
Proof.
  induction d as [|[q t] d IH]; cbn.
  - intros [H|[]]. inversion H. auto.
  - destruct (pattern_eqb pattern q).
    + intros [H|H]; [inversion H; auto | auto].
    + intros [H|H]; [auto|]. destruct (IH H); auto.
Qed.

Lemma stats_get_in (pattern : QueryPattern) (d : list (QueryPattern * PatternStats))
  (s : PatternStats) :
  stats_get pattern d = Some s -> exists p, In (p, s) d.
Proof.
  induction d as [|[q t] d IH]; cbn; [discriminate|].
  destruct (pattern_eqb pattern q).
  - intros H. inversion H; subst. exists q. auto.
  - intros H. destruct (IH H) as (p & Hp). exists p. auto.
Qed.

Lemma update_pattern_stats_ok (self : State) (pattern : QueryPattern) (response_time : Q)
  (hit : bool) :
  counted self ->
  exists self',
    _update_pattern_stats self pattern response_time hit = (None, self')
    /\ counted self'
    /\ query_analytics self' = query_analytics self
    /\ analytics_enabled self' = analytics_enabled self
    /\ cache self' = cache self.
Proof.
  intros Hc. unfold _update_pattern_stats.
  assert (Hpos : 0 <= count (default no_stats (stats_get pattern (pattern_stats self)))).
  { destruct (stats_get pattern (pattern_stats self)) as [s|] eqn:E; cbn; [|lia].
    destruct (stats_get_in _ _ _ E) as (p & Hp). exact (Hc p s Hp). }
  cbn [count avg_time cache_hits].
  destruct (_ + 1 =? 0) eqn:E0; [apply Z.eqb_eq in E0; lia|].
  eexists. split; [reflexivity|]. split; [|cbn; auto].
  intros p s Hin. cbn [pattern_stats] in Hin. apply stats_set_in in Hin.
  destruct Hin as [->|Hin]; [cbn; lia | exact (Hc p s Hin)].
Qed.

Lemma last_n_length {A : Type} (n : nat) (l : list A) : (List.length (last_n n l) <= n)%nat.
Proof. unfold last_n. rewrite length_skipn. lia. Qed.

Lemma record_ok (self : State) (now : Z) (pattern : QueryPattern) (user : option string)
  (query : string) (response_time : Q) (provider : string) (hit : bool) :
  counted self -> PyStr.len (query_analytics self) <= 10000 ->
  exists self',
    _record_analytics self now pattern user query response_time provider hit = (None, self')
    /\ counted self'
    /\ PyStr.len (query_analytics self') <= 10000
    /\ analytics_enabled self' = analytics_enabled self
    /\ cache self' = cache self
    /\ (analytics_enabled self = false -> self' = self)
    /\ (analytics_enabled self = true ->
        exists kept, query_analytics self'
                     = kept ++ [mkQueryAnalytics pattern response_time provider hit user now
                                  (Z.of_nat (String.length query)) 0 true]).
Proof.
  intros Hc Hlen. unfold _record_analytics.
  destruct (analytics_enabled self) eqn:Een; cbn [negb].
  - match goal with
    | |- context [_update_pattern_stats ?s _ _ _] =>
        destruct (update_pattern_stats_ok s pattern response_time hit)
          as (self' & Hup & Hc' & Hqa & Hen & Hcache); [exact Hc|]
    end.
    exists self'. split; [exact Hup|]. split; [exact Hc'|].
    cbn [query_analytics analytics_enabled cache] in *.
    split.
    + unfold PyStr.len in *. rewrite Hqa, length_app. cbn [List.length].
      destruct (10000 <=? Z.of_nat (List.length (query_analytics self))) eqn:E.
      * pose proof (last_n_length 5000 (query_analytics self)). lia.
      * apply Z.leb_gt in E. lia.
    + split; [exact Hen|]. split; [exact Hcache|]. split; [discriminate|].
      intros _. eexists. exact Hqa.
  - exists self. split; [reflexivity|]. split; [exact Hc|]. split; [exact Hlen|].
    split; [exact Een|]. split; [reflexivity|]. split; [auto | discriminate].
Qed.

Lemma record_all_ok (calls : list Call) :
  forall self, counted self -> PyStr.len (query_analytics self) <= 10000 ->
  exists self',
    record_all self calls = (None, self')
    /\ counted self'
    /\ PyStr.len (query_analytics self') <= 10000
    /\ analytics_enabled self' = analytics_enabled self
    /\ cache self' = cache self
    /\ (analytics_enabled self = false -> self' = self).
Proof.
  induction calls as [|[[[[[[now pattern] user] query] rt] provider] hit] calls IH];
    intros self Hc Hlen.
  - exists self. cbn. auto 10.
  - cbn [record_all].
    destruct (record_ok self now pattern user query rt provider hit Hc Hlen)
      as (self1 & Hrec & Hc1 & Hlen1 & Hen1 & Hcache1 & Hoff1 & _).
    rewrite Hrec.
    destruct (IH self1 Hc1 Hlen1) as (self' & Hrun & Hc' & Hlen' & Hen' & Hcache' & Hoff').
    exists self'. split; [exact Hrun|]. split; [exact Hc'|]. split; [exact Hlen'|].
    split; [congruence|]. split; [congruence|].
    intros Hoff. rewrite Hoff' by congruence. apply Hoff1. exact Hoff.
Qed.

(** Starting from an integration without analytics, no run of
    [_record_analytics] raises, the list of analytics never holds more
    than 10000 entries, the cache is not touched, and with analytics
    disabled nothing is recorded at all. *)
Theorem analytics_stay_bounded (enabled : bool) (cache0 : AdvancedCache) (calls : list Call) :
  exists self',
    record_all (new_state enabled cache0) calls = (None, self')
    /\ PyStr.len (query_analytics self') <= 10000
    /\ cache self' = cache0
    /\ (enabled = false -> self' = new_state enabled cache0).
Proof.
  destruct (record_all_ok calls (new_state enabled cache0))
    as (self' & Hrun & _ & Hlen & _ & Hcache & Hoff).
  - intros p s [].
  - unfold PyStr.len. cbn. lia.
  - exists self'. auto.
Qed.

Lemma count_get_add (q : QueryPattern) (d : list (QueryPattern * Z)) (p : QueryPattern) :
  count_get p (count_add q d) = count_get p d + (if pattern_eqb q p then 1 else 0).
Proof.
  induction d as [|[r n] d IH]; cbn.
  - rewrite (eqb_sym p q). destruct (pattern_eqb q p); reflexivity.
  - destruct (pattern_eqb q r) eqn:Eqr; cbn.
    + apply PatternFacts.pattern_eqb_eq in Eqr. subst r.
      rewrite (eqb_sym p q). destruct (pattern_eqb q p); lia.
    + destruct (pattern_eqb p r) eqn:Epr; [|exact IH].
      apply PatternFacts.pattern_eqb_eq in Epr. subst r.
      rewrite Eqr. lia.
Qed.

Lemma count_add_keys (q : QueryPattern) (d : list (QueryPattern * Z)) (p : QueryPattern) :
  In p (map fst (count_add q d)) <-> p = q \/ In p (map fst d).
Proof.
  induction d as [|[r n] d IH]; cbn.
  - intuition.
  - destruct (pattern_eqb q r) eqn:Eqr; cbn.
    + apply PatternFacts.pattern_eqb_eq in Eqr. subst r. intuition.
    + rewrite IH. intuition.
Qed.

Lemma count_add_nodup (q : QueryPattern) (d : list (QueryPattern * Z)) :
  List.NoDup (map fst d) -> List.NoDup (map fst (count_add q d)).
Proof.
  induction d as [|[r n] d IH]; cbn; intros Hnd.
  - constructor; [intros []|constructor].
  - inversion Hnd as [|x l Hnot Hnd']; subst.
    destruct (pattern_eqb q r) eqn:Eqr; cbn.
    + constructor; assumption.
    + constructor; [|apply IH; exact Hnd'].
      rewrite count_add_keys. intros [->|H]; [|exact (Hnot H)].
      rewrite eqb_refl in Eqr. discriminate.
Qed.

Lemma count_get_in (d : list (QueryPattern * Z)) (p : QueryPattern) (n : Z) :
  List.NoDup (map fst d) -> In (p, n) d -> count_get p d = n.
Proof.
  induction d as [|[r m] d IH]; cbn; intros Hnd Hin; [destruct Hin|].
  inversion Hnd as [|x l Hnot Hnd']; subst.
  destruct Hin as [H|H].
  - inversion H; subst. rewrite eqb_refl. reflexivity.
  - destruct (pattern_eqb p r) eqn:E.
    + apply PatternFacts.pattern_eqb_eq in E. subst r. exfalso. apply Hnot.
      apply (in_map fst) in H. exact H.
    + apply IH; assumption.
Qed.

Lemma count_get_key (d : list (QueryPattern * Z)) (p : QueryPattern) :
  count_get p d <> 0 -> In (p, count_get p d) d.
Proof.
  induction d as [|[r m] d IH]; cbn; [congruence|].
  destruct (pattern_eqb p r) eqn:E.
  - apply PatternFacts.pattern_eqb_eq in E. subst r. auto.
  - auto.
Qed.

Lemma occurrences_app (p : QueryPattern) (a b : list QueryAnalytics) :
  occurrences p (a ++ b) = occurrences p a + occurrences p b.
Proof. unfold occurrences, PyStr.len. rewrite List.filter_app, length_app. lia. Qed.

Lemma counts_spec (l : list QueryAnalytics) :
  forall acc, List.NoDup (map fst acc) ->
  List.NoDup (map fst (fold_left (fun counts a => count_add (pattern_type a) counts) l acc))
  /\ forall p,
       count_get p (fold_left (fun counts a => count_add (pattern_type a) counts) l acc)
       = count_get p acc + occurrences p l.
Proof.
  induction l as [|a l IH]; intros acc Hnd; cbn [fold_left].
  - split; [exact Hnd|]. intros p. unfold occurrences, PyStr.len. cbn. lia.
  - destruct (IH (count_add (pattern_type a) acc) (count_add_nodup _ _ Hnd)) as [Hnd' Hget].
    split; [exact Hnd'|]. intros p. rewrite Hget, count_get_add.
    change (a :: l) with ([a] ++ l). rewrite occurrences_app.
    unfold occurrences at 2, PyStr.len. cbn [List.filter].
    destruct (pattern_eqb (pattern_type a) p); cbn [List.length]; lia.
Qed.

Lemma occurrences_two (p q : QueryPattern) (l : list QueryAnalytics) :
  p <> q -> occurrences p l + occurrences q l <= Z.of_nat (List.length l).
Proof.
  intros Hne. unfold occurrences, PyStr.len. induction l as [|a l IH]; cbn; [lia|].
  destruct (pattern_eqb (pattern_type a) p) eqn:Ep;
    destruct (pattern_eqb (pattern_type a) q) eqn:Eq; cbn [List.length]; try lia.
  apply PatternFacts.pattern_eqb_eq in Ep. apply PatternFacts.pattern_eqb_eq in Eq. congruence.
Qed.

Lemma most_common_spec (items : list (QueryPattern * Z)) :
  forall best,
    In (most_common best items) (best :: items)
    /\ forall x, In x (best :: items) -> snd x <= snd (most_common best items).
Proof.
  unfold most_common. induction items as [|item items IH]; intros best; cbn [fold_left].
  - split; [left; reflexivity|]. intros x [<-|[]]. lia.
  - destruct (snd best <? snd item) eqn:E.
    + apply Z.ltb_lt in E. destruct (IH item) as [Hin Hmax]. split.
      * destruct Hin as [H|H]; [right; left; exact H | right; right; exact H].
      * intros x [<-|Hx]; [|apply Hmax; exact Hx].
        specialize (Hmax item (or_introl eq_refl)). lia.
    + apply Z.ltb_ge in E. destruct (IH best) as [Hin Hmax]. split.
      * destruct Hin as [H|H]; [left; exact H | right; right; exact H].
      * intros x [<-|[<-|Hx]].
        -- apply Hmax. left. reflexivity.
        -- specialize (Hmax best (or_introl eq_refl)). lia.
        -- apply Hmax. right. exact Hx.
Qed.

(** [_optimize_based_on_patterns] changes one thing at most: it sets the
    TTL of the cache to 72 hours exactly when analytics are enabled and
    more than 500 of the last 1000 recorded queries are FAQ queries (then
    FAQ is the most common pattern); otherwise the state is left as it
    is. *)
Theorem optimize_extends_ttl_on_faq_majority (self : State) :
  _optimize_based_on_patterns self
  = if analytics_enabled self
       && (500 <? occurrences FAQ (last_n 1000 (query_analytics self)))
    then mkState (analytics_enabled self) (query_analytics self) (pattern_stats self)
           (mkAdvancedCache (max_size (cache self)) (72 * hour)
              (Optimized.cache (cache self)) (access_times (cache self)) (db (cache self)))
    else self.
Proof.
  unfold _optimize_based_on_patterns.
  destruct (analytics_enabled self); cbn [negb andb]; [|reflexivity].
  set (recent := last_n 1000 (query_analytics self)).
  destruct (counts_spec recent [] (List.NoDup_nil _)) as [Hnd Hget].
  cbn [count_get] in Hget.
  set (counts := fold_left (fun counts a => count_add (pattern_type a) counts) recent []) in *.
  assert (Hfaq : count_get FAQ counts = occurrences FAQ recent) by (rewrite Hget; lia).
  destruct counts as [|first others] eqn:Ecounts.
  - cbn [count_get] in Hfaq. rewrite <- Hfaq. reflexivity.
  - rewrite Hfaq.
    destruct (500 <? occurrences FAQ recent) eqn:Emany;
      [|rewrite andb_false_r; reflexivity].
    apply Z.ltb_lt in Emany.
    destruct (most_common_spec others first) as [Hin Hmax].
    destruct (most_common first others) as [p n] eqn:Ebest. cbn [fst snd] in *.
    assert (Hn : n = occurrences p recent).
    { rewrite <- (count_get_in (first :: others) p n Hnd Hin). rewrite Hget. lia. }
    assert (Hge : occurrences FAQ recent <= n).
    { apply (Hmax (FAQ, occurrences FAQ recent)). rewrite <- Hfaq.
      apply count_get_key. lia. }
    destruct (pattern_eqb p FAQ) eqn:Ep; [reflexivity|].
    exfalso.
    assert (Hne : p <> FAQ).
    { intros ->. discriminate. }
    pose proof (occurrences_two p FAQ recent Hne) as Htwo.
    pose proof (last_n_length 1000 (query_analytics self)) as Hlen.
    fold recent in Hlen. lia.
Qed.

End AnalyticsFacts.
